(** * Bharatam AI: eligibility engine, dialog engine and retrieval index

    A shallow embedding of the service classes of the repository

    - [app/services/eligibility.py]   (class [EligibilityEngine]),
    - [app/services/conversation.py]  (class [ConversationEngine]),
    - [app/services/knowledge_base.py] (class [KnowledgeBase]),
    - [app/services/data_loader.py]   (the statistics of the catalog),

    of the scheme routes of [app/api/schemes.py] and of the pydantic
    records of [app/models] they read, with the properties of the design
    document that can be checked against them.

    Conventions of the embedding.
    - Python [int] is [Z]; [Optional[T]] is [option T]; [str] is [string]
      (a sequence of bytes: string literals of the source are kept as
      their UTF-8 encoding).
    - Floating-point values are rationals ([Q]).  The confidence of a
      result, a quotient of two small integers, is kept exact: the
      double the interpreter computes is the correctly rounded value of
      that rational.  The distances and scores of the retrieval index
      are single-precision numbers ([numpy.float32]): the model rounds
      them to binary32, to nearest with ties to even ([Float32.single]);
      overflow to infinity is not modelled.
    - [datetime] values are integers counting microseconds; a
      [timedelta] is a difference of two of them.  The clock is an
      explicit argument [now] of every operation that calls
      [datetime.now()]; the successive readings taken inside one call are
      identified.
    - Objects mutated in place are passed and returned explicitly.  The
      process-wide session dictionary is a [gmap] from session
      identifiers to session states. *)

From Stdlib Require Import ZArith QArith Qfield Lqa List String Ascii Lia Bool.
From Stdlib Require Import Qround Qminmax Qpower.
From Stdlib Require Import DecimalString Sorting.Permutation Sorting.Sorted.
From stdpp Require Import gmap strings.

Import ListNotations.

(* ===================================================================== *)
(** * Python string and list primitives used by the services *)
(* ===================================================================== *)

Module Py.

(** [str(n)] and [f"{n}"] for an integer. *)
Definition str_of_int (n : Z) : string :=
  NilZero.string_of_int (Z.to_int n).

(** Digits are grouped by three from the right; the argument is the
    reversed digit sequence and [k] counts the digits already emitted in
    the current group. *)
Fixpoint commas_rev (ds : list ascii) (k : nat) : list ascii :=
  match ds with
  | [] => []
  | d :: ds' =>
      if Nat.eqb k 3 then ","%char :: d :: commas_rev ds' 1
      else d :: commas_rev ds' (S k)
  end.

(** [f"{n:,}"]: decimal with a comma as thousands separator. *)
Definition format_thousands (n : Z) : string :=
  let digits := list_ascii_of_string (str_of_int (Z.abs n)) in
  let body := string_of_list_ascii (rev (commas_rev (rev digits) 0)) in
  if (n <? 0)%Z then String "-"%char body else body.

(** [sep.join(parts)]. *)
Definition join (sep : string) (parts : list string) : string :=
  String.concat sep parts.

(** [x in xs] for a list of strings. *)
Definition str_in (x : string) (xs : list string) : bool :=
  existsb (String.eqb x) xs.

(** [s.upper()] for a string whose letters are ASCII, as the
    vocabularies of the application are ([general], [obc], [sc], [st]).
    [str.upper()] also maps the letters of other scripts, which this
    function leaves as they are: strings with such letters are outside
    the model. *)
Definition upper_ascii (c : ascii) : ascii :=
  let n := nat_of_ascii c in
  if (Nat.leb 97 n && Nat.leb n 122)%bool then ascii_of_nat (n - 32) else c.

Fixpoint upper (s : string) : string :=
  match s with
  | EmptyString => EmptyString
  | String c s' => String (upper_ascii c) (upper s')
  end.

(** The ASCII characters [str.strip()] removes: tab, line feed,
    vertical tab, form feed, carriage return, the four separators
    0x1c-0x1f and the space.  It also removes the white space of other
    scripts, which is outside the model. *)
Definition is_space (c : ascii) : bool :=
  let n := nat_of_ascii c in
  ((Nat.leb 9 n && Nat.leb n 13) || (Nat.leb 28 n && Nat.leb n 32))%bool.

Fixpoint lstrip_chars (cs : list ascii) : list ascii :=
  match cs with
  | [] => []
  | c :: cs' => if is_space c then lstrip_chars cs' else cs
  end.

(** [s.strip()]. *)
Definition strip (s : string) : string :=
  let l := lstrip_chars (list_ascii_of_string s) in
  string_of_list_ascii (rev (lstrip_chars (rev l))).

(** [d.get(k, default)] on a dictionary given by its items. *)
Fixpoint dict_get {V : Type} (d : list (string * V)) (k : string) (default : V) : V :=
  match d with
  | [] => default
  | (k', v) :: d' => if String.eqb k k' then v else dict_get d' k default
  end.

(** [int(s)] for a string: optional surrounding blanks, an optional
    sign, then decimal digits, single underscores allowed between
    digits.  [None] stands for [ValueError].  The digits are the ASCII
    ones; [int()] also reads the decimal digits of other scripts, which
    are outside the model. *)
Definition digit_of (c : ascii) : option Z :=
  let n := nat_of_ascii c in
  if (Nat.leb 48 n && Nat.leb n 57)%bool then Some (Z.of_nat (n - 48)) else None.

Fixpoint parse_digits (cs : list ascii) (acc : Z) (after_digit : bool) : option Z :=
  match cs with
  | [] => if after_digit then Some acc else None
  | c :: cs' =>
      match digit_of c with
      | Some d => parse_digits cs' (10 * acc + d)%Z true
      | None =>
          if (Ascii.eqb c "_" && after_digit)%bool
          then parse_digits cs' acc false
          else None
      end
  end.

Definition int_of_str (s : string) : option Z :=
  let cs := list_ascii_of_string (strip s) in
  match cs with
  | [] => None
  | c :: cs' =>
      if Ascii.eqb c "-" then option_map Z.opp (parse_digits cs' 0%Z false)
      else if Ascii.eqb c "+" then parse_digits cs' 0%Z false
      else parse_digits cs 0%Z false
  end.

(** The truth value of an optional integer ([x or d], [x and ...]):
    [None] and [0] are falsy.  A truthy one is returned. *)
Definition truthy_int (o : option Z) : option Z :=
  match o with
  | Some n => if (n =? 0)%Z then None else Some n
  | None => None
  end.

(** A dynamically typed argument: [None], an [int] or a [str]. *)
Inductive value : Type :=
| VNone
| VInt (n : Z)
| VStr (s : string).

(** [s.lower()] for a string whose letters are ASCII.  [str.lower()]
    also maps the letters of other scripts, which this function leaves
    as they are: strings with such letters are outside the model. *)
Definition lower_ascii (c : ascii) : ascii :=
  let n := nat_of_ascii c in
  if (Nat.leb 65 n && Nat.leb n 90)%bool then ascii_of_nat (n + 32) else c.

Fixpoint lower (s : string) : string :=
  match s with
  | EmptyString => EmptyString
  | String c s' => String (lower_ascii c) (lower s')
  end.

(** [sub in s] for two strings: [sub] occurs in [s] as a substring. *)
Fixpoint contains (sub s : string) : bool :=
  if String.prefix sub s then true
  else match s with
       | EmptyString => false
       | String _ s' => contains sub s'
       end.

(** [xs[:k]] for a list: the first [k] items, or all but the last [-k]
    when [k] is negative. *)
Definition slice_to {A : Type} (k : Z) (xs : list A) : list A :=
  if (k <? 0)%Z then firstn (length xs - Z.to_nat (- k)) xs
  else firstn (Z.to_nat k) xs.

(** The truth value of an optional string: [None] and the empty string
    are falsy.  A truthy one is returned. *)
Definition truthy_str (o : option string) : option string :=
  match o with
  | Some EmptyString => None
  | Some s => Some s
  | None => None
  end.

(** The truth value of an optional list: [None] and the empty list are
    falsy.  A truthy one is returned. *)
Definition truthy_list {A : Type} (o : option (list A)) : option (list A) :=
  match o with
  | Some [] => None
  | Some l => Some l
  | None => None
  end.

(** [xs[i]] for a list: a negative index counts from the end.  [None]
    stands for [IndexError]. *)
Definition getitem {A : Type} (xs : list A) (i : Z) : option A :=
  let n := Z.of_nat (length xs) in
  if (i <? 0)%Z then
    if (i + n <? 0)%Z then None else nth_error xs (Z.to_nat (i + n))
  else nth_error xs (Z.to_nat i).

End Py.

(* ===================================================================== *)
(** * Data model ([app/models]) *)
(* ===================================================================== *)

(** [app/models/user.py], class [UserProfile]: every attribute starts
  unset. *)
Module User.

Record UserProfile : Type := {
  age : option Z;
  state : option string;
  education_level : option string;
  income_range : option string;
  category : option string;
  occupation : option string;
  gender : option string
}.

(** [UserProfile()] *)
Definition empty : UserProfile :=
  {| age := None; state := None; education_level := None;
     income_range := None; category := None; occupation := None;
     gender := None |}.

(** [is_complete_for_eligibility] *)
Definition is_complete_for_eligibility (p : UserProfile) : bool :=
  match age p, state p with
  | Some _, Some _ => true
  | _, _ => false
  end.

(** [get_missing_fields] *)
Definition get_missing_fields (p : UserProfile) : list string :=
  let missing := [] in
  let missing := match age p with None => missing ++ ["age"%string] | Some _ => missing end in
  let missing := match state p with None => missing ++ ["state"%string] | Some _ => missing end in
  let missing := match education_level p with None => missing ++ ["education_level"%string] | Some _ => missing end in
  let missing := match income_range p with None => missing ++ ["income_range"%string] | Some _ => missing end in
  let missing := match category p with None => missing ++ ["category"%string] | Some _ => missing end in
  let missing := match occupation p with None => missing ++ ["occupation"%string] | Some _ => missing end in
  let missing := match gender p with None => missing ++ ["gender"%string] | Some _ => missing end in
  missing.

End User.

(** [app/models/scheme.py], classes [EligibilityCriteria], [Scheme] and
  [EligibilityResult]. *)
Module Sch.

Record EligibilityCriteria : Type := {
  min_age : option Z;
  max_age : option Z;
  states : option (list string);
  education_levels : option (list string);
  income_max : option Z;
  categories : option (list string);
  gender : option string;
  occupations : option (list string)
}.

Record Scheme : Type := {
  id : string;
  name : string;
  name_translations : list (string * string);
  description : string;
  description_translations : list (string * string);
  eligibility : EligibilityCriteria;
  benefits : string;
  required_documents : list string;
  application_process : string;
  application_url : option string;
  office_location : option string;
  deadline : option Z;
  source_url : string;
  last_updated : Z;
  embedding : option (list Q)
}.

Record EligibilityResult : Type := {
  scheme : Scheme;
  is_eligible : bool;
  confidence : Q;
  matching_criteria : list string;
  missing_criteria : list string;
  explanation : string
}.

(** A rule set without any constraint. *)
Definition unrestricted : EligibilityCriteria :=
  {| min_age := None; max_age := None; states := None;
     education_levels := None; income_max := None; categories := None;
     gender := None; occupations := None |}.

End Sch.

(* ===================================================================== *)
(** * Eligibility engine ([app/services/eligibility.py]) *)
(* ===================================================================== *)

Module Eligibility.

(** A yearly income ceiling in rupees; [Unbounded] is [float('inf')]. *)
Inductive ceiling : Type :=
| Rupees (r : Z)
| Unbounded.

(** [INCOME_RANGES] *)
Definition INCOME_RANGES : list (string * ceiling) :=
  [ ("below_1lakh", Rupees 100000);
    ("1-3lakh", Rupees 300000);
    ("3-5lakh", Rupees 500000);
    ("5-8lakh", Rupees 800000);
    ("above_8lakh", Unbounded) ].

(** [user_income > income_max], an integer or infinity against an
    integer. *)
Definition exceeds (c : ceiling) (limit : Z) : bool :=
  match c with
  | Rupees r => (limit <? r)%Z
  | Unbounded => true
  end.

(** The three local variables [matching_criteria], [missing_criteria] and
    [is_eligible] of [check_single_scheme]. *)
Record verdict : Type := {
  matching : list string;
  missing : list string;
  eligible : bool
}.

Definition start : verdict :=
  {| matching := []; missing := []; eligible := true |}.

(** [matching_criteria.append(msg)] *)
Definition satisfied (msg : string) (v : verdict) : verdict :=
  {| matching := matching v ++ [msg]; missing := missing v;
     eligible := eligible v |}.

(** [missing_criteria.append(msg); is_eligible = False] *)
Definition failed (msg : string) (v : verdict) : verdict :=
  {| matching := matching v; missing := missing v ++ [msg];
     eligible := false |}.

Definition is_some {A : Type} (o : option A) : bool :=
  match o with Some _ => true | None => false end.

(** [f"{eligibility.min_age or 0}-{eligibility.max_age or '∞'}"] *)
Definition age_range (e : Sch.EligibilityCriteria) : string :=
  let lo := match Py.truthy_int (Sch.min_age e) with
            | Some n => Py.str_of_int n
            | None => Py.str_of_int 0
            end in
  let hi := match Py.truthy_int (Sch.max_age e) with
            | Some n => Py.str_of_int n
            | None => "∞"%string
            end in
  String.append lo (String.append "-" hi).

(** ** The seven checks, in the order of the source *)

Definition check_age (p : User.UserProfile) (e : Sch.EligibilityCriteria)
    (v : verdict) : verdict :=
  if (is_some (Sch.min_age e) || is_some (Sch.max_age e))%bool then
    match User.age p with
    | None => failed "Age information required" v
    | Some a =>
        let below := match Sch.min_age e with
                     | Some lo => (a <? lo)%Z
                     | None => false
                     end in
        let above := match Sch.max_age e with
                     | Some hi => (hi <? a)%Z
                     | None => false
                     end in
        let v1 :=
          match Sch.min_age e with
          | Some lo =>
              if (a <? lo)%Z then
                failed (String.append "Minimum age requirement: "
                          (String.append (Py.str_of_int lo) " years")) v
              else v
          | None => v
          end in
        let v2 :=
          match Sch.max_age e with
          | Some hi =>
              if (hi <? a)%Z then
                failed (String.append "Maximum age requirement: "
                          (String.append (Py.str_of_int hi) " years")) v1
              else v1
          | None => v1
          end in
        if (negb below && negb above)%bool then
          satisfied (String.append "Age is within range ("
                       (String.append (age_range e) " years)")) v2
        else v2
    end
  else v.

Definition check_state (p : User.UserProfile) (e : Sch.EligibilityCriteria)
    (v : verdict) : verdict :=
  match Sch.states e with
  | None => v
  | Some allowed =>
      match User.state p with
      | None => failed "State information required" v
      | Some s =>
          if negb (Py.str_in s allowed) then
            failed (String.append "Scheme only available in: "
                      (Py.join ", " allowed)) v
          else
            satisfied (String.append "State matches ("
                         (String.append s ")")) v
      end
  end.

Definition check_education (p : User.UserProfile)
    (e : Sch.EligibilityCriteria) (v : verdict) : verdict :=
  match Sch.education_levels e with
  | None => v
  | Some allowed =>
      match User.education_level p with
      | None => failed "Education level information required" v
      | Some s =>
          if negb (Py.str_in s allowed) then
            failed (String.append "Required education: "
                      (Py.join ", " allowed)) v
          else
            satisfied (String.append "Education level matches ("
                         (String.append s ")")) v
      end
  end.

(** [f"Maximum income requirement: Rs. {eligibility.income_max:,} per year"] *)
Definition income_above_limit (limit : Z) : string :=
  String.append "Maximum income requirement: Rs. "
    (String.append (Py.format_thousands limit) " per year").

(** [f"Income is within limit (Rs. {eligibility.income_max:,} per year)"] *)
Definition income_within_limit (limit : Z) : string :=
  String.append "Income is within limit (Rs. "
    (String.append (Py.format_thousands limit) " per year)").

Definition check_income (p : User.UserProfile) (e : Sch.EligibilityCriteria)
    (v : verdict) : verdict :=
  match Sch.income_max e with
  | None => v
  | Some limit =>
      match User.income_range p with
      | None => failed "Income information required" v
      | Some bracket =>
          let user_income := Py.dict_get INCOME_RANGES bracket Unbounded in
          if exceeds user_income limit then
            failed (income_above_limit limit) v
          else
            satisfied (income_within_limit limit) v
      end
  end.

Definition check_category (p : User.UserProfile)
    (e : Sch.EligibilityCriteria) (v : verdict) : verdict :=
  match Sch.categories e with
  | None => v
  | Some allowed =>
      match User.category p with
      | None => failed "Category information required" v
      | Some s =>
          if negb (Py.str_in s allowed) then
            failed (String.append "Scheme only for: "
                      (Py.upper (Py.join ", " allowed))) v
          else
            satisfied (String.append "Category matches ("
                         (String.append (Py.upper s) ")")) v
      end
  end.

Definition check_gender (p : User.UserProfile) (e : Sch.EligibilityCriteria)
    (v : verdict) : verdict :=
  match Sch.gender e with
  | None => v
  | Some required =>
      match User.gender p with
      | None => failed "Gender information required" v
      | Some s =>
          if negb (String.eqb s required) then
            failed (String.append "Scheme only for: " required) v
          else
            satisfied (String.append "Gender matches ("
                         (String.append s ")")) v
      end
  end.

Definition check_occupation (p : User.UserProfile)
    (e : Sch.EligibilityCriteria) (v : verdict) : verdict :=
  match Sch.occupations e with
  | None => v
  | Some allowed =>
      match User.occupation p with
      | None => failed "Occupation information required" v
      | Some s =>
          if negb (Py.str_in s allowed) then
            failed (String.append "Scheme only for: "
                      (Py.join ", " allowed)) v
          else
            satisfied (String.append "Occupation matches ("
                         (String.append s ")")) v
      end
  end.

(** The body of [check_single_scheme] up to the confidence score. *)
Definition run_checks (p : User.UserProfile) (e : Sch.EligibilityCriteria)
    : verdict :=
  check_occupation p e
    (check_gender p e
       (check_category p e
          (check_income p e
             (check_education p e
                (check_state p e
                   (check_age p e start)))))).

(** [len(matching) / total if total > 0 else 0.0] *)
Definition confidence_of (n_matching n_missing : nat) : Q :=
  let total := n_matching + n_missing in
  if Nat.ltb 0 total then Z.of_nat n_matching # Pos.of_nat total else 0%Q.

(** [generate_eligibility_explanation] *)
Definition bullets (criteria : list string) : string :=
  fold_left (fun acc c =>
               String.append acc
                 (String.append "  • " (String.append c (String "010" ""))))
            criteria ""%string.

Definition generate_eligibility_explanation (s : Sch.Scheme)
    (is_eligible : bool) (matching_criteria missing_criteria : list string)
    : string :=
  let nl := String "010" "" in
  let text :=
    if is_eligible then
      String.append "✅ You are eligible for "
        (String.append (Sch.name s)
           (String.append "!"
              (String.append nl
                 (String.append nl
                    (String.append "You meet the following requirements:"
                       (String.append nl (bullets matching_criteria)))))))
    else
      String.append "❌ You are not eligible for "
        (String.append (Sch.name s)
           (String.append "."
              (String.append nl
                 (String.append nl
                    (match missing_criteria with
                     | [] => ""%string
                     | _ :: _ =>
                         String.append "Reasons:"
                           (String.append nl (bullets missing_criteria))
                     end)))))
  in Py.strip text.

(** [check_single_scheme] *)
Definition check_single_scheme (user_profile : User.UserProfile)
    (scheme : Sch.Scheme) : Sch.EligibilityResult :=
  let v := run_checks user_profile (Sch.eligibility scheme) in
  {| Sch.scheme := scheme;
     Sch.is_eligible := eligible v;
     Sch.confidence := confidence_of (length (matching v)) (length (missing v));
     Sch.matching_criteria := matching v;
     Sch.missing_criteria := missing v;
     Sch.explanation :=
       generate_eligibility_explanation scheme (eligible v)
         (matching v) (missing v) |}.

(** [list.sort(key=..., reverse=True)]: the sort of the interpreter is
    stable, also with [reverse=True]: elements are put in non-increasing
    key order and elements of equal key keep the order they had. *)
Fixpoint insert_desc {A : Type} (key : A -> nat) (x : A) (l : list A) : list A :=
  match l with
  | [] => [x]
  | y :: l' =>
      if Nat.leb (key y) (key x) then x :: l
      else y :: insert_desc key x l'
  end.

Fixpoint sort_desc {A : Type} (key : A -> nat) (l : list A) : list A :=
  match l with
  | [] => []
  | x :: l' => insert_desc key x (sort_desc key l')
  end.

(** The sort key of [determine_eligibility]. *)
Definition rank (r : Sch.EligibilityResult) : nat :=
  length (Sch.matching_criteria r).

(** [determine_eligibility] *)
Definition determine_eligibility (user_profile : User.UserProfile)
    (schemes : list Sch.Scheme) : list Sch.EligibilityResult :=
  let results :=
    List.filter Sch.is_eligible
      (map (check_single_scheme user_profile) schemes) in
  sort_desc rank results.

(** ** Vocabulary of the statements about the checks and the ranking *)

(** Each check appends to the two lists and can only lower the flag, so
    that its effect on any intermediate state is its effect on the
    initial one. *)
Definition appends (check : verdict -> verdict) : Prop :=
  forall v,
    matching (check v) = matching v ++ matching (check start)
    /\ missing (check v) = missing v ++ missing (check start)
    /\ eligible (check v) = (eligible v && eligible (check start))%bool.

(** The ceiling of a bracket is at most the limit; the unbounded
    ceiling never is. *)
Definition within (c : ceiling) (limit : Z) : Prop :=
  match c with
  | Rupees r => (r <= limit)%Z
  | Unbounded => False
  end.

(** The elements of sort key [k]. *)
Definition has_key {A : Type} (key : A -> nat) (k : nat) (x : A) : bool :=
  Nat.eqb (key x) k.

(** [x] occurs in [l] at a position before an occurrence of [y]. *)
Definition before {A : Type} (x y : A) (l : list A) : Prop :=
  exists l1 l2 l3, l = l1 ++ x :: l2 ++ y :: l3.

(** A check leaves the flag up exactly when it adds nothing to the
    missing list, and then it adds one matching item when its family is
    constrained and none otherwise. *)
Definition settles (check : verdict -> verdict) (constrained : bool) : Prop :=
  (eligible (check start) = true <-> missing (check start) = [])
  /\ (eligible (check start) = true ->
      length (matching (check start)) = if constrained then 1 else 0).

(** The number of attribute families the rule set constrains: the age
    family when either bound is given, each other family when its field
    is. *)
Definition constrained_families (e : Sch.EligibilityCriteria) : nat :=
  (if (is_some (Sch.min_age e) || is_some (Sch.max_age e))%bool then 1 else 0)
  + (if is_some (Sch.states e) then 1 else 0)
  + (if is_some (Sch.education_levels e) then 1 else 0)
  + (if is_some (Sch.income_max e) then 1 else 0)
  + (if is_some (Sch.categories e) then 1 else 0)
  + (if is_some (Sch.gender e) then 1 else 0)
  + (if is_some (Sch.occupations e) then 1 else 0).

(** The two profiles have the same value for every attribute the rule
    set constrains. *)
Definition agree_on_constrained (e : Sch.EligibilityCriteria)
    (p p' : User.UserProfile) : Prop :=
  ((is_some (Sch.min_age e) || is_some (Sch.max_age e))%bool = true ->
   User.age p = User.age p')
  /\ (is_some (Sch.states e) = true -> User.state p = User.state p')
  /\ (is_some (Sch.education_levels e) = true ->
      User.education_level p = User.education_level p')
  /\ (is_some (Sch.income_max e) = true ->
      User.income_range p = User.income_range p')
  /\ (is_some (Sch.categories e) = true -> User.category p = User.category p')
  /\ (is_some (Sch.gender e) = true -> User.gender p = User.gender p')
  /\ (is_some (Sch.occupations e) = true ->
      User.occupation p = User.occupation p').

End Eligibility.

(* ===================================================================== *)
(** * Results of operations that may raise *)
(* ===================================================================== *)

Module Exn.

(** The exceptions the modelled code can raise. *)
Inductive exn : Type :=
| ValueError (msg : string)
| TypeError (msg : string)
| KeyError (key : string)
| IndexError (msg : string)
| RuntimeError (msg : string)
| AssertionError.

Inductive outcome (A : Type) : Type :=
| Ok (a : A)
| Raise (e : exn).

Arguments Ok {A} a.
Arguments Raise {A} e.

Definition bind {A B : Type} (m : outcome A) (k : A -> outcome B) : outcome B :=
  match m with
  | Ok a => k a
  | Raise e => Raise e
  end.

(** [d[k]] on a dictionary given by its items. *)
Fixpoint subscript {V : Type} (d : list (string * V)) (k : string) : outcome V :=
  match d with
  | [] => Raise (KeyError k)
  | (k', v) :: d' => if String.eqb k k' then Ok v else subscript d' k
  end.

End Exn.

(* ===================================================================== *)
(** * Dialog engine ([app/services/conversation.py]) *)
(* ===================================================================== *)

Module Conversation.

Import Exn.

(** [app/models/conversation.py], class [Message]. *)
Record Message : Type := {
  role : string;
  content : string;
  timestamp : Z
}.

(** [app/models/conversation.py], class [ConversationState]. *)
Record ConversationState : Type := {
  session_id : string;
  language : string;
  user_profile : User.UserProfile;
  asked_questions : list string;
  current_stage : string;
  conversation_history : list Message;
  created_at : Z;
  last_activity : Z
}.

(** Assignments to one attribute of a session. *)
Definition set_stage (stage : string) (st : ConversationState) : ConversationState :=
  {| session_id := session_id st; language := language st;
     user_profile := user_profile st; asked_questions := asked_questions st;
     current_stage := stage;
     conversation_history := conversation_history st;
     created_at := created_at st; last_activity := last_activity st |}.

Definition set_asked (asked : list string) (st : ConversationState) : ConversationState :=
  {| session_id := session_id st; language := language st;
     user_profile := user_profile st; asked_questions := asked;
     current_stage := current_stage st;
     conversation_history := conversation_history st;
     created_at := created_at st; last_activity := last_activity st |}.

Definition set_profile (p : User.UserProfile) (st : ConversationState) : ConversationState :=
  {| session_id := session_id st; language := language st;
     user_profile := p; asked_questions := asked_questions st;
     current_stage := current_stage st;
     conversation_history := conversation_history st;
     created_at := created_at st; last_activity := last_activity st |}.

Definition set_history (h : list Message) (st : ConversationState) : ConversationState :=
  {| session_id := session_id st; language := language st;
     user_profile := user_profile st; asked_questions := asked_questions st;
     current_stage := current_stage st;
     conversation_history := h;
     created_at := created_at st; last_activity := last_activity st |}.

Definition set_last_activity (t : Z) (st : ConversationState) : ConversationState :=
  {| session_id := session_id st; language := language st;
     user_profile := user_profile st; asked_questions := asked_questions st;
     current_stage := current_stage st;
     conversation_history := conversation_history st;
     created_at := created_at st; last_activity := t |}.

(** [SESSION_TIMEOUT = timedelta(minutes=30)], in microseconds. *)
Definition SESSION_TIMEOUT : Z := 30 * 60 * 1000000.

(** [QUESTIONS] *)
Definition QUESTIONS : list (string * list (string * string)) :=
  [ ("age",
      [ ("en", "How old are you?");
        ("hi", "आपकी उम्र क्या है?") ]);
    ("state",
      [ ("en", "Which state do you live in?");
        ("hi", "आप किस राज्य में रहते हैं?") ]);
    ("education_level",
      [ ("en", "What is your highest education level? (e.g., 10th pass, 12th pass, graduate, postgraduate)");
        ("hi", "आपकी उच्चतम शिक्षा स्तर क्या है? (जैसे, 10वीं पास, 12वीं पास, स्नातक, स्नातकोत्तर)") ]);
    ("income_range",
      [ ("en", "What is your annual household income range? (e.g., below 1 lakh, 1-3 lakh, 3-5 lakh, above 5 lakh)");
        ("hi", "आपकी वार्षिक घरेलू आय सीमा क्या है? (जैसे, 1 लाख से कम, 1-3 लाख, 3-5 लाख, 5 लाख से अधिक)") ]);
    ("category",
      [ ("en", "What is your social category? (General, SC, ST, OBC)");
        ("hi", "आपकी सामाजिक श्रेणी क्या है? (सामान्य, अनुसूचित जाति, अनुसूचित जनजाति, अन्य पिछड़ा वर्ग)") ]);
    ("gender",
      [ ("en", "What is your gender? (male, female, other)");
        ("hi", "आपका लिंग क्या है? (पुरुष, महिला, अन्य)") ]);
    ("occupation",
      [ ("en", "What is your occupation? (e.g., student, farmer, self-employed, unemployed)");
        ("hi", "आपका व्यवसाय क्या है? (जैसे, छात्र, किसान, स्व-रोजगार, बेरोजगार)") ]) ]%string.

(** [GREETINGS] *)
Definition GREETINGS : list (string * string) :=
  [ ("en", "Hello! I'm Bharatam AI, your assistant for discovering government welfare schemes. I'll ask you a few questions to understand your needs and find schemes you're eligible for. Let's get started!");
    ("hi", "नमस्ते! मैं भारतम AI हूं, सरकारी कल्याण योजनाओं की खोज के लिए आपका सहायक। मैं आपकी आवश्यकताओं को समझने और आपके लिए उपयुक्त योजनाओं को खोजने के लिए कुछ प्रश्न पूछूंगा। चलिए शुरू करते हैं!") ]%string.

(** [self.QUESTIONS[field_name].get(language, self.QUESTIONS[field_name]["en"])] *)
Definition question_text (field_name language : string) : outcome string :=
  bind (subscript QUESTIONS field_name) (fun texts =>
  bind (subscript texts "en") (fun en =>
  Ok (Py.dict_get texts language en))).

(** [_add_message] *)
Definition _add_message (now : Z) (role content : string)
    (st : ConversationState) : ConversationState :=
  let message := {| role := role; content := content; timestamp := now |} in
  set_last_activity now
    (set_history (conversation_history st ++ [message]) st).

(** [add_user_message] *)
Definition add_user_message (now : Z) (content : string)
    (st : ConversationState) : ConversationState :=
  _add_message now "user" content st.

(** [add_assistant_message] *)
Definition add_assistant_message (now : Z) (content : string)
    (st : ConversationState) : ConversationState :=
  _add_message now "assistant" content st.

(** The session dictionary [_sessions].  A session object is shared
    between the dictionary and the caller that holds it: an update of
    the object is an update of the entry. *)
Abbreviation sessions := (gmap string ConversationState).

(** [start_conversation]; [sid] is the identifier drawn by [uuid4()].
    The keyword [last_updated] of the constructor call names no attribute
    of the record, so [last_activity] takes its default, the clock. *)
Definition start_conversation (now : Z) (sid : string) (language : string)
    (store : sessions) : ConversationState * sessions :=
  let state :=
    {| session_id := sid; language := language;
       user_profile := User.empty; asked_questions := [];
       current_stage := "greeting"; conversation_history := [];
       created_at := now; last_activity := now |} in
  let greeting := Py.dict_get GREETINGS language (Py.dict_get GREETINGS "en" "") in
  let state' := _add_message now "assistant" greeting state in
  (state', <[sid := state']> store).

(** [end_conversation] *)
Definition end_conversation (sid : string) (store : sessions) : bool * sessions :=
  match store !! sid with
  | Some _ => (true, delete sid store)
  | None => (false, store)
  end.

(** [now - state.last_activity > self.SESSION_TIMEOUT] *)
Definition expired (now : Z) (st : ConversationState) : bool :=
  (SESSION_TIMEOUT <? now - last_activity st)%Z.

(** [get_session] *)
Definition get_session (now : Z) (sid : string) (store : sessions)
    : option ConversationState * sessions :=
  match store !! sid with
  | None => (None, store)
  | Some state =>
      if expired now state then (None, snd (end_conversation sid store))
      else (Some state, store)
  end.

(** [cleanup_expired_sessions] *)
Definition cleanup_expired_sessions (now : Z) (store : sessions) : nat * sessions :=
  let gone := filter (fun kv => expired now (snd kv) = true) store in
  (size gone, filter (fun kv => expired now (snd kv) <> true) store).

(** [get_active_sessions_count] *)
Definition get_active_sessions_count (store : sessions) : nat := size store.

(** The scan of [question_order] in [get_next_question]: each item is an
    attribute name with the test [field_value is None]. *)
Fixpoint first_unasked (order : list (string * bool)) (st : ConversationState)
    : outcome (option string) * ConversationState :=
  match order with
  | [] => (Ok None, st)
  | (field_name, unset) :: rest =>
      if (unset && negb (Py.str_in field_name (asked_questions st)))%bool then
        let st' := set_asked (asked_questions st ++ [field_name]) st in
        (bind (question_text field_name (language st')) (fun q => Ok (Some q)), st')
      else first_unasked rest st
  end.

Definition is_none {A : Type} (o : option A) : bool :=
  match o with None => true | Some _ => false end.

(** [question_order] *)
Definition question_order (profile : User.UserProfile) : list (string * bool) :=
  [ ("age", is_none (User.age profile));
    ("state", is_none (User.state profile));
    ("education_level", is_none (User.education_level profile));
    ("income_range", is_none (User.income_range profile));
    ("category", is_none (User.category profile));
    ("gender", is_none (User.gender profile));
    ("occupation", is_none (User.occupation profile)) ]%string.

(** [get_next_question] *)
Definition get_next_question (st : ConversationState)
    : outcome (option string) * ConversationState :=
  let st1 :=
    if String.eqb (current_stage st) "greeting"
    then set_stage "info_collection" st else st in
  if negb (String.eqb (current_stage st1) "info_collection") then (Ok None, st1)
  else first_unasked (question_order (user_profile st1)) st1.

(** [is_information_complete] *)
Definition is_information_complete (st : ConversationState) : bool :=
  let profile := user_profile st in
  if (is_none (User.age profile) || is_none (User.state profile))%bool
  then false else true.

(** A value read at the declared type of an attribute.  The interpreter
    stores a value of another type as it is (the profile does not
    validate assignments); the typed profile of this model cannot hold
    it and reads it as unset.  What the model says of the attribute
    written is meant for values of its declared type. *)
Definition as_int (v : Py.value) : option Z :=
  match v with Py.VInt n => Some n | _ => None end.

Definition as_str (v : Py.value) : option string :=
  match v with Py.VStr s => Some s | _ => None end.

(** [setattr(profile, field, value)] when [hasattr(profile, field)].
    The seven attributes of the record are the names the model covers.
    For every other name it answers [None], which is what happens for a
    name [hasattr] does not find; a name [hasattr] finds without its
    being an attribute of the record (a method of the model class) makes
    the assignment raise, and is outside the model. *)
Definition setattr_profile (p : User.UserProfile) (field : string) (v : Py.value)
    : option User.UserProfile :=
  if String.eqb field "age" then
    Some {| User.age := as_int v; User.state := User.state p;
            User.education_level := User.education_level p;
            User.income_range := User.income_range p;
            User.category := User.category p;
            User.occupation := User.occupation p;
            User.gender := User.gender p |}
  else if String.eqb field "state" then
    Some {| User.age := User.age p; User.state := as_str v;
            User.education_level := User.education_level p;
            User.income_range := User.income_range p;
            User.category := User.category p;
            User.occupation := User.occupation p;
            User.gender := User.gender p |}
  else if String.eqb field "education_level" then
    Some {| User.age := User.age p; User.state := User.state p;
            User.education_level := as_str v;
            User.income_range := User.income_range p;
            User.category := User.category p;
            User.occupation := User.occupation p;
            User.gender := User.gender p |}
  else if String.eqb field "income_range" then
    Some {| User.age := User.age p; User.state := User.state p;
            User.education_level := User.education_level p;
            User.income_range := as_str v;
            User.category := User.category p;
            User.occupation := User.occupation p;
            User.gender := User.gender p |}
  else if String.eqb field "category" then
    Some {| User.age := User.age p; User.state := User.state p;
            User.education_level := User.education_level p;
            User.income_range := User.income_range p;
            User.category := as_str v;
            User.occupation := User.occupation p;
            User.gender := User.gender p |}
  else if String.eqb field "occupation" then
    Some {| User.age := User.age p; User.state := User.state p;
            User.education_level := User.education_level p;
            User.income_range := User.income_range p;
            User.category := User.category p;
            User.occupation := as_str v;
            User.gender := User.gender p |}
  else if String.eqb field "gender" then
    Some {| User.age := User.age p; User.state := User.state p;
            User.education_level := User.education_level p;
            User.income_range := User.income_range p;
            User.category := User.category p;
            User.occupation := User.occupation p;
            User.gender := as_str v |}
  else None.

(** [update_user_profile], for the names [setattr_profile] covers. *)
Definition update_user_profile (now : Z) (field : string) (v : Py.value)
    (st : ConversationState) : ConversationState :=
  match setattr_profile (user_profile st) field v with
  | Some p => set_last_activity now (set_profile p st)
  | None => st
  end.

(** [transition_to_eligibility] *)
Definition transition_to_eligibility (now : Z) (st : ConversationState)
    : ConversationState :=
  if is_information_complete st
  then set_last_activity now (set_stage "eligibility" st)
  else st.

(** [transition_to_guidance] *)
Definition transition_to_guidance (now : Z) (st : ConversationState)
    : ConversationState :=
  set_last_activity now (set_stage "guidance" st).

(** [n] successive calls of [get_next_question] on one session: what
    they return, in order, and the session they leave. *)
Fixpoint ask (n : nat) (st : ConversationState)
    : list (outcome (option string)) * ConversationState :=
  match n with
  | 0 => ([], st)
  | S n' =>
      let (q, st1) := get_next_question st in
      let (qs, st2) := ask n' st1 in
      (q :: qs, st2)
  end.

(** An operation reading the clock refreshes the last-activity time:
    whenever it changes the session, the session it leaves carries the
    clock reading. *)
Definition refreshes (op : Z -> ConversationState -> ConversationState) : Prop :=
  forall now st, op now st <> st -> last_activity (op now st) = now.

(** ** The methods of [ConversationState] ([app/models/conversation.py]) *)

(** [ConversationState.add_message]: the message takes the clock as its
    default timestamp. *)
Definition add_message (now : Z) (role content : string)
    (st : ConversationState) : ConversationState :=
  let message := {| role := role; content := content; timestamp := now |} in
  set_last_activity now
    (set_history (conversation_history st ++ [message]) st).

(** [ConversationState.is_expired]:
    [elapsed.total_seconds() > timeout_minutes * 60], both sides counted
    in microseconds.  [total_seconds] rounds the quotient by a million
    to a double; against a whole number of seconds below 2^34 the
    rounded quotient compares as the exact one does, so the model is
    exact for timeouts of up to five centuries and is not meant beyond
    that. *)
Definition is_expired (now : Z) (timeout_minutes : Z)
    (st : ConversationState) : bool :=
  (timeout_minutes * 60 * 1000000 <? now - last_activity st)%Z.

(** [ConversationState.mark_question_asked] *)
Definition mark_question_asked (question_type : string)
    (st : ConversationState) : ConversationState :=
  if negb (Py.str_in question_type (asked_questions st))
  then set_asked (asked_questions st ++ [question_type]) st
  else st.

(** ** The remaining queries of [ConversationEngine] *)

(** [get_missing_information]; its list [fields] is the list
    [question_order] of [get_next_question]. *)
Definition get_missing_information (st : ConversationState) : list string :=
  fold_left (fun (missing : list string) (field : string * bool) =>
               if snd field then missing ++ [fst field] else missing)
            (question_order (user_profile st)) [].

(** ** Vocabulary of the statements about the dialog *)

(** The seven attribute names, in the order of the questions. *)
Definition FIELDS : list string :=
  [ "age"; "state"; "education_level"; "income_range"; "category";
    "gender"; "occupation" ]%string.

(** The number of calls that returned a question. *)
Definition questions_in (answers : list (outcome (option string))) : nat :=
  length (List.filter (fun a : outcome (option string) =>
                         match a with
                         | Ok (Some _) => true
                         | _ => false
                         end) answers).

(** The test of the scan of [get_next_question]:
    [field_value is None and field_name not in state.asked_questions]. *)
Definition wanted (asked : list string) (field : string * bool) : bool :=
  (snd field && negb (Py.str_in (fst field) asked))%bool.

(** The attributes that a call of [get_next_question] can still ask
    about, in the order of the questions: unset and not asked. *)
Definition askable (st : ConversationState) : list string :=
  map fst
    (List.filter (wanted (asked_questions st))
                 (question_order (user_profile st))).

(** The session [get_next_question] works on: a session in the greeting
    stage is moved to the information stage first. *)
Definition collecting (st : ConversationState) : ConversationState :=
  if String.eqb (current_stage st) "greeting"
  then set_stage "info_collection" st else st.

(** [getattr(profile, field)] for the seven attributes. *)
Definition attribute (p : User.UserProfile) (field : string)
    : option Py.value :=
  let int_value := fun o : option Z =>
    match o with Some n => Py.VInt n | None => Py.VNone end in
  let str_value := fun o : option string =>
    match o with Some s => Py.VStr s | None => Py.VNone end in
  if String.eqb field "age" then Some (int_value (User.age p))
  else if String.eqb field "state" then Some (str_value (User.state p))
  else if String.eqb field "education_level"
  then Some (str_value (User.education_level p))
  else if String.eqb field "income_range"
  then Some (str_value (User.income_range p))
  else if String.eqb field "category" then Some (str_value (User.category p))
  else if String.eqb field "occupation"
  then Some (str_value (User.occupation p))
  else if String.eqb field "gender" then Some (str_value (User.gender p))
  else None.

(** The value has the declared type of the attribute: an integer or
    [None] for the age, a string or [None] for the others. *)
Definition well_typed (field : string) (v : Py.value) : bool :=
  match v with
  | Py.VNone => true
  | Py.VInt _ => String.eqb field "age"
  | Py.VStr _ => negb (String.eqb field "age")
  end.


End Conversation.

(* ===================================================================== *)
(** * Single precision ([numpy.float32])

    The embeddings, the distances the index reports and the scores
    computed from them are single-precision numbers.  A finite one is a
    rational; [single] is the conversion of a rational to single
    precision, rounding to nearest with ties to even, subnormal numbers
    included.  Overflow is not modelled: where the arithmetic of the
    code gives infinity, [single] gives the largest finite number. *)
(* ===================================================================== *)

Module Float32.

(** [floor(log2 x)] for a positive rational [x]. *)
Definition ilog2 (x : Q) : Z :=
  let l := (Z.log2 (Qnum x) - Z.log2 (Z.pos (Qden x)))%Z in
  if Qle_bool (2 ^ l)%Q x then l else (l - 1)%Z.

(** The integer nearest to [x], the even one of the two when [x] is
    halfway between them. *)
Definition nearest_even (x : Q) : Z :=
  let f := Qfloor x in
  match (x - inject_Z f ?= 1 # 2)%Q with
  | Lt => f
  | Gt => (f + 1)%Z
  | Eq => if Z.even f then f else (f + 1)%Z
  end.

(** The exponent of the unit in the last place of a positive [x]: 24
    significant bits, and no exponent below that of the subnormal
    numbers. *)
Definition quantum (x : Q) : Z := Z.max (ilog2 x - 23) (-149).

(** The largest finite number, [(2 - 2^-23) * 2^127]. *)
Definition FLT_MAX : Q := inject_Z ((2 ^ 24 - 1) * 2 ^ 104).

(** The multiple of the unit in the last place nearest to a positive
    [x]. *)
Definition nearest (x : Q) : Q :=
  (inject_Z (nearest_even (x / 2 ^ quantum x)) * 2 ^ quantum x)%Q.

Definition round_pos (x : Q) : Q := Qmin (nearest x) FLT_MAX.

(** [numpy.float32(x)] *)
Definition single (x : Q) : Q :=
  match (x ?= 0)%Q with
  | Eq => 0%Q
  | Gt => round_pos x
  | Lt => (- round_pos (- x))%Q
  end.

End Float32.

(* ===================================================================== *)
(** * Retrieval index ([app/services/knowledge_base.py]) *)
(* ===================================================================== *)

Module KnowledgeBase.

Import Exn.

(** ** The flat L2 index

    [faiss.IndexFlatL2] stores the vectors it is given and answers a
    search for [k] neighbours by exhaustive comparison, with [k] pairs
    of a label and a distance: the labels (positions in the order of
    insertion) of the [k] stored vectors nearest to the query, each with
    its squared Euclidean distance as a single-precision number, nearest
    first.  Vectors at the same distance are reported in the order they
    were added.  When fewer than [k] vectors are stored, the answer is
    completed with pairs of the label [-1] and the largest finite
    single-precision number.  The distance of the model is the exact sum
    of squares rounded once; the library rounds as it accumulates.  Its
    [search] asserts [k > 0]; that assertion is part of
    [retrieve_schemes] below. *)

Definition vector : Type := list Q.

Fixpoint l2_sqr (x y : vector) : Q :=
  match x, y with
  | a :: x', b :: y' => (a - b) * (a - b) + l2_sqr x' y'
  | _, _ => 0
  end.

Fixpoint insert_asc (h : Z * Q) (l : list (Z * Q)) : list (Z * Q) :=
  match l with
  | [] => [h]
  | h' :: l' =>
      if Qle_bool (snd h) (snd h') then h :: l
      else h' :: insert_asc h l'
  end.

Fixpoint sort_asc (l : list (Z * Q)) : list (Z * Q) :=
  match l with
  | [] => []
  | h :: l' => insert_asc h (sort_asc l')
  end.

(** Labels are positions in the order of insertion. *)
Fixpoint labelled (from : Z) (ds : list Q) : list (Z * Q) :=
  match ds with
  | [] => []
  | d :: ds' => (from, d) :: labelled (from + 1) ds'
  end.

(** [index.search(query, k)] for [k > 0], as the list
    [zip(indices[0], distances[0])]. *)
Definition search (index : list vector) (query : vector) (k : nat)
    : list (Z * Q) :=
  let distances := map (fun v => Float32.single (l2_sqr query v)) index in
  let found := firstn k (sort_asc (labelled 0 distances)) in
  found ++ repeat ((-1)%Z, Float32.FLT_MAX) (k - length found).

(** ** The knowledge base *)

(** The attributes of a [KnowledgeBase] that its operations update. *)
Record state : Type := {
  index : list vector;
  schemes : list Sch.Scheme
}.

(** [_create_searchable_text] *)
Definition _create_searchable_text (scheme : Sch.Scheme) : string :=
  Py.join " "
    [ Sch.name scheme;
      Sch.description scheme;
      String.append "Benefits: " (Sch.benefits scheme) ].

(** [int(value)] *)
Definition int_of (v : Py.value) : outcome Z :=
  match v with
  | Py.VInt n => Ok n
  | Py.VStr s =>
      match Py.int_of_str s with
      | Some n => Ok n
      | None => Raise (ValueError "invalid literal for int() with base 10")
      end
  | Py.VNone => Raise (TypeError "int() argument must be a string or a number")
  end.

(** [value not in states] *)
Definition not_in (v : Py.value) (xs : list string) : bool :=
  match v with
  | Py.VStr s => negb (Py.str_in s xs)
  | _ => true
  end.

(** [_matches_filters]; the dictionary is given by its items in
    iteration order. *)
Fixpoint _matches_filters (scheme : Sch.Scheme)
    (filters : list (string * Py.value)) : outcome bool :=
  match filters with
  | [] => Ok true
  | (key, value) :: rest =>
      let e := Sch.eligibility scheme in
      if String.eqb key "state" then
        match Sch.states e with
        | Some (s :: ss) =>
            if not_in value (s :: ss) then Ok false
            else _matches_filters scheme rest
        | _ => _matches_filters scheme rest
        end
      else if String.eqb key "category" then
        _matches_filters scheme rest
      else if String.eqb key "min_age" then
        match Py.truthy_int (Sch.min_age e) with
        | Some lo =>
            bind (int_of value) (fun n =>
              if (n <? lo)%Z then Ok false
              else _matches_filters scheme rest)
        | None => _matches_filters scheme rest
        end
      else if String.eqb key "max_age" then
        match Py.truthy_int (Sch.max_age e) with
        | Some hi =>
            bind (int_of value) (fun n =>
              if (hi <? n)%Z then Ok false
              else _matches_filters scheme rest)
        | None => _matches_filters scheme rest
        end
      else _matches_filters scheme rest
  end.

(** [1.0 / (1.0 + distance)] for a [numpy.float32] distance.  The
    Python floats do not widen it: the sum and the quotient are computed
    in single precision, each rounded. *)
Definition similarity (distance : Q) : Q :=
  Float32.single (1 / Float32.single (1 + distance)).

(** [if filters: if not self._matches_filters(scheme, filters): continue] *)
Definition passes (filters : option (list (string * Py.value)))
    (scheme : Sch.Scheme) : outcome bool :=
  match filters with
  | Some (f :: fs) => _matches_filters scheme (f :: fs)
  | _ => Ok true
  end.

(** The loop of [retrieve_schemes] over the neighbours, with the list
    [results] it accumulates. *)
Fixpoint collect (all : list Sch.Scheme) (top_k : Z)
    (filters : option (list (string * Py.value)))
    (hits : list (Z * Q)) (results : list (Sch.Scheme * Q))
    : outcome (list (Sch.Scheme * Q)) :=
  match hits with
  | [] => Ok results
  | (idx, distance) :: rest =>
      if (idx <? Z.of_nat (length all))%Z then
        match Py.getitem all idx with
        | Some scheme =>
            bind (passes filters scheme) (fun keep =>
              if keep then
                let results' := results ++ [(scheme, similarity distance)] in
                if (top_k <=? Z.of_nat (length results'))%Z then Ok results'
                else collect all top_k filters rest results'
              else collect all top_k filters rest results)
        | None => Raise (IndexError "list index out of range")
        end
      else collect all top_k filters rest results
  end.

(** [self.model.encode(texts)] for an encoder that may raise: the
    embeddings of the texts, in order, or the exception. *)
Fixpoint encode_texts (encoder : string -> outcome vector)
    (texts : list string) : outcome (list vector) :=
  match texts with
  | [] => Ok []
  | text :: rest =>
      bind (encoder text) (fun embedding =>
        bind (encode_texts encoder rest) (fun embeddings =>
          Ok (embedding :: embeddings)))
  end.

(** [index_schemes], for an encoder that may raise.  The scheme list is
    assigned before the texts are encoded, the index after. *)
Definition index_schemes_with (encoder : string -> outcome vector)
    (new_schemes : list Sch.Scheme) (kb : state) : outcome unit * state :=
  match new_schemes with
  | [] => (Raise (ValueError "Cannot index empty scheme list"), kb)
  | _ :: _ =>
      let kb := {| index := index kb; schemes := new_schemes |} in
      let texts := map _create_searchable_text new_schemes in
      match encode_texts encoder texts with
      | Ok embeddings =>
          (Ok tt, {| index := embeddings; schemes := schemes kb |})
      | Raise e => (Raise e, kb)
      end
  end.

(** ** Vocabulary of the statements about retrieval *)

(** The candidates the loop of [retrieve_schemes] examines, as (scheme,
    distance) pairs in the order of the search: a label below the length
    of the scheme list stands for the scheme at that position, the label
    [-1] for the last one. *)
Definition neighbours (all : list Sch.Scheme) (hits : list (Z * Q))
    : list (Sch.Scheme * Q) :=
  flat_map (fun hit =>
              if (fst hit <? Z.of_nat (length all))%Z then
                match Py.getitem all (fst hit) with
                | Some scheme => [(scheme, snd hit)]
                | None => []
                end
              else []) hits.

(** A candidate is kept when the filters accept its scheme. *)
Definition keeps (filters : option (list (string * Py.value)))
    (candidate : Sch.Scheme * Q) : bool :=
  match passes filters (fst candidate) with
  | Ok b => b
  | Raise _ => false
  end.





(** A candidate with its similarity score in place of its distance. *)
Definition scored (candidate : Sch.Scheme * Q) : Sch.Scheme * Q :=
  (fst candidate, similarity (snd candidate)).

(** The items of a filter dictionary other than those of key
    [category]. *)
Definition without_category (filters : list (string * Py.value))
    : list (string * Py.value) :=
  List.filter (fun item => negb (String.eqb (fst item) "category")) filters.

Section WithEncoder.

(** The sentence encoder [self.model.encode], one text at a time, when
    it raises on no text. *)
Variable encode : string -> vector.

(** [index_schemes] *)
Definition index_schemes (new_schemes : list Sch.Scheme) (kb : state)
    : outcome unit * state :=
  index_schemes_with (fun text => Ok (encode text)) new_schemes kb.

(** [retrieve_schemes]; [index.search] asserts that the number of
    neighbours it is asked for is positive. *)
Definition retrieve_schemes (query : string) (top_k : Z)
    (filters : option (list (string * Py.value))) (kb : state)
    : outcome (list (Sch.Scheme * Q)) :=
  match schemes kb with
  | [] => Ok []
  | _ :: _ =>
      let query_embedding := encode query in
      let k := Z.min (top_k * 2) (Z.of_nat (length (schemes kb))) in
      if (0 <? k)%Z then
        let hits := search (index kb) query_embedding (Z.to_nat k) in
        collect (schemes kb) top_k filters hits []
      else Raise AssertionError
  end.

End WithEncoder.

(** [KnowledgeBase()]: nothing indexed. *)
Definition initial : state := {| index := []; schemes := [] |}.

(** [get_scheme_by_id] *)
Definition get_scheme_by_id (scheme_id : string) (kb : state)
    : option Sch.Scheme :=
  List.find (fun scheme => String.eqb (Sch.id scheme) scheme_id) (schemes kb).

(** ** Persistence

    The two artifacts of a saved knowledge base, as the files hold them:
    the index written by [faiss.write_index] and the scheme list written
    by [pickle.dump].  The file system is a map from paths to files;
    reading a path that is absent, or that holds the other kind of
    artifact, raises.  Failures of the file system while writing are not
    modelled. *)
Inductive file : Type :=
| FaissFile (vectors : list vector)
| PickleFile (pickled : list Sch.Scheme).

(** [save_index], for the path prefix [self.index_path]. *)
Definition save_index (index_path : string) (kb : state)
    (files : gmap string file) : gmap string file :=
  <[String.append index_path ".pkl" := PickleFile (schemes kb)]>
    (<[String.append index_path ".faiss" := FaissFile (index kb)]> files).

(** [load_index]: any exception inside the [try] gives [False]; the
    index is assigned before the scheme list is read. *)
Definition load_index (index_path : string) (kb : state)
    (files : gmap string file) : bool * state :=
  match files !! String.append index_path ".faiss" with
  | Some (FaissFile vectors) =>
      match files !! String.append index_path ".pkl" with
      | Some (PickleFile pickled) =>
          (true, {| index := vectors; schemes := pickled |})
      | _ => (false, {| index := vectors; schemes := schemes kb |})
      end
  | _ => (false, kb)
  end.

(** A returned pair is sound: its scheme is one of the list, the filters
    accept it, and its score lies in (0, 1]. *)
Definition sound (all : list Sch.Scheme)
    (filters : option (list (string * Py.value)))
    (r : Sch.Scheme * Q) : Prop :=
  In (fst r) all /\ passes filters (fst r) = Ok true
  /\ (0 < snd r)%Q /\ (snd r <= 1)%Q.

(** The index and the scheme list describe the same schemes, position by
    position. *)
Definition in_step (kb : state) : Prop :=
  length (index kb) = length (schemes kb).

End KnowledgeBase.

(* ===================================================================== *)
(** * Catalog statistics ([app/services/data_loader.py]) *)
(* ===================================================================== *)

Module DataLoader.

(** The dictionary [stats] of [validate_schemes].  The three sets are
    kept as sets: the lists the function returns for them enumerate the
    sets in an order the interpreter chooses. *)
Record statistics : Type := {
  total_schemes : nat;
  schemes_with_translations : nat;
  schemes_with_deadlines : nat;
  schemes_with_age_restrictions : nat;
  schemes_with_income_restrictions : nat;
  schemes_with_category_restrictions : nat;
  schemes_with_state_restrictions : nat;
  unique_states : gset string;
  unique_categories : gset string;
  unique_occupations : gset string
}.

(** [stats[key] += 1] when the condition holds. *)
Definition bump (condition : bool) (n : nat) : nat :=
  if condition then S n else n.

(** [stats[key].update(values)] when [values] is neither [None] nor
    empty. *)
Definition collect (values : option (list string)) (seen : gset string)
    : gset string :=
  match Py.truthy_list values with
  | Some l => seen ∪ list_to_set l
  | None => seen
  end.

Definition is_some {A : Type} (o : option A) : bool :=
  match o with Some _ => true | None => false end.

Definition nonempty {A : Type} (l : list A) : bool :=
  match l with [] => false | _ :: _ => true end.

(** The body of the loop of [validate_schemes]. *)
Definition tally (stats : statistics) (scheme : Sch.Scheme) : statistics :=
  let e := Sch.eligibility scheme in
  {| total_schemes := total_schemes stats;
     schemes_with_translations :=
       bump (nonempty (Sch.name_translations scheme)
             || nonempty (Sch.description_translations scheme))
            (schemes_with_translations stats);
     schemes_with_deadlines :=
       bump (is_some (Sch.deadline scheme)) (schemes_with_deadlines stats);
     schemes_with_age_restrictions :=
       bump (is_some (Py.truthy_int (Sch.min_age e))
             || is_some (Py.truthy_int (Sch.max_age e)))
            (schemes_with_age_restrictions stats);
     schemes_with_income_restrictions :=
       bump (is_some (Py.truthy_int (Sch.income_max e)))
            (schemes_with_income_restrictions stats);
     schemes_with_category_restrictions :=
       bump (is_some (Py.truthy_list (Sch.categories e)))
            (schemes_with_category_restrictions stats);
     schemes_with_state_restrictions :=
       bump (is_some (Py.truthy_list (Sch.states e)))
            (schemes_with_state_restrictions stats);
     unique_states := collect (Sch.states e) (unique_states stats);
     unique_categories := collect (Sch.categories e) (unique_categories stats);
     unique_occupations :=
       collect (Sch.occupations e) (unique_occupations stats) |}.

(** [validate_schemes] *)
Definition validate_schemes (schemes : list Sch.Scheme) : statistics :=
  fold_left tally schemes
    {| total_schemes := length schemes;
       schemes_with_translations := 0;
       schemes_with_deadlines := 0;
       schemes_with_age_restrictions := 0;
       schemes_with_income_restrictions := 0;
       schemes_with_category_restrictions := 0;
       schemes_with_state_restrictions := 0;
       unique_states := ∅;
       unique_categories := ∅;
       unique_occupations := ∅ |}.

End DataLoader.

(* ===================================================================== *)
(** * Scheme routes ([app/api/schemes.py]) *)
(* ===================================================================== *)

Module SchemesApi.

Import Exn.

(** [any(word in name_lower or word in desc_lower for word in words)] *)
Definition mentions (words : list string) (name_lower desc_lower : string)
    : bool :=
  existsb (fun word =>
             (Py.contains word name_lower || Py.contains word desc_lower)%bool)
          words.

(** [_get_scheme_category] (the helper of the same name in
    [app/api/conversation.py] has the same body). *)
Definition _get_scheme_category (scheme : Sch.Scheme) : string :=
  let name_lower := Py.lower (Sch.name scheme) in
  let desc_lower := Py.lower (Sch.description scheme) in
  if mentions ["skill"; "training"; "kaushal"; "education"; "scholarship"]%string
       name_lower desc_lower then "education"%string
  else if mentions ["housing"; "awas"; "home"]%string name_lower desc_lower
  then "housing"%string
  else if mentions ["pension"; "atal"]%string name_lower desc_lower
  then "pension"%string
  else if mentions ["crop"; "fasal"; "insurance"; "farmer"; "agriculture"]%string
            name_lower desc_lower
  then "agriculture"%string
  else if mentions ["business"; "loan"; "mudra"; "entrepreneur"; "stand-up"]%string
            name_lower desc_lower
  then "entrepreneurship"%string
  else if mentions ["girl"; "daughter"; "sukanya"]%string name_lower desc_lower
  then "social_welfare"%string
  else "general"%string.

(** The labels [_get_scheme_category] can return. *)
Definition CATEGORIES : list string :=
  [ "education"; "housing"; "pension"; "agriculture"; "entrepreneurship";
    "social_welfare"; "general" ]%string.

(** [_get_scheme_category(s).lower() == category.lower()] *)
Definition in_category (category : string) (s : Sch.Scheme) : bool :=
  String.eqb (Py.lower (_get_scheme_category s)) (Py.lower category).

(** [s.eligibility.states is None or state in (s.eligibility.states or [])] *)
Definition available_in (state : string) (s : Sch.Scheme) : bool :=
  match Sch.states (Sch.eligibility s) with
  | None => true
  | Some allowed => Py.str_in state allowed
  end.

(** The schemes [list_schemes] converts to its response: the catalog
    filtered by category, then by state, then cut to [limit]. *)
Definition list_schemes (category state : option string) (limit : Z)
    (schemes_data : list Sch.Scheme) : list Sch.Scheme :=
  let filtered_schemes := schemes_data in
  let filtered_schemes :=
    match Py.truthy_str category with
    | Some c => List.filter (in_category c) filtered_schemes
    | None => filtered_schemes
    end in
  let filtered_schemes :=
    match Py.truthy_str state with
    | Some st => List.filter (available_in st) filtered_schemes
    | None => filtered_schemes
    end in
  Py.slice_to limit filtered_schemes.

(** [SearchSchemesRequest] *)
Record SearchSchemesRequest : Type := {
  query : option string;
  state : option string;
  category : option string;
  min_age : option Z;
  max_age : option Z;
  top_k : Z
}.

(** The dictionary [filters] that [search_schemes] builds, by its items
    in insertion order. *)
Definition build_filters (request : SearchSchemesRequest)
    : list (string * Py.value) :=
  let filters := [] in
  let filters :=
    match Py.truthy_str (state request) with
    | Some st => filters ++ [("state"%string, Py.VStr st)]
    | None => filters
    end in
  let filters :=
    match Py.truthy_str (category request) with
    | Some c => filters ++ [("category"%string, Py.VStr c)]
    | None => filters
    end in
  let filters :=
    match Py.truthy_int (min_age request) with
    | Some a => filters ++ [("min_age"%string, Py.VInt a)]
    | None => filters
    end in
  let filters :=
    match Py.truthy_int (max_age request) with
    | Some a => filters ++ [("max_age"%string, Py.VInt a)]
    | None => filters
    end in
  filters.

(** [filters if filters else None] *)
Definition or_none (filters : list (string * Py.value))
    : option (list (string * Py.value)) :=
  match filters with
  | [] => None
  | _ :: _ => Some filters
  end.

(** The schemes, with their scores, from which [search_schemes] builds
    the items of its response: the semantic search when there is a query
    and something is indexed, the filtered catalog with score 1.0
    otherwise. *)
Definition search_schemes (encode : string -> KnowledgeBase.vector)
    (request : SearchSchemesRequest) (kb : KnowledgeBase.state)
    (schemes_data : list Sch.Scheme) : outcome (list (Sch.Scheme * Q)) :=
  let filters := build_filters request in
  match Py.truthy_str (query request), KnowledgeBase.index kb with
  | Some q, _ :: _ =>
      KnowledgeBase.retrieve_schemes encode q (top_k request)
        (or_none filters) kb
  | _, _ =>
      let filtered := schemes_data in
      let filtered :=
        match Py.truthy_str (state request) with
        | Some st => List.filter (available_in st) filtered
        | None => filtered
        end in
      let filtered :=
        match Py.truthy_str (category request) with
        | Some c => List.filter (in_category c) filtered
        | None => filtered
        end in
      let filtered := Py.slice_to (top_k request) filtered in
      Ok (map (fun s => (s, 1%Q)) filtered)
  end.

End SchemesApi.

(* ===================================================================== *)
(** * Concrete profiles, schemes and sessions *)
(* ===================================================================== *)

Module Samples.

(** A catalog entry carrying the rule set [e]. *)
Definition entry (ident : string) (e : Sch.EligibilityCriteria) : Sch.Scheme :=
  {| Sch.id := ident; Sch.name := ident; Sch.name_translations := [];
     Sch.description := "Skill development scheme for youth";
     Sch.description_translations := [];
     Sch.eligibility := e;
     Sch.benefits := "Free skill training and certification";
     Sch.required_documents := ["Aadhar Card"%string];
     Sch.application_process := "1. Visit portal 2. Register";
     Sch.application_url := None; Sch.office_location := None;
     Sch.deadline := None; Sch.source_url := "https://pmkvyofficial.org";
     Sch.last_updated := 0%Z; Sch.embedding := None |}.

(** The profile of the scenario of the design document. *)
Definition student : User.UserProfile :=
  {| User.age := Some 25%Z;
     User.state := Some "Maharashtra"%string;
     User.education_level := Some "graduate"%string;
     User.income_range := Some "1-3lakh"%string;
     User.category := Some "general"%string;
     User.occupation := Some "student"%string;
     User.gender := Some "male"%string |}.

(** Rule sets with two, one and no constraint the student meets, one the
    student fails, and the four-constraint rule set of the scenario. *)
Definition youth : Sch.EligibilityCriteria :=
  {| Sch.min_age := Some 18%Z; Sch.max_age := Some 35%Z; Sch.states := None;
     Sch.education_levels := Some ["graduate"%string];
     Sch.income_max := None; Sch.categories := None; Sch.gender := None;
     Sch.occupations := None |}.

Definition low_income : Sch.EligibilityCriteria :=
  {| Sch.min_age := None; Sch.max_age := None; Sch.states := None;
     Sch.education_levels := None; Sch.income_max := Some 300000%Z;
     Sch.categories := None; Sch.gender := None; Sch.occupations := None |}.

Definition women_only : Sch.EligibilityCriteria :=
  {| Sch.min_age := None; Sch.max_age := None; Sch.states := None;
     Sch.education_levels := None; Sch.income_max := None;
     Sch.categories := None; Sch.gender := Some "female"%string;
     Sch.occupations := None |}.

Definition karnataka_only : Sch.EligibilityCriteria :=
  {| Sch.min_age := None; Sch.max_age := None;
     Sch.states := Some ["Karnataka"%string];
     Sch.education_levels := None; Sch.income_max := None;
     Sch.categories := None; Sch.gender := None; Sch.occupations := None |}.

Definition scenario : Sch.EligibilityCriteria :=
  {| Sch.min_age := Some 18%Z; Sch.max_age := Some 35%Z; Sch.states := None;
     Sch.education_levels := Some ["graduate"%string];
     Sch.income_max := Some 300000%Z; Sch.categories := None;
     Sch.gender := None; Sch.occupations := Some ["student"%string] |}.

Definition every_family : Sch.EligibilityCriteria :=
  {| Sch.min_age := Some 18%Z; Sch.max_age := None;
     Sch.states := Some ["Karnataka"%string];
     Sch.education_levels := Some ["graduate"%string];
     Sch.income_max := Some 300000%Z;
     Sch.categories := Some ["sc"%string; "st"%string];
     Sch.gender := Some "female"%string;
     Sch.occupations := Some ["farmer"%string] |}.

Definition catalog : list Sch.Scheme :=
  [ entry "open-a" low_income;
    entry "women" women_only;
    entry "youth" youth;
    entry "open-b" low_income;
    entry "anyone" Sch.unrestricted;
    entry "skills" scenario ].

(** A session as [start_conversation] leaves it, before any greeting is
    recorded, and the clock readings used with it. *)
Definition fresh : Conversation.ConversationState :=
  {| Conversation.session_id := "3f2b0c";
     Conversation.language := "hi";
     Conversation.user_profile := User.empty;
     Conversation.asked_questions := [];
     Conversation.current_stage := "greeting";
     Conversation.conversation_history := [];
     Conversation.created_at := 0%Z;
     Conversation.last_activity := 0%Z |}.

(** The student, with another gender and no occupation on record. *)
Definition student_f : User.UserProfile :=
  {| User.age := Some 25%Z;
     User.state := Some "Maharashtra"%string;
     User.education_level := Some "graduate"%string;
     User.income_range := Some "1-3lakh"%string;
     User.category := Some "general"%string;
     User.occupation := None;
     User.gender := Some "female"%string |}.

(** The student, with the income bracket the income question offers as
    an example. *)
Definition student_5lakh : User.UserProfile :=
  {| User.age := Some 25%Z;
     User.state := Some "Maharashtra"%string;
     User.education_level := Some "graduate"%string;
     User.income_range := Some "above 5 lakh"%string;
     User.category := Some "general"%string;
     User.occupation := Some "student"%string;
     User.gender := Some "male"%string |}.

(** A rule set whose age bounds exclude each other. *)
Definition crossed_ages : Sch.EligibilityCriteria :=
  {| Sch.min_age := Some 40%Z; Sch.max_age := Some 30%Z; Sch.states := None;
     Sch.education_levels := None; Sch.income_max := None;
     Sch.categories := None; Sch.gender := None; Sch.occupations := None |}.

(** The store after one English session was started at time 0. *)
Definition store : gmap string Conversation.ConversationState :=
  snd (Conversation.start_conversation 0 "3f2b0c" "en" empty).

(** A session in the information stage whose age is on record and whose
    state was asked about and not given. *)
Definition midway : Conversation.ConversationState :=
  {| Conversation.session_id := "3f2b0c";
     Conversation.language := "en";
     Conversation.user_profile :=
       {| User.age := Some 25%Z; User.state := None;
          User.education_level := None; User.income_range := None;
          User.category := None; User.occupation := None;
          User.gender := None |};
     Conversation.asked_questions := ["age"%string; "state"%string];
     Conversation.current_stage := "info_collection";
     Conversation.conversation_history := [];
     Conversation.created_at := 0%Z;
     Conversation.last_activity := 7%Z |}.

(** A one-coordinate encoder: the length of the text. *)
Definition by_length (text : string) : KnowledgeBase.vector :=
  [inject_Z (Z.of_nat (String.length text))].

(** An encoder that fails on every text. *)
Definition out_of_memory (text : string) : Exn.outcome KnowledgeBase.vector :=
  Exn.Raise (Exn.RuntimeError "out of memory").

(** The knowledge base after the sample catalog was indexed, and a
    filter dictionary as the search route builds it. *)
Definition regional : list Sch.Scheme :=
  [ entry "women" women_only;
    entry "ka" karnataka_only;
    entry "youth" youth;
    entry "open-a" low_income ].

Definition kb : KnowledgeBase.state :=
  snd (KnowledgeBase.index_schemes by_length regional KnowledgeBase.initial).


Definition filters : list (string * Py.value) :=
  [ ("state", Py.VStr "Maharashtra");
    ("category", Py.VStr "education");
    ("min_age", Py.VInt 20) ]%string.

(** The two artifacts of the sample knowledge base, saved under the
    default path prefix. *)
Definition disk : gmap string KnowledgeBase.file :=
  KnowledgeBase.save_index "data/faiss_index" kb empty.

(** A rule set for newborns only, a profile aged 25 with nothing else on
    record, and a search request as the search route receives it. *)
Definition newborn : Sch.EligibilityCriteria :=
  {| Sch.min_age := None; Sch.max_age := Some 0%Z; Sch.states := None;
     Sch.education_levels := None; Sch.income_max := None;
     Sch.categories := None; Sch.gender := None; Sch.occupations := None |}.

Definition aged_25 : User.UserProfile :=
  {| User.age := Some 25%Z; User.state := None;
     User.education_level := None; User.income_range := None;
     User.category := None; User.occupation := None; User.gender := None |}.

Definition request : SchemesApi.SearchSchemesRequest :=
  {| SchemesApi.query := Some "women"%string;
     SchemesApi.state := Some "Maharashtra"%string;
     SchemesApi.category := Some "education"%string;
     SchemesApi.min_age := Some 20%Z;
     SchemesApi.max_age := None;
     SchemesApi.top_k := 2%Z |}.

End Samples.

(* ===================================================================== *)
(** * Properties of the eligibility engine *)
(* ===================================================================== *)

Section StableSort.

Context {A : Type} (key : A -> nat).

Lemma insert_desc_perm (x : A) (l : list A) :
  Permutation (Eligibility.insert_desc key x l) (x :: l).
Proof.
  induction l as [|y l IH]; simpl.
  - apply Permutation_refl.
  - destruct (Nat.leb (key y) (key x)).
    + apply Permutation_refl.
    + eapply Permutation_trans; [apply perm_skip, IH | apply perm_swap].
Qed.

Lemma sort_desc_perm (l : list A) :
  Permutation (Eligibility.sort_desc key l) l.
Proof.
  induction l as [|x l IH]; simpl.
  - apply perm_nil.
  - eapply Permutation_trans; [apply insert_desc_perm | apply perm_skip, IH].
Qed.

Lemma insert_desc_sorted (x : A) (l : list A) :
  StronglySorted (fun a b => key b <= key a) l ->
  StronglySorted (fun a b => key b <= key a) (Eligibility.insert_desc key x l).
Proof.
  induction 1 as [|y l Hs IH Hall]; simpl.
  - constructor; [constructor | constructor].
  - destruct (Nat.leb (key y) (key x)) eqn:E.
    + apply Nat.leb_le in E. constructor.
      * constructor; assumption.
      * constructor; [exact E|].
        eapply List.Forall_impl; [|exact Hall]. simpl. intros; lia.
    + apply Nat.leb_gt in E. constructor; [exact IH|].
      eapply Permutation_Forall.
      * apply Permutation_sym, insert_desc_perm.
      * constructor; [lia | exact Hall].
Qed.

Lemma sort_desc_sorted (l : list A) :
  StronglySorted (fun a b => key b <= key a) (Eligibility.sort_desc key l).
Proof.
  induction l as [|x l IH]; simpl.
  - constructor.
  - apply insert_desc_sorted, IH.
Qed.

(** Stability: the elements of any one key are in the order they had. *)
Lemma insert_desc_stable (k : nat) (x : A) (l : list A) :
  List.filter (Eligibility.has_key key k) (Eligibility.insert_desc key x l)
  = List.filter (Eligibility.has_key key k) (x :: l).
Proof.
  induction l as [|y l IH]; [reflexivity|].
  cbn [Eligibility.insert_desc].
  destruct (Nat.leb (key y) (key x)) eqn:E; [reflexivity|].
  apply Nat.leb_gt in E.
  cbn [List.filter] in *. rewrite IH. unfold Eligibility.has_key.
  destruct (Nat.eqb (key x) k) eqn:Ex; [|reflexivity].
  destruct (Nat.eqb (key y) k) eqn:Ey; [|reflexivity].
  apply Nat.eqb_eq in Ex, Ey. lia.
Qed.

Lemma sort_desc_stable (k : nat) (l : list A) :
  List.filter (Eligibility.has_key key k) (Eligibility.sort_desc key l)
  = List.filter (Eligibility.has_key key k) l.
Proof.
  induction l as [|x l IH]; [reflexivity|].
  cbn [Eligibility.sort_desc]. rewrite insert_desc_stable.
  cbn [List.filter]. rewrite IH. reflexivity.
Qed.

End StableSort.

Section ListOrder.

Context {A : Type}.

Lemma filter_split (f : A -> bool) (l u v : list A) (a : A) :
  List.filter f l = u ++ a :: v ->
  exists l1 l2, l = l1 ++ a :: l2
                /\ List.filter f l1 = u /\ List.filter f l2 = v.
Proof.
  revert u. induction l as [|x l IH]; intros u H.
  - destruct u; discriminate.
  - cbn [List.filter] in H. destruct (f x) eqn:Fx.
    + destruct u as [|u0 u].
      * injection H as -> Hv. exists [], l. repeat split; assumption.
      * injection H as -> H. destruct (IH _ H) as (l1 & l2 & -> & H1 & H2).
        exists (u0 :: l1), l2. repeat split; [|exact H2].
        cbn [List.filter]. rewrite Fx, H1. reflexivity.
    + destruct (IH _ H) as (l1 & l2 & -> & H1 & H2).
      exists (x :: l1), l2. repeat split; [|exact H2].
      cbn [List.filter]. rewrite Fx. exact H1.
Qed.

Lemma before_filter (f : A -> bool) (x y : A) (l : list A) :
  Eligibility.before x y (List.filter f l) -> Eligibility.before x y l.
Proof.
  intros (u & v & w & H).
  destruct (filter_split _ _ _ _ _ H) as (l1 & l2 & -> & _ & H2).
  destruct (filter_split _ _ _ _ _ H2) as (l3 & l4 & -> & _ & _).
  exists l1, l3, l4. reflexivity.
Qed.

Lemma before_filter_intro (f : A -> bool) (x y : A) (l : list A) :
  f x = true -> f y = true -> Eligibility.before x y l -> Eligibility.before x y (List.filter f l).
Proof.
  intros Fx Fy (l1 & l2 & l3 & ->).
  exists (List.filter f l1), (List.filter f l2), (List.filter f l3).
  rewrite List.filter_app. cbn [List.filter]. rewrite Fx, List.filter_app.
  cbn [List.filter]. rewrite Fy. reflexivity.
Qed.

End ListOrder.

Section Ranking.

Import Eligibility.

Variable user_profile : User.UserProfile.
Variable schemes : list Sch.Scheme.

Lemma determine_eligibility_perm :
  Permutation (determine_eligibility user_profile schemes)
              (List.filter Sch.is_eligible
                 (map (check_single_scheme user_profile) schemes)).
Proof. apply sort_desc_perm. Qed.

Lemma determine_eligibility_only_eligible :
  Forall (fun r => Sch.is_eligible r = true)
         (determine_eligibility user_profile schemes).
Proof.
  eapply Permutation_Forall.
  - apply Permutation_sym, determine_eligibility_perm.
  - apply List.Forall_forall. intros r Hr.
    apply List.filter_In in Hr. apply Hr.
Qed.

Lemma determine_eligibility_keeps_order (a b : Sch.EligibilityResult) :
  rank a = rank b ->
  before a b (determine_eligibility user_profile schemes) ->
  before a b (map (check_single_scheme user_profile) schemes).
Proof.
  intros Hab Hout.
  apply before_filter with (f := Sch.is_eligible).
  apply before_filter with (f := has_key rank (rank a)).
  rewrite <- (sort_desc_stable rank (rank a)).
  apply before_filter_intro; [ | | exact Hout]; unfold has_key.
  - apply Nat.eqb_refl.
  - rewrite Hab. apply Nat.eqb_refl.
Qed.

(** C1.  [determine_eligibility] returns only results whose verdict is
    eligible, exactly those of the catalog; they are in non-increasing
    order of the number of matching criteria; and results with the same
    number are in the order of their schemes in the input list, both as
    an equation on the subsequence of each count and for any two of
    them. *)
Theorem determine_eligibility_ranked_stable :
  let out := determine_eligibility user_profile schemes in
  let evaluated := map (check_single_scheme user_profile) schemes in
  Forall (fun r => Sch.is_eligible r = true) out
  /\ Permutation out (List.filter Sch.is_eligible evaluated)
  /\ StronglySorted
       (fun a b =>
          length (Sch.matching_criteria b) <= length (Sch.matching_criteria a))
       out
  /\ (forall k,
        List.filter (has_key rank k) out
        = List.filter (has_key rank k) (List.filter Sch.is_eligible evaluated))
  /\ (forall a b,
        length (Sch.matching_criteria a) = length (Sch.matching_criteria b) ->
        before a b out -> before a b evaluated).
Proof.
  cbv zeta. repeat split.
  - apply determine_eligibility_only_eligible.
  - apply determine_eligibility_perm.
  - apply (sort_desc_sorted rank).
  - intros k. apply sort_desc_stable.
  - apply determine_eligibility_keeps_order.
Qed.

End Ranking.

(** C1 on the sample catalog: the student is eligible for five of the six
    schemes; the two schemes with one matching criterion keep their
    catalog order. *)
Lemma determine_eligibility_ranked_stable_witness :
  map (fun r => (Sch.id (Sch.scheme r), length (Sch.matching_criteria r)))
      (Eligibility.determine_eligibility Samples.student Samples.catalog)
  = [ ("skills", 4); ("youth", 2); ("open-a", 1); ("open-b", 1);
      ("anyone", 0) ]%string
  /\ StronglySorted
       (fun a b =>
          length (Sch.matching_criteria b) <= length (Sch.matching_criteria a))
       (Eligibility.determine_eligibility Samples.student Samples.catalog).
Proof.
  split; [vm_compute; reflexivity|].
  exact (proj1 (proj2 (proj2
    (determine_eligibility_ranked_stable Samples.student Samples.catalog)))).
Defined.

Section Checks.

Import Eligibility.

Variable p : User.UserProfile.
Variable e : Sch.EligibilityCriteria.

Ltac split_check :=
  repeat match goal with
    | |- context [match ?x with _ => _ end] => destruct x eqn:?
    end;
  cbn [matching missing eligible satisfied failed start app];
  rewrite ?app_nil_r, ?andb_true_r, ?andb_false_r, <- ?app_assoc;
  repeat split; reflexivity.

Lemma check_age_appends : appends (check_age p e).
Proof. intros v. unfold check_age. split_check. Qed.

Lemma check_state_appends : appends (check_state p e).
Proof. intros v. unfold check_state. split_check. Qed.

Lemma check_education_appends : appends (check_education p e).
Proof. intros v. unfold check_education. split_check. Qed.

Lemma check_income_appends : appends (check_income p e).
Proof. intros v. unfold check_income. split_check. Qed.

Lemma check_category_appends : appends (check_category p e).
Proof. intros v. unfold check_category. split_check. Qed.

Lemma check_gender_appends : appends (check_gender p e).
Proof. intros v. unfold check_gender. split_check. Qed.

Lemma check_occupation_appends : appends (check_occupation p e).
Proof. intros v. unfold check_occupation. split_check. Qed.

End Checks.

Section SingleScheme.

Import Eligibility.

Variable p : User.UserProfile.

Lemma run_checks_matching (e : Sch.EligibilityCriteria) :
  matching (run_checks p e)
  = matching (check_age p e start) ++ matching (check_state p e start)
    ++ matching (check_education p e start)
    ++ matching (check_income p e start)
    ++ matching (check_category p e start)
    ++ matching (check_gender p e start)
    ++ matching (check_occupation p e start).
Proof.
  unfold run_checks.
  rewrite (proj1 (check_occupation_appends p e _)),
          (proj1 (check_gender_appends p e _)),
          (proj1 (check_category_appends p e _)),
          (proj1 (check_income_appends p e _)),
          (proj1 (check_education_appends p e _)),
          (proj1 (check_state_appends p e _)).
  rewrite <- !app_assoc. reflexivity.
Qed.

Lemma run_checks_missing (e : Sch.EligibilityCriteria) :
  missing (run_checks p e)
  = missing (check_age p e start) ++ missing (check_state p e start)
    ++ missing (check_education p e start)
    ++ missing (check_income p e start)
    ++ missing (check_category p e start)
    ++ missing (check_gender p e start)
    ++ missing (check_occupation p e start).
Proof.
  unfold run_checks.
  rewrite (proj1 (proj2 (check_occupation_appends p e _))),
          (proj1 (proj2 (check_gender_appends p e _))),
          (proj1 (proj2 (check_category_appends p e _))),
          (proj1 (proj2 (check_income_appends p e _))),
          (proj1 (proj2 (check_education_appends p e _))),
          (proj1 (proj2 (check_state_appends p e _))).
  rewrite <- !app_assoc. reflexivity.
Qed.

Lemma run_checks_eligible (e : Sch.EligibilityCriteria) :
  eligible (run_checks p e)
  = (eligible (check_age p e start) && eligible (check_state p e start)
     && eligible (check_education p e start)
     && eligible (check_income p e start)
     && eligible (check_category p e start)
     && eligible (check_gender p e start)
     && eligible (check_occupation p e start))%bool.
Proof.
  unfold run_checks.
  rewrite (proj2 (proj2 (check_occupation_appends p e _))),
          (proj2 (proj2 (check_gender_appends p e _))),
          (proj2 (proj2 (check_category_appends p e _))),
          (proj2 (proj2 (check_income_appends p e _))),
          (proj2 (proj2 (check_education_appends p e _))),
          (proj2 (proj2 (check_state_appends p e _))).
  reflexivity.
Qed.

Lemma Zpos_of_nat (k : nat) : 0 < k -> Zpos (Pos.of_nat k) = Z.of_nat k.
Proof.
  intros H. rewrite <- (Znat.positive_nat_Z (Pos.of_nat k)).
  rewrite Nat2Pos.id by lia. reflexivity.
Qed.

Lemma confidence_of_bounds (m n : nat) :
  (0 <= confidence_of m n <= 1)%Q.
Proof.
  unfold confidence_of. destruct (Nat.ltb 0 (m + n)) eqn:E.
  - apply Nat.ltb_lt in E. unfold Qle. cbn [Qnum Qden].
    rewrite Zpos_of_nat by lia. lia.
  - split; unfold Qle; cbn; lia.
Qed.

Lemma confidence_of_ratio (m n : nat) :
  0 < m + n ->
  (confidence_of m n == inject_Z (Z.of_nat m) / inject_Z (Z.of_nat (m + n)))%Q.
Proof.
  intros H. unfold confidence_of.
  apply Nat.ltb_lt in H as E. rewrite E.
  rewrite Qmake_Qdiv, Zpos_of_nat by lia.
  reflexivity.
Qed.

(** C2.  The confidence of [check_single_scheme] is the number of
    matching criteria over the number of matching and missing criteria
    of the result, and 0 when there is none; it lies between 0 and 1; a
    scheme whose rule set has no constraint gives an eligible result of
    confidence 0, with both lists empty. *)
Theorem confidence_is_matching_ratio (s : Sch.Scheme) :
  let r := check_single_scheme p s in
  let m := length (Sch.matching_criteria r) in
  let n := length (Sch.missing_criteria r) in
  (m + n = 0 -> Sch.confidence r = 0%Q)
  /\ (0 < m + n ->
      Sch.confidence r = (Z.of_nat m # Pos.of_nat (m + n))%Q
      /\ (Sch.confidence r
          == inject_Z (Z.of_nat m) / inject_Z (Z.of_nat (m + n)))%Q)
  /\ (0 <= Sch.confidence r <= 1)%Q
  /\ (Sch.eligibility s = Sch.unrestricted ->
      Sch.is_eligible r = true /\ Sch.confidence r = 0%Q
      /\ Sch.matching_criteria r = [] /\ Sch.missing_criteria r = []).
Proof.
  cbv zeta. cbn [check_single_scheme Sch.confidence Sch.matching_criteria
                 Sch.missing_criteria Sch.is_eligible].
  repeat split.
  - intros H. unfold confidence_of. rewrite H. reflexivity.
  - unfold confidence_of. apply Nat.ltb_lt in H. rewrite H. reflexivity.
  - apply confidence_of_ratio. assumption.
  - apply confidence_of_bounds.
  - apply confidence_of_bounds.
  - rewrite H. reflexivity.
  - rewrite H. reflexivity.
  - rewrite H. reflexivity.
  - rewrite H. reflexivity.
Qed.

End SingleScheme.

(** C2 on the scenario of the design document (four criteria, all met)
    and on a scheme open to anyone. *)
Lemma confidence_is_matching_ratio_witness :
  Sch.confidence
    (Eligibility.check_single_scheme Samples.student
       (Samples.entry "skills" Samples.scenario)) = (4 # 4)%Q
  /\ Sch.confidence
       (Eligibility.check_single_scheme Samples.student
          (Samples.entry "anyone" Sch.unrestricted)) = 0%Q.
Proof.
  split.
  - apply (proj2 (confidence_is_matching_ratio Samples.student
                    (Samples.entry "skills" Samples.scenario))).
    vm_compute. lia.
  - apply (proj2 (proj2 (proj2
             (confidence_is_matching_ratio Samples.student
                (Samples.entry "anyone" Sch.unrestricted))))).
    reflexivity.
Defined.

Section UnsetAttributes.

Import Eligibility.

Variable p : User.UserProfile.
Variable e : Sch.EligibilityCriteria.

(** What each check records when the profile lacks the attribute it
    needs. *)
Lemma check_age_unset :
  Sch.min_age e <> None \/ Sch.max_age e <> None ->
  User.age p = None ->
  check_age p e start = failed "Age information required" start.
Proof.
  intros H Hp. unfold check_age. rewrite Hp.
  destruct (Sch.min_age e), (Sch.max_age e); try reflexivity.
  destruct H as [H|H]; contradiction.
Qed.

Lemma check_state_unset :
  Sch.states e <> None -> User.state p = None ->
  check_state p e start = failed "State information required" start.
Proof.
  intros H Hp. unfold check_state. rewrite Hp.
  destruct (Sch.states e); [reflexivity | contradiction].
Qed.

Lemma check_education_unset :
  Sch.education_levels e <> None -> User.education_level p = None ->
  check_education p e start
  = failed "Education level information required" start.
Proof.
  intros H Hp. unfold check_education. rewrite Hp.
  destruct (Sch.education_levels e); [reflexivity | contradiction].
Qed.

Lemma check_income_unset :
  Sch.income_max e <> None -> User.income_range p = None ->
  check_income p e start = failed "Income information required" start.
Proof.
  intros H Hp. unfold check_income. rewrite Hp.
  destruct (Sch.income_max e); [reflexivity | contradiction].
Qed.

Lemma check_category_unset :
  Sch.categories e <> None -> User.category p = None ->
  check_category p e start = failed "Category information required" start.
Proof.
  intros H Hp. unfold check_category. rewrite Hp.
  destruct (Sch.categories e); [reflexivity | contradiction].
Qed.

Lemma check_gender_unset :
  Sch.gender e <> None -> User.gender p = None ->
  check_gender p e start = failed "Gender information required" start.
Proof.
  intros H Hp. unfold check_gender. rewrite Hp.
  destruct (Sch.gender e); [reflexivity | contradiction].
Qed.

Lemma check_occupation_unset :
  Sch.occupations e <> None -> User.occupation p = None ->
  check_occupation p e start
  = failed "Occupation information required" start.
Proof.
  intros H Hp. unfold check_occupation. rewrite Hp.
  destruct (Sch.occupations e); [reflexivity | contradiction].
Qed.

End UnsetAttributes.

Ltac hard_failure p e H :=
  rewrite (run_checks_missing p e), (run_checks_eligible p e), H;
  cbn [Eligibility.missing Eligibility.eligible Eligibility.failed
       Eligibility.start app];
  split;
  [ rewrite ?in_app_iff; cbn [In]; tauto
  | rewrite ?andb_false_r; reflexivity ].

(** C3.  For each of the seven attribute families: when the rule set of
    the scheme constrains the family and the profile has no value for
    it, the result of [check_single_scheme] lists the request for that
    attribute among the missing criteria and its verdict is
    ineligible. *)
Theorem unset_constrained_attribute_is_hard_failure
    (p : User.UserProfile) (s : Sch.Scheme) :
  let e := Sch.eligibility s in
  let r := Eligibility.check_single_scheme p s in
  (Sch.min_age e <> None \/ Sch.max_age e <> None ->
   User.age p = None ->
   In "Age information required"%string (Sch.missing_criteria r)
   /\ Sch.is_eligible r = false)
  /\ (Sch.states e <> None -> User.state p = None ->
      In "State information required"%string (Sch.missing_criteria r)
      /\ Sch.is_eligible r = false)
  /\ (Sch.education_levels e <> None -> User.education_level p = None ->
      In "Education level information required"%string
         (Sch.missing_criteria r)
      /\ Sch.is_eligible r = false)
  /\ (Sch.income_max e <> None -> User.income_range p = None ->
      In "Income information required"%string (Sch.missing_criteria r)
      /\ Sch.is_eligible r = false)
  /\ (Sch.categories e <> None -> User.category p = None ->
      In "Category information required"%string (Sch.missing_criteria r)
      /\ Sch.is_eligible r = false)
  /\ (Sch.gender e <> None -> User.gender p = None ->
      In "Gender information required"%string (Sch.missing_criteria r)
      /\ Sch.is_eligible r = false)
  /\ (Sch.occupations e <> None -> User.occupation p = None ->
      In "Occupation information required"%string (Sch.missing_criteria r)
      /\ Sch.is_eligible r = false).
Proof.
  cbv zeta.
  cbn [Eligibility.check_single_scheme Sch.missing_criteria Sch.is_eligible].
  set (e := Sch.eligibility s).
  repeat apply conj; intros Hc Hp.
  - hard_failure p e (check_age_unset p e Hc Hp).
  - hard_failure p e (check_state_unset p e Hc Hp).
  - hard_failure p e (check_education_unset p e Hc Hp).
  - hard_failure p e (check_income_unset p e Hc Hp).
  - hard_failure p e (check_category_unset p e Hc Hp).
  - hard_failure p e (check_gender_unset p e Hc Hp).
  - hard_failure p e (check_occupation_unset p e Hc Hp).
Qed.

(** C3 on an empty profile against a scheme that constrains every
    family. *)
Lemma unset_constrained_attribute_is_hard_failure_witness :
  let r := Eligibility.check_single_scheme User.empty
             (Samples.entry "all" Samples.every_family) in
  (In "Age information required"%string (Sch.missing_criteria r)
   /\ Sch.is_eligible r = false)
  /\ (In "Occupation information required"%string (Sch.missing_criteria r)
      /\ Sch.is_eligible r = false).
Proof.
  pose proof (unset_constrained_attribute_is_hard_failure User.empty
                (Samples.entry "all" Samples.every_family)) as H.
  cbv zeta in *. split.
  - apply (proj1 H); [left; discriminate | reflexivity].
  - apply (proj2 (proj2 (proj2 (proj2 (proj2 (proj2 H)))))).
    + discriminate.
    + reflexivity.
Defined.

Section Income.

Import Eligibility.

Variable p : User.UserProfile.
Variable e : Sch.EligibilityCriteria.
Variable limit : Z.

(** The two income messages begin differently from every message of the
    six other checks, whatever the profile and the rule set put in
    them. *)
Ltac other_family :=
  repeat match goal with
    | |- context [match ?x with _ => _ end] => destruct x eqn:?
    end;
  cbn [matching missing satisfied failed start app In];
  intros H; repeat destruct H as [H|H]; try contradiction;
  unfold income_within_limit, income_above_limit in H;
  cbn [String.append] in H; discriminate H.

Lemma age_has_no_income_message :
  ~ In (income_within_limit limit) (matching (check_age p e start))
  /\ ~ In (income_above_limit limit) (missing (check_age p e start)).
Proof. unfold check_age. split; other_family. Qed.

Lemma state_has_no_income_message :
  ~ In (income_within_limit limit) (matching (check_state p e start))
  /\ ~ In (income_above_limit limit) (missing (check_state p e start)).
Proof. unfold check_state. split; other_family. Qed.

Lemma education_has_no_income_message :
  ~ In (income_within_limit limit) (matching (check_education p e start))
  /\ ~ In (income_above_limit limit) (missing (check_education p e start)).
Proof. unfold check_education. split; other_family. Qed.

Lemma category_has_no_income_message :
  ~ In (income_within_limit limit) (matching (check_category p e start))
  /\ ~ In (income_above_limit limit) (missing (check_category p e start)).
Proof. unfold check_category. split; other_family. Qed.

Lemma gender_has_no_income_message :
  ~ In (income_within_limit limit) (matching (check_gender p e start))
  /\ ~ In (income_above_limit limit) (missing (check_gender p e start)).
Proof. unfold check_gender. split; other_family. Qed.

Lemma occupation_has_no_income_message :
  ~ In (income_within_limit limit) (matching (check_occupation p e start))
  /\ ~ In (income_above_limit limit) (missing (check_occupation p e start)).
Proof. unfold check_occupation. split; other_family. Qed.

Lemma income_message_from_income_check :
  (In (income_within_limit limit) (matching (run_checks p e))
   <-> In (income_within_limit limit) (matching (check_income p e start)))
  /\ (In (income_above_limit limit) (missing (run_checks p e))
      <-> In (income_above_limit limit) (missing (check_income p e start))).
Proof.
  rewrite run_checks_matching, run_checks_missing, !in_app_iff.
  pose proof age_has_no_income_message.
  pose proof state_has_no_income_message.
  pose proof education_has_no_income_message.
  pose proof category_has_no_income_message.
  pose proof gender_has_no_income_message.
  pose proof occupation_has_no_income_message.
  tauto.
Qed.

Lemma exceeds_not_within (c : ceiling) : exceeds c limit = true <-> ~ within c limit.
Proof.
  destruct c as [r|]; cbn.
  - rewrite Z.ltb_lt. lia.
  - tauto.
Qed.

Lemma within_not_exceeds (c : ceiling) : exceeds c limit = false <-> within c limit.
Proof.
  destruct c as [r|]; cbn.
  - rewrite Z.ltb_ge. tauto.
  - split; [discriminate | tauto].
Qed.

End Income.

(** C4.  For a profile with an income bracket and a scheme with an
    income limit, the result of [check_single_scheme] lists the income
    criterion as matching exactly when the ceiling of the bracket in
    [INCOME_RANGES] is at most the limit, and as missing (with an
    ineligible verdict) exactly when it is not.  The ceilings are the
    fixed ones, and the top bracket, whose ceiling is unbounded, never
    matches. *)
Theorem income_matches_iff_ceiling_within_limit
    (p : User.UserProfile) (s : Sch.Scheme) (bracket : string) (limit : Z) :
  User.income_range p = Some bracket ->
  Sch.income_max (Sch.eligibility s) = Some limit ->
  let r := Eligibility.check_single_scheme p s in
  let c := Py.dict_get Eligibility.INCOME_RANGES bracket Eligibility.Unbounded in
  (In (Eligibility.income_within_limit limit) (Sch.matching_criteria r)
   <-> Eligibility.within c limit)
  /\ (In (Eligibility.income_above_limit limit) (Sch.missing_criteria r)
      <-> ~ Eligibility.within c limit)
  /\ (~ Eligibility.within c limit -> Sch.is_eligible r = false)
  /\ (bracket = "above_8lakh"%string ->
      c = Eligibility.Unbounded
      /\ ~ In (Eligibility.income_within_limit limit) (Sch.matching_criteria r))
  /\ (bracket = "below_1lakh"%string -> c = Eligibility.Rupees 100000)
  /\ (bracket = "1-3lakh"%string -> c = Eligibility.Rupees 300000)
  /\ (bracket = "3-5lakh"%string -> c = Eligibility.Rupees 500000)
  /\ (bracket = "5-8lakh"%string -> c = Eligibility.Rupees 800000).
Proof.
  intros Hp He. cbv zeta.
  cbn [Eligibility.check_single_scheme Sch.matching_criteria
       Sch.missing_criteria Sch.is_eligible].
  set (e := Sch.eligibility s) in *.
  set (c := Py.dict_get Eligibility.INCOME_RANGES bracket Eligibility.Unbounded).
  destruct (income_message_from_income_check p e limit) as [Hm Hn].
  assert (Hinc : Eligibility.check_income p e Eligibility.start
                 = if Eligibility.exceeds c limit
                   then Eligibility.failed
                          (Eligibility.income_above_limit limit) Eligibility.start
                   else Eligibility.satisfied
                          (Eligibility.income_within_limit limit) Eligibility.start).
  { unfold Eligibility.check_income. rewrite He, Hp. reflexivity. }
  pose proof (exceeds_not_within limit c) as Hex.
  pose proof (within_not_exceeds limit c) as Hin.
  assert (Hyes : In (Eligibility.income_within_limit limit)
                    (Eligibility.matching (Eligibility.run_checks p e))
                 <-> Eligibility.within c limit).
  { rewrite Hm, Hinc. destruct (Eligibility.exceeds c limit) eqn:E; cbn.
    - split; [tauto|]. intros W. exfalso. apply Hex; [reflexivity | exact W].
    - split; [|tauto]. intros _. apply Hin. reflexivity. }
  repeat apply conj.
  - apply Hyes.
  - apply Hyes.
  - rewrite Hn, Hinc. destruct (Eligibility.exceeds c limit) eqn:E; cbn.
    + intros _. apply Hex. reflexivity.
    + intros [].
  - intros W. rewrite Hn, Hinc. apply Hex in W. rewrite W. cbn. tauto.
  - intros W. rewrite run_checks_eligible, Hinc.
    apply Hex in W. rewrite W. cbn.
    rewrite ?andb_false_r. reflexivity.
  - intros ->. subst c. split; [reflexivity|].
    rewrite Hyes. cbn. tauto.
  - intros ->. reflexivity.
  - intros ->. reflexivity.
  - intros ->. reflexivity.
  - intros ->. reflexivity.
Qed.

(** C4 on the student (bracket [1-3lakh], ceiling 300000) against a limit
    of 300000 rupees: the income criterion is matching. *)
Lemma income_matches_iff_ceiling_within_limit_witness :
  In (Eligibility.income_within_limit 300000)
     (Sch.matching_criteria
        (Eligibility.check_single_scheme Samples.student
           (Samples.entry "open-a" Samples.low_income))).
Proof.
  apply (proj1 (income_matches_iff_ceiling_within_limit Samples.student
                  (Samples.entry "open-a" Samples.low_income)
                  "1-3lakh" 300000 eq_refl eq_refl)).
  cbn. lia.
Defined.

(* ===================================================================== *)
(** * Properties of the dialog engine *)
(* ===================================================================== *)

Section Dialog.

Import Conversation Exn.



(** C6.  Reading a stored session whose last activity is more than
    [SESSION_TIMEOUT] (thirty minutes) before the clock returns [None]
    and leaves the store without it, so that the count of active
    sessions drops by one; reading one whose last activity is at most
    the timeout old returns it and leaves the store as it was. *)
Theorem get_session_expires_lazily
    (now : Z) (sid : string) (st : ConversationState)
    (store : gmap string ConversationState) :
  store !! sid = Some st ->
  ((now - last_activity st > SESSION_TIMEOUT)%Z ->
     fst (get_session now sid store) = None
     /\ snd (get_session now sid store) = delete sid store
     /\ snd (get_session now sid store) !! sid = None
     /\ S (get_active_sessions_count (snd (get_session now sid store)))
        = get_active_sessions_count store)
  /\ ((now - last_activity st <= SESSION_TIMEOUT)%Z ->
        get_session now sid store = (Some st, store))
  /\ SESSION_TIMEOUT = (30 * 60 * 1000000)%Z.
Proof.
  intros Hs. unfold get_session, end_conversation, expired.
  rewrite Hs. repeat apply conj.
  - intros Hlate. apply Z.gt_lt, Z.ltb_lt in Hlate. rewrite Hlate.
    cbn [fst snd]. repeat apply conj; try reflexivity.
    + apply lookup_delete_eq.
    + unfold get_active_sessions_count.
      rewrite map_size_delete, Hs.
      assert (size store <> 0) as Hne.
      { intros Hz. apply map_size_empty_inv in Hz. subst store.
        rewrite lookup_empty in Hs. discriminate. }
      destruct (size store); [contradiction | reflexivity].
  - intros Hlive. apply Z.ltb_ge in Hlive. rewrite Hlive. reflexivity.
  - reflexivity.
Qed.

(** The sweep removes the expired sessions, keeps the others and reports
    how many it removed. *)
Lemma cleanup_expired_sessions_sweeps
    (now : Z) (store : gmap string ConversationState) :
  let removed := fst (cleanup_expired_sessions now store) in
  let store' := snd (cleanup_expired_sessions now store) in
  (forall sid st, store' !! sid = Some st
                  <-> store !! sid = Some st /\ expired now st = false)
  /\ removed + size store' = size store.
Proof.
  cbv zeta. unfold cleanup_expired_sessions. cbn [fst snd]. split.
  - intros sid st. rewrite map_lookup_filter_Some. cbn [snd].
    destruct (expired now st); intuition congruence.
  - rewrite <- map_size_disj_union
      by apply (map_disjoint_filter_complement
                  (fun kv => expired now (snd kv) = true)).
    f_equal.
    apply (map_filter_union_complement
             (fun kv => expired now (snd kv) = true)).
Qed.

End Dialog.

(** C6 on the sample store: one microsecond past thirty minutes the
    session is gone, at thirty minutes sharp it is still returned. *)
Lemma get_session_expires_lazily_witness :
  fst (Conversation.get_session 1800000001 "3f2b0c" Samples.store) = None
  /\ Conversation.get_active_sessions_count
       (snd (Conversation.get_session 1800000001 "3f2b0c" Samples.store)) = 0
  /\ fst (Conversation.get_session 1800000000 "3f2b0c" Samples.store)
     = Some (fst (Conversation.start_conversation 0 "3f2b0c" "en" empty)).
Proof.
  pose proof (fun now =>
    get_session_expires_lazily now "3f2b0c"
      (fst (Conversation.start_conversation 0 "3f2b0c" "en" empty))
      Samples.store ltac:(vm_compute; reflexivity)) as H.
  repeat apply conj.
  - apply (proj1 (H 1800000001%Z)). vm_compute. reflexivity.
  - destruct (proj1 (H 1800000001%Z)) as (_ & _ & _ & Hc);
      [vm_compute; reflexivity|].
    vm_compute in Hc. vm_compute. congruence.
  - rewrite (proj1 (proj2 (H 1800000000%Z))); [reflexivity|].
    vm_compute. discriminate.
Defined.

Section LastActivity.

Import Conversation Exn.

(** C7, as formulated, fails: at time 1 [get_next_question] moves the
    sample session (last active at time 0) to the information stage and
    records the age question as asked, and the last-activity time it
    leaves is still 0. *)
Lemma get_next_question_does_not_refresh :
  let st' := snd (get_next_question Samples.fresh) in
  current_stage st' = "info_collection"%string
  /\ asked_questions st' = ["age"%string]
  /\ st' <> Samples.fresh
  /\ last_activity st' = 0%Z
  /\ ~ refreshes (fun _ st => snd (get_next_question st)).
Proof.
  cbv zeta.
  assert (snd (get_next_question Samples.fresh) <> Samples.fresh) as Hne.
  { intros Heq. apply (f_equal asked_questions) in Heq.
    vm_compute in Heq. discriminate. }
  repeat apply conj; try reflexivity.
  - exact Hne.
  - intros H. specialize (H 1%Z Samples.fresh Hne).
    vm_compute in H. discriminate.
Qed.

Lemma first_unasked_last_activity
    (order : list (string * bool)) (st : ConversationState) :
  last_activity (snd (first_unasked order st)) = last_activity st.
Proof.
  induction order as [|[name unset] order IH]; cbn [first_unasked].
  - reflexivity.
  - destruct (unset && negb (Py.str_in name (asked_questions st)))%bool;
      [reflexivity | exact IH].
Qed.

(** C7, amended.  Appending a message and the transition to the guidance
    stage always set the last-activity time to the clock.  So does the
    profile update for each of the seven attributes of the profile,
    whatever the value given, and so does the transition to the
    eligibility stage on a session whose information is complete; on a
    session whose information is not complete that transition changes
    nothing.  [get_next_question] never touches the last-activity
    time. *)
Theorem mutators_refresh_last_activity :
  (forall now role content st,
      last_activity (_add_message now role content st) = now)
  /\ (forall now content st,
        last_activity (add_user_message now content st) = now
        /\ last_activity (add_assistant_message now content st) = now)
  /\ (forall now st, last_activity (transition_to_guidance now st) = now)
  /\ (forall now field v st,
        In field FIELDS ->
        last_activity (update_user_profile now field v st) = now)
  /\ (forall now st,
        is_information_complete st = true ->
        current_stage (transition_to_eligibility now st) = "eligibility"%string
        /\ last_activity (transition_to_eligibility now st) = now)
  /\ (forall now st,
        is_information_complete st = false ->
        transition_to_eligibility now st = st)
  /\ (forall st,
        last_activity (snd (get_next_question st)) = last_activity st).
Proof.
  repeat apply conj.
  - reflexivity.
  - split; reflexivity.
  - reflexivity.
  - intros now field v st Hfield. cbn [FIELDS In] in Hfield.
    repeat destruct Hfield as [<-|Hfield]; try reflexivity.
    contradiction.
  - intros now st Hc. unfold transition_to_eligibility. rewrite Hc.
    split; reflexivity.
  - intros now st Hc. unfold transition_to_eligibility. rewrite Hc.
    reflexivity.
  - intros st. unfold get_next_question.
    destruct (String.eqb (current_stage st) "greeting");
      match goal with
      | |- context [negb ?c] => destruct (negb c)
      end;
      rewrite ?first_unasked_last_activity; reflexivity.
Qed.

End LastActivity.

(** C7, amended, on the sample session: recording the age at time 42 sets
    the last-activity time to 42, and so does recording under the
    attribute [age] a value that is no age. *)
Lemma mutators_refresh_last_activity_witness :
  Conversation.last_activity
    (Conversation.update_user_profile 42 "age" (Py.VInt 25) Samples.fresh)
  = 42%Z
  /\ Conversation.last_activity
       (Conversation.update_user_profile 42 "age" (Py.VStr "young")
          Samples.fresh)
     = 42%Z.
Proof.
  pose proof (proj1 (proj2 (proj2 (proj2 mutators_refresh_last_activity))))
    as H.
  split; apply H; cbn; auto.
Defined.

(* ===================================================================== *)
(** * Properties of the retrieval index *)
(* ===================================================================== *)

Section Filters.

Import KnowledgeBase Exn.

Variable scheme : Sch.Scheme.

Lemma matches_filters_without_category (filters : list (string * Py.value)) :
  _matches_filters scheme filters
  = _matches_filters scheme (without_category filters).
Proof.
  induction filters as [|[key value] rest IH]; [reflexivity|].
  unfold without_category. cbn [List.filter fst].
  fold (without_category rest).
  destruct (String.eqb key "category") eqn:Ecat; cbn [negb].
  - apply String.eqb_eq in Ecat. subst key. exact IH.
  - cbn [_matches_filters]. rewrite Ecat, IH. reflexivity.
Qed.

Lemma passes_without_category (filters : list (string * Py.value)) :
  passes (Some filters) scheme = passes (Some (without_category filters)) scheme.
Proof.
  unfold passes.
  destruct filters as [|f fs]; [reflexivity|].
  rewrite matches_filters_without_category.
  destruct (without_category (f :: fs)); reflexivity.
Qed.

End Filters.

Lemma collect_same_filters (all : list Sch.Scheme) (top_k : Z)
    (f1 f2 : option (list (string * Py.value))) :
  (forall scheme, KnowledgeBase.passes f1 scheme = KnowledgeBase.passes f2 scheme) ->
  forall hits results,
    KnowledgeBase.collect all top_k f1 hits results
    = KnowledgeBase.collect all top_k f2 hits results.
Proof.
  intros Hsame hits.
  induction hits as [|[idx distance] rest IH]; intros results; [reflexivity|].
  cbn [KnowledgeBase.collect].
  destruct (idx <? Z.of_nat (length all))%Z; [|apply IH].
  destruct (Py.getitem all idx) as [scheme|]; [|reflexivity].
  rewrite Hsame. destruct (KnowledgeBase.passes f2 scheme) as [[|]|]; cbn.
  - destruct (top_k <=? _)%Z; [reflexivity | apply IH].
  - apply IH.
  - reflexivity.
Qed.

(** C10.  An item of key [category] in the filter dictionary has no
    effect: [_matches_filters] gives the same answer with and without
    the items of that key, wherever they stand in the dictionary, a
    dictionary holding only such items accepts every scheme, and
    [retrieve_schemes] returns the same list with and without them. *)
Theorem category_filter_is_ignored
    (scheme : Sch.Scheme) (filters : list (string * Py.value)) :
  KnowledgeBase._matches_filters scheme filters
  = KnowledgeBase._matches_filters scheme
      (KnowledgeBase.without_category filters)
  /\ (forall v,
        KnowledgeBase._matches_filters scheme (("category"%string, v) :: filters)
        = KnowledgeBase._matches_filters scheme filters)
  /\ (forall v,
        KnowledgeBase._matches_filters scheme [("category"%string, v)]
        = Exn.Ok true)
  /\ (forall encode query top_k kb,
        KnowledgeBase.retrieve_schemes encode query top_k (Some filters) kb
        = KnowledgeBase.retrieve_schemes encode query top_k
            (Some (KnowledgeBase.without_category filters)) kb).
Proof.
  repeat apply conj.
  - apply matches_filters_without_category.
  - reflexivity.
  - reflexivity.
  - intros encode query top_k kb. unfold KnowledgeBase.retrieve_schemes.
    destruct (KnowledgeBase.schemes kb); [reflexivity|].
    destruct (0 <? _)%Z; [|reflexivity].
    apply collect_same_filters. intros s0.
    apply passes_without_category.
Qed.

Lemma encode_texts_total (encode : string -> KnowledgeBase.vector)
    (texts : list string) :
  KnowledgeBase.encode_texts (fun text => Exn.Ok (encode text)) texts
  = Exn.Ok (map encode texts).
Proof.
  induction texts as [|text rest IH]; [reflexivity|].
  cbn [KnowledgeBase.encode_texts Exn.bind map]. rewrite IH. reflexivity.
Qed.

(** C8.  [index_schemes] on an empty list raises [ValueError] and leaves
    the knowledge base (scheme list and index) as it was; on a list that
    is not empty, when the encoder raises on no text, it succeeds and
    replaces both. *)
Theorem index_schemes_empty_raises_and_keeps_index
    (encode : string -> KnowledgeBase.vector) (kb : KnowledgeBase.state) :
  KnowledgeBase.index_schemes encode [] kb
  = (Exn.Raise (Exn.ValueError "Cannot index empty scheme list"), kb)
  /\ KnowledgeBase.schemes (snd (KnowledgeBase.index_schemes encode [] kb))
     = KnowledgeBase.schemes kb
  /\ KnowledgeBase.index (snd (KnowledgeBase.index_schemes encode [] kb))
     = KnowledgeBase.index kb
  /\ (forall s ss,
        KnowledgeBase.index_schemes encode (s :: ss) kb
        = (Exn.Ok tt,
           {| KnowledgeBase.index :=
                map encode
                  (map KnowledgeBase._create_searchable_text (s :: ss));
              KnowledgeBase.schemes := s :: ss |})).
Proof.
  repeat apply conj; try reflexivity.
  intros s ss.
  unfold KnowledgeBase.index_schemes, KnowledgeBase.index_schemes_with.
  rewrite encode_texts_total. reflexivity.
Qed.

Section SinglePrecision.

Import Float32.

Local Open Scope Q_scope.

Lemma pow2_pos (e : Z) : 0 < 2 ^ e.
Proof. apply Qpower_0_lt. reflexivity. Qed.

Lemma pow2_le (a b : Z) : (a <= b)%Z -> 2 ^ a <= 2 ^ b.
Proof. intros H. apply Qpower_le_compat_l; [exact H | discriminate]. Qed.

Lemma pow2_plus (a b : Z) : 2 ^ (a + b) == 2 ^ a * 2 ^ b.
Proof. apply Qpower_plus. discriminate. Qed.

Lemma pow2_Z (k : Z) : (0 <= k)%Z -> 2 ^ k == inject_Z (2 ^ k).
Proof. intros H. rewrite Zpower_Qpower by exact H. reflexivity. Qed.

(** [2^e] is a multiple of [2^q] when [q <= e]. *)
Lemma pow2_multiple (q e : Z) :
  (q <= e)%Z -> 2 ^ e == inject_Z (2 ^ (e - q)) * 2 ^ q.
Proof.
  intros H. rewrite <- pow2_Z by lia. rewrite <- pow2_plus.
  replace (e - q + q)%Z with e by lia. reflexivity.
Qed.

Lemma ratio_below (n d p q : Z) :
  (0 < d)%Z -> (0 <= p)%Z -> (0 <= q)%Z ->
  (n * 2 ^ q < 2 ^ p * d)%Z ->
  inject_Z n / inject_Z d < 2 ^ (p - q).
Proof.
  intros Hd Hp Hq H.
  assert (0 < inject_Z d) as Hd'
    by (change (inject_Z 0 < inject_Z d); rewrite <- Zlt_Qlt; exact Hd).
  apply Qlt_shift_div_r; [exact Hd'|].
  rewrite Qpower_minus by discriminate.
  rewrite (pow2_Z p), (pow2_Z q) by assumption.
  assert (0 < inject_Z (2 ^ q)) as Hq'.
  { change (inject_Z 0 < inject_Z (2 ^ q)). rewrite <- Zlt_Qlt.
    apply Z.pow_pos_nonneg; lia. }
  setoid_replace (inject_Z (2 ^ p) / inject_Z (2 ^ q) * inject_Z d)
    with (inject_Z (2 ^ p) * inject_Z d / inject_Z (2 ^ q))
    using relation Qeq
    by (field; intros E; rewrite E in Hq'; discriminate).
  apply Qlt_shift_div_l; [exact Hq'|].
  rewrite <- !inject_Z_mult, <- Zlt_Qlt. exact H.
Qed.

Lemma ratio_above (n d p q : Z) :
  (0 < d)%Z -> (0 <= p)%Z -> (0 <= q)%Z ->
  (2 ^ p * d <= n * 2 ^ q)%Z ->
  2 ^ (p - q) <= inject_Z n / inject_Z d.
Proof.
  intros Hd Hp Hq H.
  assert (0 < inject_Z d) as Hd'
    by (change (inject_Z 0 < inject_Z d); rewrite <- Zlt_Qlt; exact Hd).
  apply Qle_shift_div_l; [exact Hd'|].
  rewrite Qpower_minus by discriminate.
  rewrite (pow2_Z p), (pow2_Z q) by assumption.
  assert (0 < inject_Z (2 ^ q)) as Hq'.
  { change (inject_Z 0 < inject_Z (2 ^ q)). rewrite <- Zlt_Qlt.
    apply Z.pow_pos_nonneg; lia. }
  setoid_replace (inject_Z (2 ^ p) / inject_Z (2 ^ q) * inject_Z d)
    with (inject_Z (2 ^ p) * inject_Z d / inject_Z (2 ^ q))
    using relation Qeq
    by (field; intros E; rewrite E in Hq'; discriminate).
  apply Qle_shift_div_r; [exact Hq'|].
  rewrite <- !inject_Z_mult, <- Zle_Qle. exact H.
Qed.

(** [ilog2 x] is the exponent of the binade of [x]. *)
Lemma ilog2_spec (x : Q) :
  0 < x -> 2 ^ ilog2 x <= x /\ x < 2 ^ (ilog2 x + 1).
Proof.
  intros Hx. destruct x as [n d].
  assert (0 < n)%Z as Hn by (unfold Qlt in Hx; cbn in Hx; lia).
  unfold ilog2. cbn [Qnum Qden].
  set (a := Z.log2 n). set (b := Z.log2 (Z.pos d)).
  pose proof (Z.log2_spec n Hn) as [Ha1 Ha2]. fold a in Ha1, Ha2.
  pose proof (Z.log2_spec (Z.pos d) (Pos2Z.is_pos d)) as [Hb1 Hb2].
  fold b in Hb1, Hb2.
  pose proof (Z.log2_nonneg n) as Ha0. fold a in Ha0.
  pose proof (Z.log2_nonneg (Z.pos d)) as Hb0. fold b in Hb0.
  assert (0 < 2 ^ a)%Z as Hpa by (apply Z.pow_pos_nonneg; lia).
  assert (0 < 2 ^ b)%Z as Hpb by (apply Z.pow_pos_nonneg; lia).
  rewrite Z.pow_succ_r in Ha2, Hb2 by assumption.
  assert (Hup : n # d < 2 ^ (a - b + 1)).
  { rewrite (Qmake_Qdiv n d). replace (a - b + 1)%Z with (a + 1 - b)%Z by lia.
    apply ratio_below; try lia.
    rewrite Z.pow_add_r by lia. change (2 ^ 1)%Z with 2%Z. nia. }
  assert (Hlo : 2 ^ (a - b - 1) <= n # d).
  { rewrite (Qmake_Qdiv n d). replace (a - b - 1)%Z with (a - (b + 1))%Z by lia.
    apply ratio_above; try lia.
    rewrite Z.pow_add_r by lia. change (2 ^ 1)%Z with 2%Z. nia. }
  destruct (Qle_bool (2 ^ (a - b)) (n # d)) eqn:E.
  - apply Qle_bool_iff in E. split; assumption.
  - split; [exact Hlo|].
    replace (a - b - 1 + 1)%Z with (a - b)%Z by lia.
    apply Qnot_le_lt. intros Hc. apply Qle_bool_iff in Hc. congruence.
Qed.

Lemma ilog2_monotone (x y : Q) :
  0 < x -> x <= y -> (ilog2 x <= ilog2 y)%Z.
Proof.
  intros Hx Hxy.
  destruct (ilog2_spec x Hx) as [Hx1 _].
  destruct (ilog2_spec y (Qlt_le_trans _ _ _ Hx Hxy)) as [_ Hy2].
  destruct (Z.le_gt_cases (ilog2 x) (ilog2 y)) as [H|H]; [exact H|].
  exfalso. assert (2 ^ (ilog2 y + 1) <= 2 ^ ilog2 x) as Hp
    by (apply pow2_le; lia).
  apply (Qlt_irrefl y).
  eapply Qlt_le_trans; [exact Hy2|].
  eapply Qle_trans; [exact Hp|]. eapply Qle_trans; eassumption.
Qed.

Lemma quantum_monotone (x y : Q) :
  0 < x -> x <= y -> (quantum x <= quantum y)%Z.
Proof.
  intros Hx Hxy. unfold quantum.
  pose proof (ilog2_monotone x y Hx Hxy). lia.
Qed.

Lemma nearest_even_bounds (x : Q) :
  (Qfloor x <= nearest_even x <= Qfloor x + 1)%Z.
Proof.
  unfold nearest_even.
  destruct (x - inject_Z (Qfloor x) ?= 1 # 2); [destruct (Z.even _)| |]; lia.
Qed.

Lemma nearest_even_monotone (x y : Q) :
  x <= y -> (nearest_even x <= nearest_even y)%Z.
Proof.
  intros Hxy.
  pose proof (Qfloor_resp_le x y Hxy) as Hf.
  pose proof (nearest_even_bounds x) as Hbx.
  pose proof (nearest_even_bounds y) as Hby.
  destruct (Z.eq_dec (Qfloor x) (Qfloor y)) as [E|E]; [|lia].
  unfold nearest_even in *. rewrite <- E in *.
  destruct (Qcompare_spec (x - inject_Z (Qfloor x)) (1 # 2)) as [Hx|Hx|Hx];
    destruct (Qcompare_spec (y - inject_Z (Qfloor x)) (1 # 2)) as [Hy|Hy|Hy];
    try lia; try (exfalso; lra);
    destruct (Z.even (Qfloor x)); lia.
Qed.

Lemma nearest_even_Z (n : Z) : nearest_even (inject_Z n) = n.
Proof.
  unfold nearest_even. rewrite Qfloor_Z.
  destruct (Qcompare_spec (inject_Z n - inject_Z n) (1 # 2)) as [H|H|H];
    try reflexivity; exfalso; lra.
Qed.

(** Rounding to the multiples of [2^q] keeps the order and every
    multiple of [2^q]. *)
Lemma nearest_at_monotone (q : Z) (x y : Q) :
  x <= y ->
  inject_Z (nearest_even (x / 2 ^ q)) * 2 ^ q
  <= inject_Z (nearest_even (y / 2 ^ q)) * 2 ^ q.
Proof.
  intros Hxy. pose proof (pow2_pos q) as Hq.
  apply Qmult_le_compat_r; [|lra].
  rewrite <- Zle_Qle. apply nearest_even_monotone.
  apply Qle_shift_div_l; [exact Hq|].
  setoid_replace (x / 2 ^ q * 2 ^ q) with x
    using relation Qeq by (field; lra).
  exact Hxy.
Qed.

Lemma nearest_at_below (q n : Z) (x : Q) :
  x <= inject_Z n * 2 ^ q ->
  inject_Z (nearest_even (x / 2 ^ q)) * 2 ^ q <= inject_Z n * 2 ^ q.
Proof.
  intros Hx. pose proof (pow2_pos q) as Hq.
  apply Qmult_le_compat_r; [|lra].
  rewrite <- Zle_Qle. rewrite <- (nearest_even_Z n) at 1.
  apply nearest_even_monotone.
  apply Qle_shift_div_r; assumption.
Qed.

Lemma nearest_at_above (q n : Z) (x : Q) :
  inject_Z n * 2 ^ q <= x ->
  inject_Z n * 2 ^ q <= inject_Z (nearest_even (x / 2 ^ q)) * 2 ^ q.
Proof.
  intros Hx. pose proof (pow2_pos q) as Hq.
  apply Qmult_le_compat_r; [|lra].
  rewrite <- Zle_Qle. rewrite <- (nearest_even_Z n) at 1.
  apply nearest_even_monotone.
  apply Qle_shift_div_l; assumption.
Qed.

(** Two positive numbers in one binade are rounded on the same grid;
    otherwise the power of two at the foot of the upper binade lies
    between them and on both grids. *)
Lemma nearest_monotone (x y : Q) :
  0 < x -> x <= y -> nearest x <= nearest y.
Proof.
  intros Hx Hxy. unfold nearest.
  pose proof (quantum_monotone x y Hx Hxy) as Hq.
  destruct (Z.eq_dec (quantum x) (quantum y)) as [E|E].
  - rewrite E. apply nearest_at_monotone, Hxy.
  - assert (Hy : 0 < y) by (eapply Qlt_le_trans; eassumption).
    destruct (ilog2_spec x Hx) as [_ Hx2].
    destruct (ilog2_spec y Hy) as [Hy1 _].
    unfold quantum in *.
    assert (ilog2 x + 1 <= ilog2 y)%Z as He by lia.
    set (qx := Z.max (ilog2 x - 23) (-149)) in *.
    set (qy := Z.max (ilog2 y - 23) (-149)) in *.
    apply Qle_trans with (2 ^ ilog2 y).
    + rewrite (pow2_multiple qx (ilog2 y)) by lia.
      apply nearest_at_below.
      rewrite <- pow2_multiple by lia.
      apply Qlt_le_weak. eapply Qlt_le_trans; [exact Hx2|].
      apply pow2_le, He.
    + rewrite (pow2_multiple qy (ilog2 y)) by lia.
      apply nearest_at_above.
      rewrite <- pow2_multiple by lia. exact Hy1.
Qed.

Lemma nearest_nonneg (x : Q) : 0 <= x -> 0 <= nearest x.
Proof.
  intros Hx. unfold nearest.
  setoid_replace 0 with (inject_Z 0 * 2 ^ quantum x)
    using relation Qeq by ring.
  apply nearest_at_above.
  setoid_replace (inject_Z 0 * 2 ^ quantum x) with 0
    using relation Qeq by ring.
  exact Hx.
Qed.

Lemma round_pos_monotone (x y : Q) :
  0 < x -> x <= y -> round_pos x <= round_pos y.
Proof.
  intros Hx Hxy. unfold round_pos.
  apply Q.min_le_compat_r, nearest_monotone; assumption.
Qed.

Lemma round_pos_nonneg (x : Q) : 0 <= x -> 0 <= round_pos x.
Proof.
  intros Hx. unfold round_pos. apply Q.min_glb.
  - apply nearest_nonneg, Hx.
  - discriminate.
Qed.

(** Rounding to single precision keeps the order. *)
Lemma single_monotone (x y : Q) :
  0 <= x -> x <= y -> single x <= single y.
Proof.
  intros Hx Hxy. unfold single.
  destruct (Qcompare_spec x 0) as [Ex|Ex|Ex];
    destruct (Qcompare_spec y 0) as [Ey|Ey|Ey]; try lra.
  - apply round_pos_nonneg. lra.
  - apply round_pos_monotone; assumption.
Qed.

Lemma single_nonneg (x : Q) : 0 <= x -> 0 <= single x.
Proof.
  intros Hx. apply (single_monotone 0 x); [lra | exact Hx].
Qed.

Lemma single_finite (x : Q) : 0 <= x -> single x <= FLT_MAX.
Proof.
  intros Hx. unfold single.
  destruct (Qcompare_spec x 0) as [Ex|Ex|Ex]; try lra.
  - discriminate.
  - apply Q.le_min_r.
Qed.

Lemma FLT_MAX_pos : 0 < FLT_MAX.
Proof. vm_compute. reflexivity. Qed.

Lemma single_one : single 1 == 1.
Proof. vm_compute. reflexivity. Qed.

(** The reciprocal of the largest finite number is rounded to a
    subnormal number, not to 0. *)
Lemma single_smallest_reciprocal : 0 < single (1 / FLT_MAX).
Proof. vm_compute. reflexivity. Qed.

End SinglePrecision.

Section Similarity.

Import KnowledgeBase.

Local Open Scope Q_scope.

Lemma Qsquare_nonneg (x : Q) : 0 <= x * x.
Proof.
  destruct (Qlt_le_dec x 0) as [Hneg|Hpos].
  - setoid_replace (x * x) with ((- x) * (- x)) using relation Qeq by ring.
    apply Qmult_le_0_compat; lra.
  - apply Qmult_le_0_compat; assumption.
Qed.

Lemma l2_sqr_nonneg (x y : vector) : 0 <= l2_sqr x y.
Proof.
  revert y. induction x as [|a x IH]; intros [|b y]; cbn [l2_sqr];
    try apply Qle_refl.
  pose proof (IH y). pose proof (Qsquare_nonneg (a - b)). lra.
Qed.

Lemma reciprocal_decreasing (a b : Q) : 0 < a -> a <= b -> 1 / b <= 1 / a.
Proof.
  intros Ha Hab.
  apply Qle_shift_div_l; [exact Ha|].
  setoid_replace (1 / b * a) with (a / b)
    using relation Qeq by (field; lra).
  apply Qle_shift_div_r; lra.
Qed.

Lemma reciprocal_pos (a : Q) : 0 < a -> 0 < 1 / a.
Proof. intros Ha. apply Qlt_shift_div_l; lra. Qed.

Lemma one_plus_rounded (d : Q) :
  0 <= d ->
  1 <= Float32.single (1 + d) /\ Float32.single (1 + d) <= Float32.FLT_MAX.
Proof.
  intros Hd. split.
  - apply Qle_trans with (Float32.single 1).
    + rewrite single_one. apply Qle_refl.
    + apply single_monotone; lra.
  - apply single_finite. lra.
Qed.

Lemma similarity_range (d : Q) :
  0 <= d -> 0 < similarity d /\ similarity d <= 1.
Proof.
  intros Hd. unfold similarity.
  destruct (one_plus_rounded d Hd) as [Hlo Hhi].
  set (a := Float32.single (1 + d)) in *.
  pose proof FLT_MAX_pos as Hmax.
  split.
  - eapply Qlt_le_trans; [exact single_smallest_reciprocal|].
    apply single_monotone.
    + apply Qlt_le_weak, reciprocal_pos, Hmax.
    + apply reciprocal_decreasing; [lra | exact Hhi].
  - apply Qle_trans with (Float32.single 1).
    + apply single_monotone.
      * apply Qlt_le_weak, reciprocal_pos. lra.
      * apply Qle_shift_div_r; lra.
    + rewrite single_one. apply Qle_refl.
Qed.


End Similarity.

Lemma firstn_In {A : Type} (n : nat) (l : list A) (x : A) :
  In x (firstn n l) -> In x l.
Proof.
  revert n. induction l as [|y l IH]; intros [|n]; cbn; try tauto.
  intros [->|H]; [left; reflexivity | right; eapply IH, H].
Qed.

Section PythonLists.

Context {A : Type}.

Lemma getitem_In (xs : list A) (i : Z) (x : A) :
  Py.getitem xs i = Some x -> In x xs.
Proof.
  unfold Py.getitem.
  destruct (i <? 0)%Z; [destruct (i + _ <? 0)%Z; [discriminate|]|];
    apply nth_error_In.
Qed.

(** Within [-len(xs) <= i < len(xs)] the subscript is defined. *)
Lemma getitem_defined (xs : list A) (i : Z) :
  (- Z.of_nat (length xs) <= i < Z.of_nat (length xs))%Z ->
  exists x, Py.getitem xs i = Some x.
Proof.
  intros Hi. unfold Py.getitem.
  destruct (Z.ltb_spec i 0); [destruct (Z.ltb_spec (i + Z.of_nat (length xs)) 0);
                              [lia|]|];
    match goal with
    | |- exists x, nth_error xs ?n = Some x =>
        destruct (nth_error xs n) as [x|] eqn:E;
        [exists x; reflexivity | apply nth_error_None in E; lia]
    end.
Qed.

End PythonLists.

Section SearchOrder.

Import KnowledgeBase.

Lemma insert_asc_In (h x : Z * Q) (l : list (Z * Q)) :
  In x (insert_asc h l) <-> x = h \/ In x l.
Proof.
  induction l as [|h' l IH]; cbn [insert_asc].
  - cbn. intuition congruence.
  - destruct (Qle_bool (snd h) (snd h')); cbn [In] in *.
    + intuition congruence.
    + rewrite IH. intuition congruence.
Qed.

Lemma sort_asc_In (x : Z * Q) (l : list (Z * Q)) :
  In x (sort_asc l) <-> In x l.
Proof.
  induction l as [|h l IH]; cbn [sort_asc]; [reflexivity|].
  rewrite insert_asc_In, IH. cbn. intuition congruence.
Qed.









Lemma neighbours_in_range (all : list Sch.Scheme) (hits : list (Z * Q)) :
  (forall h, In h hits ->
             (- Z.of_nat (length all) <= fst h < Z.of_nat (length all))%Z) ->
  length (neighbours all hits) = length hits.
Proof.
  induction hits as [|h hits IH]; intros Hr; [reflexivity|].
  unfold neighbours. cbn [flat_map]. fold (neighbours all hits).
  rewrite length_app, IH by (intros h' Hh'; apply Hr; right; exact Hh').
  specialize (Hr h (or_introl eq_refl)).
  destruct (Z.ltb_spec (fst h) (Z.of_nat (length all))); [|lia].
  destruct (getitem_defined all (fst h) Hr) as [s ->]. reflexivity.
Qed.

Lemma labelled_In (from : Z) (ds : list Q) (h : Z * Q) :
  In h (labelled from ds) -> In (snd h) ds.
Proof.
  revert from. induction ds as [|d ds IH]; intros from; cbn; [tauto|].
  intros [<-|H]; [left; reflexivity | right; eapply IH, H].
Qed.

Lemma labelled_range (from : Z) (ds : list Q) (h : Z * Q) :
  In h (labelled from ds) ->
  (from <= fst h < from + Z.of_nat (length ds))%Z.
Proof.
  revert from. induction ds as [|d ds IH]; intros from; cbn [labelled In length].
  - tauto.
  - intros [<-|H]; cbn [fst]; [lia|]. apply IH in H. lia.
Qed.





(** A search for [k] neighbours is answered with [k] pairs. *)
Lemma search_length (index : list vector) (query : vector) (k : nat) :
  length (search index query k) = k.
Proof.
  unfold search. rewrite length_app, repeat_length, length_firstn. lia.
Qed.

(** What the index reports for a stored vector, and what it reports
    where there is none. *)
Lemma search_In (index : list vector) (query : vector) (k : nat)
    (h : Z * Q) :
  In h (search index query k) ->
  ((0 <= fst h < Z.of_nat (length index))%Z
   /\ exists v, In v index /\ snd h = Float32.single (l2_sqr query v))
  \/ h = ((-1)%Z, Float32.FLT_MAX).
Proof.
  unfold search. intros H. apply in_app_or in H. destruct H as [H|H].
  - left. apply firstn_In in H. apply (proj1 (sort_asc_In _ _)) in H. split.
    + apply labelled_range in H. rewrite length_map in H. lia.
    + apply labelled_In, in_map_iff in H. destruct H as (v & Hv & Hin).
      exists v. split; [exact Hin | symmetry; exact Hv].
  - right. apply repeat_spec in H. exact H.
Qed.



Lemma search_labels (index : list vector) (query : vector) (k : nat)
    (h : Z * Q) :
  In h (search index query k) ->
  (-1 <= fst h < Z.of_nat (length index))%Z \/ fst h = (-1)%Z.
Proof.
  intros H. apply search_In in H. destruct H as [[H _]| ->].
  - left. lia.
  - right. reflexivity.
Qed.

Lemma search_range (index : list vector) (query : vector) (k : nat)
    (h : Z * Q) :
  In h (search index query k) ->
  (0 <= snd h)%Q /\ (snd h <= Float32.FLT_MAX)%Q.
Proof.
  intros H. apply search_In in H. destruct H as [[_ (v & _ & ->)]| ->].
  - pose proof (l2_sqr_nonneg query v) as Hd.
    split; [apply single_nonneg | apply single_finite]; exact Hd.
  - cbn [snd]. split; [apply Qlt_le_weak, FLT_MAX_pos | apply Qle_refl].
Qed.

Lemma search_nonneg (index : list vector) (query : vector) (k : nat)
    (h : Z * Q) :
  In h (search index query k) -> (0 <= snd h)%Q.
Proof. intros H. apply (search_range _ _ _ _ H). Qed.


End SearchOrder.

Section Acceptance.

Import KnowledgeBase Exn.

Variable scheme : Sch.Scheme.



End Acceptance.

Section Retrieval.

Import KnowledgeBase Exn.

Variable all : list Sch.Scheme.
Variable top_k : Z.
Variable filters : option (list (string * Py.value)).

(** The filters raise on no scheme of the list. *)
Hypothesis filters_total :
  forall scheme, In scheme all -> exists b, passes filters scheme = Ok b.

(** The loop returns what it had accumulated followed by the scored
    candidates the filters keep, cut where the total reaches [top_k]. *)
Lemma collect_closed_form (hits : list (Z * Q)) :
  (forall h, In h hits -> (- Z.of_nat (length all) <= fst h)%Z) ->
  forall results,
    (Z.of_nat (length results) < top_k)%Z ->
    collect all top_k filters hits results
    = Ok (results
          ++ map scored
               (firstn (Z.to_nat top_k - length results)
                  (List.filter (keeps filters) (neighbours all hits)))).
Proof using filters_total.
  induction hits as [|[idx d] rest IH]; intros Hlabels results Hlt.
  - cbn. rewrite firstn_nil, app_nil_r. reflexivity.
  - assert (Hrest : forall h, In h rest -> (- Z.of_nat (length all) <= fst h)%Z)
      by (intros h Hh; apply Hlabels; right; exact Hh).
    specialize (IH Hrest).
    cbn [collect]. unfold neighbours. cbn [flat_map fst snd].
    fold (neighbours all rest).
    destruct (Z.ltb_spec idx (Z.of_nat (length all))) as [Hidx|Hidx];
      [|apply IH, Hlt].
    destruct (getitem_defined all idx) as [s Hs].
    { specialize (Hlabels (idx, d) (or_introl eq_refl)). cbn [fst] in Hlabels.
      lia. }
    rewrite Hs. cbn [app].
    destruct (filters_total s (getitem_In _ _ _ Hs)) as [b Hb].
    cbn [List.filter]. unfold keeps at 1. cbn [fst]. rewrite Hb. cbn [bind].
    destruct b; [|apply IH, Hlt].
    rewrite length_app. cbn [length].
    destruct (Z.to_nat top_k - length results) as [|n] eqn:En; [lia|].
    cbn [firstn map]. unfold scored at 1. cbn [fst snd].
    destruct (top_k <=? Z.of_nat (length results + 1))%Z eqn:Ek.
    + apply Z.leb_le in Ek. assert (n = 0) as -> by lia.
      reflexivity.
    + apply Z.leb_gt in Ek. rewrite IH by (rewrite length_app; cbn; lia).
      rewrite length_app. cbn [length].
      replace (Z.to_nat top_k - (length results + 1)) with n by lia.
      rewrite <- app_assoc. reflexivity.
Qed.

End Retrieval.

Lemma retrieve_schemes_indexed
    (encode : string -> KnowledgeBase.vector)
    (query : string) (top_k : Z)
    (filters : option (list (string * Py.value)))
    (kb : KnowledgeBase.state) :
  KnowledgeBase.schemes kb <> [] ->
  (0 < top_k)%Z ->
  KnowledgeBase.retrieve_schemes encode query top_k filters kb
  = KnowledgeBase.collect (KnowledgeBase.schemes kb) top_k filters
      (KnowledgeBase.search (KnowledgeBase.index kb) (encode query)
         (Z.to_nat
            (Z.min (top_k * 2)
               (Z.of_nat (length (KnowledgeBase.schemes kb))))))
      [].
Proof.
  intros Hne Hk. unfold KnowledgeBase.retrieve_schemes.
  destruct (KnowledgeBase.schemes kb) as [|s ss]; [contradiction|].
  destruct (Z.ltb_spec 0 (Z.min (top_k * 2) (Z.of_nat (length (s :: ss)))));
    [reflexivity|].
  cbn [length] in *. lia.
Qed.

(** The labels of a search are subscripts of a scheme list that is not
    empty. *)
Lemma search_subscripts (all : list Sch.Scheme)
    (index : list KnowledgeBase.vector) (query : KnowledgeBase.vector)
    (k : nat) (h : Z * Q) :
  all <> [] ->
  In h (KnowledgeBase.search index query k) ->
  (- Z.of_nat (length all) <= fst h)%Z.
Proof.
  intros Hne H. apply search_labels in H.
  destruct all; [contradiction|]. cbn [length]. lia.
Qed.




(* ===================================================================== *)
(** * Further properties of the eligibility engine *)
(* ===================================================================== *)

Lemma app_empty_iff {A : Type} (l1 l2 : list A) :
  l1 ++ l2 = [] <-> l1 = [] /\ l2 = [].
Proof.
  destruct l1; cbn; split.
  - intros H. split; [reflexivity | exact H].
  - intros [_ H]. exact H.
  - discriminate.
  - intros [H _]. discriminate.
Qed.

Section Verdicts.

Import Eligibility.

Variable p : User.UserProfile.
Variable e : Sch.EligibilityCriteria.

Ltac settle :=
  repeat match goal with
    | |- context [match ?x with _ => _ end] => destruct x eqn:?
    end;
  cbn [matching missing eligible satisfied failed start app length
       is_some orb andb negb] in *;
  (split; [split; intros; congruence | intros; congruence]).

Lemma check_age_settles :
  settles (check_age p e)
          (is_some (Sch.min_age e) || is_some (Sch.max_age e)).
Proof. unfold settles, check_age. settle. Qed.

Lemma check_state_settles :
  settles (check_state p e) (is_some (Sch.states e)).
Proof. unfold settles, check_state. settle. Qed.

Lemma check_education_settles :
  settles (check_education p e) (is_some (Sch.education_levels e)).
Proof. unfold settles, check_education. settle. Qed.

Lemma check_income_settles :
  settles (check_income p e) (is_some (Sch.income_max e)).
Proof. unfold settles, check_income. settle. Qed.

Lemma check_category_settles :
  settles (check_category p e) (is_some (Sch.categories e)).
Proof. unfold settles, check_category. settle. Qed.

Lemma check_gender_settles :
  settles (check_gender p e) (is_some (Sch.gender e)).
Proof. unfold settles, check_gender. settle. Qed.

Lemma check_occupation_settles :
  settles (check_occupation p e) (is_some (Sch.occupations e)).
Proof. unfold settles, check_occupation. settle. Qed.

Lemma run_checks_eligible_iff :
  eligible (run_checks p e) = true <-> missing (run_checks p e) = [].
Proof.
  rewrite run_checks_eligible, run_checks_missing.
  rewrite !andb_true_iff, !app_empty_iff.
  pose proof (proj1 check_age_settles).
  pose proof (proj1 check_state_settles).
  pose proof (proj1 check_education_settles).
  pose proof (proj1 check_income_settles).
  pose proof (proj1 check_category_settles).
  pose proof (proj1 check_gender_settles).
  pose proof (proj1 check_occupation_settles).
  tauto.
Qed.

Lemma run_checks_eligible_rank :
  eligible (run_checks p e) = true ->
  length (matching (run_checks p e)) = constrained_families e.
Proof.
  rewrite run_checks_eligible, run_checks_matching.
  rewrite !andb_true_iff, !length_app.
  intros ((((((H1 & H2) & H3) & H4) & H5) & H6) & H7).
  rewrite (proj2 check_age_settles H1), (proj2 check_state_settles H2),
          (proj2 check_education_settles H3), (proj2 check_income_settles H4),
          (proj2 check_category_settles H5), (proj2 check_gender_settles H6),
          (proj2 check_occupation_settles H7).
  unfold constrained_families. lia.
Qed.

End Verdicts.

(** X1.  The verdict of [check_single_scheme] is eligible exactly when
    its list of missing criteria is empty. *)
Theorem eligible_iff_nothing_missing (p : User.UserProfile) (s : Sch.Scheme) :
  Sch.is_eligible (Eligibility.check_single_scheme p s) = true
  <-> Sch.missing_criteria (Eligibility.check_single_scheme p s) = [].
Proof.
  cbn [Eligibility.check_single_scheme Sch.is_eligible Sch.missing_criteria].
  apply run_checks_eligible_iff.
Qed.

(** X2.  An eligible result lists one matching criterion for each family
    the rule set of its scheme constrains: its rank in
    [determine_eligibility] is the number of constrained families,
    whatever the profile. *)
Theorem eligible_rank_is_constrained_families
    (p : User.UserProfile) (s : Sch.Scheme) :
  Sch.is_eligible (Eligibility.check_single_scheme p s) = true ->
  length (Sch.matching_criteria (Eligibility.check_single_scheme p s))
  = Eligibility.constrained_families (Sch.eligibility s).
Proof.
  cbn [Eligibility.check_single_scheme Sch.is_eligible Sch.matching_criteria].
  apply run_checks_eligible_rank.
Qed.

Lemma eligible_rank_is_constrained_families_witness :
  length (Sch.matching_criteria
            (Eligibility.check_single_scheme Samples.student
               (Samples.entry "skills" Samples.scenario))) = 4.
Proof.
  apply (eligible_rank_is_constrained_families Samples.student
           (Samples.entry "skills" Samples.scenario)).
  reflexivity.
Defined.

(** X3.  Every result [determine_eligibility] returns has confidence 1,
    or confidence 0 when its scheme constrains no family and nothing
    matched: among the returned results the confidence does not tell
    schemes with criteria apart. *)
Theorem returned_confidence_is_one_or_zero
    (p : User.UserProfile) (schemes : list Sch.Scheme)
    (r : Sch.EligibilityResult) :
  In r (Eligibility.determine_eligibility p schemes) ->
  (Sch.matching_criteria r <> [] /\ (Sch.confidence r == 1)%Q)
  \/ (Sch.matching_criteria r = [] /\ Sch.confidence r = 0%Q
      /\ Eligibility.constrained_families (Sch.eligibility (Sch.scheme r)) = 0).
Proof.
  intros Hr.
  apply (Permutation_in _ (determine_eligibility_perm p schemes)) in Hr.
  apply List.filter_In in Hr. destruct Hr as [Hin Hel].
  apply in_map_iff in Hin. destruct Hin as (s & <- & _).
  cbn [Eligibility.check_single_scheme Sch.is_eligible Sch.matching_criteria
       Sch.missing_criteria Sch.confidence Sch.scheme] in *.
  pose proof (proj1 (run_checks_eligible_iff p (Sch.eligibility s)) Hel) as Hmiss.
  pose proof (run_checks_eligible_rank p (Sch.eligibility s) Hel) as Hrank.
  rewrite Hmiss. cbn [length]. unfold Eligibility.confidence_of.
  rewrite Nat.add_0_r.
  destruct (Eligibility.matching (Eligibility.run_checks p (Sch.eligibility s)))
    as [|m ms] eqn:Em.
  - right. cbn in Hrank. cbn. auto.
  - left. split; [discriminate|].
    cbn [length Nat.ltb Nat.leb]. unfold Qeq. cbn [Qnum Qden].
    rewrite Zpos_of_nat by lia. lia.
Qed.

Lemma returned_confidence_is_one_or_zero_witness :
  (Sch.confidence
     (Eligibility.check_single_scheme Samples.student
        (Samples.entry "youth" Samples.youth)) == 1)%Q.
Proof.
  destruct (returned_confidence_is_one_or_zero Samples.student Samples.catalog
              (Eligibility.check_single_scheme Samples.student
                 (Samples.entry "youth" Samples.youth)))
    as [[_ H]|[H _]].
  - vm_compute. tauto.
  - exact H.
  - vm_compute in H. discriminate.
Defined.

Lemma dict_get_absent {V : Type} (d : list (string * V)) (k : string) (v : V) :
  ~ In k (map fst d) -> Py.dict_get d k v = v.
Proof.
  induction d as [|[k' v'] d IH]; cbn; [reflexivity|].
  intros H. destruct (String.eqb_spec k k') as [->|Hne].
  - exfalso. apply H. left. reflexivity.
  - apply IH. intros Hin. apply H. right. exact Hin.
Qed.

(** X4.  An income bracket that is not a key of [INCOME_RANGES] is taken
    as unbounded: against any income limit the result is ineligible and
    lists the income requirement as missing. *)
Theorem unknown_bracket_fails_any_limit
    (p : User.UserProfile) (s : Sch.Scheme) (bracket : string) (limit : Z) :
  User.income_range p = Some bracket ->
  ~ In bracket (map fst Eligibility.INCOME_RANGES) ->
  Sch.income_max (Sch.eligibility s) = Some limit ->
  Sch.is_eligible (Eligibility.check_single_scheme p s) = false
  /\ In (Eligibility.income_above_limit limit)
        (Sch.missing_criteria (Eligibility.check_single_scheme p s)).
Proof.
  intros Hp Hk He.
  cbn [Eligibility.check_single_scheme Sch.is_eligible Sch.missing_criteria].
  assert (Hinc : Eligibility.check_income p (Sch.eligibility s) Eligibility.start
                 = Eligibility.failed (Eligibility.income_above_limit limit)
                     Eligibility.start).
  { unfold Eligibility.check_income. rewrite He, Hp.
    rewrite (dict_get_absent _ _ _ Hk). reflexivity. }
  split.
  - rewrite run_checks_eligible, Hinc. cbn [Eligibility.eligible Eligibility.failed].
    rewrite ?andb_false_r. reflexivity.
  - apply (proj2 (income_message_from_income_check p (Sch.eligibility s) limit)).
    rewrite Hinc. left. reflexivity.
Qed.

Lemma unknown_bracket_fails_any_limit_witness :
  Sch.is_eligible
    (Eligibility.check_single_scheme Samples.student_5lakh
       (Samples.entry "open-a" Samples.low_income)) = false.
Proof.
  apply (unknown_bracket_fails_any_limit Samples.student_5lakh
           (Samples.entry "open-a" Samples.low_income)
           "above 5 lakh" 300000 eq_refl).
  - cbn. intros H. repeat destruct H as [H|H]; try discriminate H. exact H.
  - reflexivity.
Defined.

(** X5.  [check_single_scheme] reads only the attributes its scheme
    constrains: two profiles with the same values for those get the same
    result. *)
Theorem result_depends_on_constrained_attributes
    (p p' : User.UserProfile) (s : Sch.Scheme) :
  Eligibility.agree_on_constrained (Sch.eligibility s) p p' ->
  Eligibility.check_single_scheme p s = Eligibility.check_single_scheme p' s.
Proof.
  intros (Ha & Hs & Hed & Hi & Hc & Hg & Ho).
  set (e := Sch.eligibility s) in *.
  assert (Hrun : Eligibility.run_checks p e = Eligibility.run_checks p' e).
  { unfold Eligibility.run_checks.
    assert (E1 : forall v, Eligibility.check_age p e v = Eligibility.check_age p' e v).
    { intros v. unfold Eligibility.check_age.
      destruct (Eligibility.is_some (Sch.min_age e)
                || Eligibility.is_some (Sch.max_age e))%bool eqn:E;
        [rewrite (Ha eq_refl)|]; reflexivity. }
    assert (E2 : forall v, Eligibility.check_state p e v = Eligibility.check_state p' e v).
    { intros v. unfold Eligibility.check_state.
      destruct (Sch.states e); [rewrite (Hs eq_refl)|]; reflexivity. }
    assert (E3 : forall v, Eligibility.check_education p e v
                           = Eligibility.check_education p' e v).
    { intros v. unfold Eligibility.check_education.
      destruct (Sch.education_levels e); [rewrite (Hed eq_refl)|]; reflexivity. }
    assert (E4 : forall v, Eligibility.check_income p e v
                           = Eligibility.check_income p' e v).
    { intros v. unfold Eligibility.check_income.
      destruct (Sch.income_max e); [rewrite (Hi eq_refl)|]; reflexivity. }
    assert (E5 : forall v, Eligibility.check_category p e v
                           = Eligibility.check_category p' e v).
    { intros v. unfold Eligibility.check_category.
      destruct (Sch.categories e); [rewrite (Hc eq_refl)|]; reflexivity. }
    assert (E6 : forall v, Eligibility.check_gender p e v
                           = Eligibility.check_gender p' e v).
    { intros v. unfold Eligibility.check_gender.
      destruct (Sch.gender e); [rewrite (Hg eq_refl)|]; reflexivity. }
    assert (E7 : forall v, Eligibility.check_occupation p e v
                           = Eligibility.check_occupation p' e v).
    { intros v. unfold Eligibility.check_occupation.
      destruct (Sch.occupations e); [rewrite (Ho eq_refl)|]; reflexivity. }
    rewrite E1, E2, E3, E4, E5, E6, E7. reflexivity. }
  unfold Eligibility.check_single_scheme. fold e. rewrite Hrun. reflexivity.
Qed.

Lemma result_depends_on_constrained_attributes_witness :
  Eligibility.check_single_scheme Samples.student
    (Samples.entry "youth" Samples.youth)
  = Eligibility.check_single_scheme Samples.student_f
      (Samples.entry "youth" Samples.youth).
Proof.
  apply result_depends_on_constrained_attributes.
  unfold Eligibility.agree_on_constrained. cbn.
  repeat split; intros; (reflexivity || discriminate).
Defined.

(** X6.  A rule set whose minimum age exceeds its maximum age accepts no
    profile. *)
Theorem crossed_age_bounds_reject_everyone
    (p : User.UserProfile) (s : Sch.Scheme) (lo hi : Z) :
  Sch.min_age (Sch.eligibility s) = Some lo ->
  Sch.max_age (Sch.eligibility s) = Some hi ->
  (hi < lo)%Z ->
  Sch.is_eligible (Eligibility.check_single_scheme p s) = false.
Proof.
  intros Hlo Hhi Hcross.
  cbn [Eligibility.check_single_scheme Sch.is_eligible].
  rewrite run_checks_eligible.
  assert (Eligibility.eligible
            (Eligibility.check_age p (Sch.eligibility s) Eligibility.start)
          = false) as ->.
  { unfold Eligibility.check_age. rewrite Hlo, Hhi. cbn [Eligibility.is_some orb].
    destruct (User.age p) as [a|]; [|reflexivity].
    destruct (a <? lo)%Z eqn:E1, (hi <? a)%Z eqn:E2; cbn; try reflexivity.
    apply Z.ltb_ge in E1, E2. lia. }
  reflexivity.
Qed.

Lemma crossed_age_bounds_reject_everyone_witness :
  Sch.is_eligible
    (Eligibility.check_single_scheme Samples.student
       (Samples.entry "crossed" Samples.crossed_ages)) = false.
Proof.
  apply (crossed_age_bounds_reject_everyone Samples.student
           (Samples.entry "crossed" Samples.crossed_ages) 40 30);
    [reflexivity | reflexivity | lia].
Defined.

(* ===================================================================== *)
(** * Further properties of the dialog engine *)
(* ===================================================================== *)

Section Store.

Import Conversation Exn.

(** X7.  A session started at time [now] can be read back for the next
    thirty minutes: [get_session] returns the session
    [start_conversation] returned and removes nothing.  That session is
    in the greeting stage with an empty profile, nothing asked, and one
    assistant message in its history, the greeting in the requested
    language, or in English for any language other than Hindi.  When the
    identifier is new the count of active sessions grows by one. *)
Theorem started_session_can_be_read_back
    (now later : Z) (sid language : string)
    (store : gmap string ConversationState) :
  (later - now <= SESSION_TIMEOUT)%Z ->
  let st := fst (start_conversation now sid language store) in
  let store' := snd (start_conversation now sid language store) in
  get_session later sid store' = (Some st, store')
  /\ current_stage st = "greeting"%string
  /\ user_profile st = User.empty
  /\ asked_questions st = []
  /\ (exists greeting,
        conversation_history st
        = [ {| role := "assistant"; content := greeting; timestamp := now |} ]
        /\ (In (language, greeting) GREETINGS
            \/ (~ In language (map fst GREETINGS)
                /\ In ("en"%string, greeting) GREETINGS)))
  /\ (store !! sid = None ->
      get_active_sessions_count store'
      = S (get_active_sessions_count store)).
Proof.
  intros Hlive. cbv zeta. unfold start_conversation. cbn [fst snd].
  repeat apply conj.
  - unfold get_session. rewrite lookup_insert_eq.
    unfold expired, _add_message. cbn [last_activity set_last_activity].
    apply Z.ltb_ge in Hlive. rewrite Hlive. reflexivity.
  - reflexivity.
  - reflexivity.
  - reflexivity.
  - eexists. unfold _add_message.
    cbn [conversation_history set_last_activity set_history app].
    split; [reflexivity|].
    destruct (String.eqb_spec language "hi") as [->|Hne].
    + left. cbn. right. left. reflexivity.
    + destruct (String.eqb_spec language "en") as [->|Hne'].
      * left. cbn. left. reflexivity.
      * right. split.
        -- cbn. intros [H|[H|[]]]; congruence.
        -- unfold GREETINGS. cbn [Py.dict_get].
           apply String.eqb_neq in Hne, Hne'. rewrite Hne, Hne'.
           cbn. left. reflexivity.
  - intros Hnew. unfold get_active_sessions_count.
    apply map_size_insert_None. exact Hnew.
Qed.

End Store.

Lemma started_session_can_be_read_back_witness :
  fst (Conversation.get_session 1800000000 "3f2b0c" Samples.store)
  = Some (fst (Conversation.start_conversation 0 "3f2b0c" "en" empty)).
Proof.
  unfold Samples.store.
  rewrite (proj1 (started_session_can_be_read_back 0 1800000000 "3f2b0c" "en"
                    empty ltac:(vm_compute; discriminate))).
  reflexivity.
Defined.

Section Lifecycle.

Import Conversation Exn.

Variable store : gmap string ConversationState.

(** X8.  [end_conversation] reports whether the session was stored;
    afterwards the session cannot be read at any time, the other sessions
    are as they were, and ending it again reports [False]. *)
Theorem ended_session_is_gone (sid : string) :
  let store' := snd (end_conversation sid store) in
  (fst (end_conversation sid store) = true <-> is_Some (store !! sid))
  /\ (forall now, get_session now sid store' = (None, store'))
  /\ (forall other, other <> sid -> store' !! other = store !! other)
  /\ end_conversation sid store' = (false, store').
Proof.
  cbv zeta. unfold end_conversation.
  destruct (store !! sid) as [st|] eqn:Hs; cbn [fst snd].
  - split; [|split; [|split]].
    + split; [intros _; exists st; reflexivity | intros _; reflexivity].
    + intros now. unfold get_session. rewrite lookup_delete_eq. reflexivity.
    + intros other Hne. apply lookup_delete_ne. congruence.
    + rewrite lookup_delete_eq. reflexivity.
  - split; [|split; [|split]].
    + split; [discriminate | intros [x Hx]; discriminate].
    + intros now. unfold get_session. rewrite Hs. reflexivity.
    + reflexivity.
    + rewrite Hs. reflexivity.
Qed.

(** X9.  After [cleanup_expired_sessions] at time [now] the store holds
    exactly the sessions that were not expired, the number it reports
    and the number left add up to the number there was, reading any
    session at that time removes nothing more, and a second sweep at
    that time reports 0. *)
Theorem sweep_leaves_the_live_sessions (now : Z) :
  let removed := fst (cleanup_expired_sessions now store) in
  let store' := snd (cleanup_expired_sessions now store) in
  (forall sid st, store' !! sid = Some st
                  <-> store !! sid = Some st /\ expired now st = false)
  /\ removed + get_active_sessions_count store'
     = get_active_sessions_count store
  /\ (forall sid, get_session now sid store' = (store' !! sid, store'))
  /\ fst (cleanup_expired_sessions now store') = 0.
Proof.
  cbv zeta.
  destruct (cleanup_expired_sessions_sweeps now store) as [Hlook Hsize].
  cbv zeta in Hlook, Hsize.
  split; [|split; [|split]].
  - exact Hlook.
  - exact Hsize.
  - intros sid. unfold get_session.
    destruct (snd (cleanup_expired_sessions now store) !! sid) as [st|] eqn:E;
      [|reflexivity].
    apply Hlook in E. destruct E as [_ E]. rewrite E. reflexivity.
  - unfold cleanup_expired_sessions at 1. cbn [fst].
    apply map_size_empty_iff, map_empty_filter.
    intros sid st Hst. cbn [snd].
    apply Hlook in Hst. destruct Hst as [_ E]. congruence.
Qed.

(** X10.  The expiry test of the session record with the thirty minutes
    of the engine predicts [get_session]: a stored session is returned
    exactly when [is_expired] is false for it. *)
Theorem is_expired_predicts_get_session
    (now : Z) (sid : string) (st : ConversationState) :
  store !! sid = Some st ->
  is_expired now 30 st = expired now st
  /\ (is_expired now 30 st = false
      <-> get_session now sid store = (Some st, store))
  /\ (is_expired now 30 st = true
      <-> fst (get_session now sid store) = None).
Proof.
  intros Hs.
  assert (is_expired now 30 st = expired now st) as Heq by reflexivity.
  unfold get_session. rewrite Hs, Heq.
  destruct (expired now st); cbn [fst];
    (split; [reflexivity | split; split; intros; congruence]).
Qed.

End Lifecycle.

Lemma is_expired_predicts_get_session_witness :
  Conversation.is_expired 1800000001 30
    (fst (Conversation.start_conversation 0 "3f2b0c" "en" empty)) = true.
Proof.
  apply (proj2 (proj2 (is_expired_predicts_get_session Samples.store
                         1800000001 "3f2b0c" _
                         ltac:(vm_compute; reflexivity)))).
  vm_compute. reflexivity.
Defined.

Lemma str_in_In (x : string) (xs : list string) :
  Py.str_in x xs = true <-> In x xs.
Proof.
  unfold Py.str_in. rewrite existsb_exists. split.
  - intros (y & Hy & E). apply String.eqb_eq in E. subst y. exact Hy.
  - intros H. exists x. split; [exact H | apply String.eqb_refl].
Qed.

Lemma filter_twice {A : Type} (f g : A -> bool) (l : list A) :
  List.filter g (List.filter f l) = List.filter (fun x => (f x && g x)%bool) l.
Proof.
  induction l as [|x l IH]; cbn [List.filter]; [reflexivity|].
  destruct (f x); cbn [List.filter andb]; [|exact IH].
  destruct (g x); rewrite IH; reflexivity.
Qed.

Lemma filter_shorter {A : Type} (f : A -> bool) (l : list A) :
  length (List.filter f l) <= length l.
Proof.
  induction l as [|x l IH]; cbn [List.filter length]; [lia|].
  destruct (f x); cbn [length]; lia.
Qed.

Section Questions.

Import Conversation Exn.

(** The scan stops at the first attribute that is unset and not asked. *)
Lemma first_unasked_scan (order : list (string * bool)) (st : ConversationState) :
  first_unasked order st
  = match List.filter (wanted (asked_questions st)) order with
    | [] => (Ok None, st)
    | field :: _ =>
        (bind (question_text (fst field) (language st))
              (fun q => Ok (Some q)),
         set_asked (asked_questions st ++ [fst field]) st)
    end.
Proof.
  induction order as [|[name unset] order IH]; cbn [first_unasked List.filter].
  - reflexivity.
  - unfold wanted at 1. cbn [fst snd].
    destruct (unset && negb (Py.str_in name (asked_questions st)))%bool;
      [reflexivity | exact IH].
Qed.

Lemma question_text_known (p : User.UserProfile) (name language : string)
    (unset : bool) :
  In (name, unset) (question_order p) ->
  exists q, question_text name language = Ok q.
Proof.
  unfold question_order. cbn [In].
  intros H.
  repeat (destruct H as [H|H];
          [injection H as <- _; eexists; reflexivity|]).
  contradiction.
Qed.

Lemma askable_after_question (order : list (string * bool))
    (asked : list string) (field : string * bool)
    (rest : list (string * bool)) :
  List.filter (wanted asked) order = field :: rest ->
  length (List.filter (wanted (asked ++ [fst field])) order) < length (field :: rest).
Proof.
  intros H.
  assert (Hsplit : forall f, wanted (asked ++ [fst field]) f
                   = (wanted asked f && negb (String.eqb (fst f) (fst field)))%bool).
  { intros f. unfold wanted, Py.str_in. rewrite existsb_app. cbn [existsb].
    rewrite orb_false_r.
    destruct (snd f), (existsb (String.eqb (fst f)) asked),
             (String.eqb (fst f) (fst field)); reflexivity. }
  rewrite (List.filter_ext _ _ Hsplit).
  rewrite <- (filter_twice (wanted asked)
                (fun f => negb (String.eqb (fst f) (fst field))) order).
  rewrite H. cbn [List.filter]. rewrite String.eqb_refl. cbn [negb length].
  pose proof (filter_shorter
                (fun f : string * bool => negb (String.eqb (fst f) (fst field)))
                rest).
  lia.
Qed.

End Questions.

Section NextQuestion.

Import Conversation Exn.

Variable st : ConversationState.

(** X11.  Outside the greeting and information stages
    [get_next_question] returns [None] and changes nothing.  In them it
    asks about the first attribute, in the order of the questions, that
    is unset in the profile and not in the asked list, and appends its
    name to that list; when there is no such attribute it returns
    [None].  So it never asks about an attribute that has a value and
    never asks twice about the same one. *)
Theorem get_next_question_asks_first_askable :
  (current_stage (collecting st) <> "info_collection"%string ->
   get_next_question st = (Ok None, st))
  /\ (current_stage (collecting st) = "info_collection"%string ->
      askable st = [] ->
      get_next_question st = (Ok None, collecting st))
  /\ (current_stage (collecting st) = "info_collection"%string ->
      forall name rest,
        askable st = name :: rest ->
        In (name, true) (question_order (user_profile st))
        /\ ~ In name (asked_questions st)
        /\ exists q,
             question_text name (language st) = Ok q
             /\ get_next_question st
                = (Ok (Some q),
                   set_asked (asked_questions st ++ [name]) (collecting st))).
Proof.
  assert (Hdef : get_next_question st
                 = if negb (String.eqb (current_stage (collecting st))
                              "info_collection")
                   then (Ok None, collecting st)
                   else first_unasked (question_order (user_profile (collecting st)))
                          (collecting st)) by reflexivity.
  assert (Hsame : user_profile (collecting st) = user_profile st
                  /\ asked_questions (collecting st) = asked_questions st
                  /\ language (collecting st) = language st).
  { unfold collecting. destruct (String.eqb (current_stage st) "greeting");
      repeat split. }
  destruct Hsame as (Hp & Ha & Hl).
  split; [|split].
  - intros Hstage. rewrite Hdef.
    apply String.eqb_neq in Hstage as E. rewrite E. cbn [negb].
    unfold collecting in *.
    destruct (String.eqb (current_stage st) "greeting"); [|reflexivity].
    exfalso. apply Hstage. reflexivity.
  - intros Hstage Hnone. rewrite Hdef, Hstage.
    rewrite String.eqb_refl. cbn [negb].
    rewrite first_unasked_scan, Hp, Ha.
    unfold askable in Hnone. apply map_eq_nil in Hnone. rewrite Hnone.
    reflexivity.
  - intros Hstage name rest Hask. unfold askable in Hask.
    destruct (List.filter (wanted (asked_questions st))
                (question_order (user_profile st))) as [|[name' unset] more] eqn:E;
      [discriminate|].
    cbn [map fst] in Hask. injection Hask as -> _.
    assert (Hin : In (name, unset)
                     (List.filter (wanted (asked_questions st))
                        (question_order (user_profile st)))).
    { rewrite E. left. reflexivity. }
    apply List.filter_In in Hin. destruct Hin as [Hin Hw].
    unfold wanted in Hw. cbn [fst snd] in Hw.
    apply andb_true_iff in Hw. destruct Hw as [-> Hnew].
    destruct (question_text_known _ _ (language st) _ Hin) as [q Hq].
    split; [exact Hin|]. split.
    + intros Hold. apply str_in_In in Hold. rewrite Hold in Hnew. discriminate.
    + exists q. split; [exact Hq|].
      rewrite Hdef, Hstage, String.eqb_refl. cbn [negb].
      rewrite first_unasked_scan, Hp, Ha, Hl, E. cbn [fst].
      rewrite Hq. reflexivity.
Qed.

End NextQuestion.

Lemma get_next_question_asks_first_askable_witness :
  fst (Conversation.get_next_question Samples.midway)
  = Exn.Ok (Some "What is your highest education level? (e.g., 10th pass, 12th pass, graduate, postgraduate)"%string).
Proof.
  destruct (proj2 (proj2 (get_next_question_asks_first_askable Samples.midway))
              eq_refl "education_level"%string
              [ "income_range"; "category"; "gender"; "occupation" ]%string
              eq_refl)
    as (_ & _ & q & Hq & Hnext).
  rewrite Hnext. cbn [fst].
  vm_compute in Hq. injection Hq as <-. reflexivity.
Defined.

Section QuestionBudget.

Import Conversation Exn.

Lemma askable_collecting (st : ConversationState) :
  askable (collecting st) = askable st.
Proof.
  unfold collecting.
  destruct (String.eqb (current_stage st) "greeting"); reflexivity.
Qed.

(** A call that returns a question shortens the list of what can still
    be asked; any other call does not lengthen it. *)
Lemma get_next_question_progress (st : ConversationState) :
  length (askable (snd (get_next_question st)))
  + questions_in [fst (get_next_question st)]
  <= length (askable st).
Proof.
  assert (Hdef : get_next_question st
                 = if negb (String.eqb (current_stage (collecting st))
                              "info_collection")
                   then (Ok None, collecting st)
                   else first_unasked (question_order (user_profile (collecting st)))
                          (collecting st)) by reflexivity.
  rewrite Hdef.
  destruct (negb (String.eqb (current_stage (collecting st)) "info_collection")).
  - cbn [fst snd questions_in List.filter length].
    rewrite askable_collecting. lia.
  - rewrite first_unasked_scan.
    rewrite <- (askable_collecting st).
    destruct (List.filter (wanted (asked_questions (collecting st)))
                (question_order (user_profile (collecting st))))
      as [|field rest] eqn:E.
    + cbn [fst snd questions_in List.filter length]. lia.
    + cbn [fst snd]. unfold askable.
      cbn [asked_questions user_profile set_asked].
      rewrite E, !length_map.
      pose proof (askable_after_question _ _ _ _ E) as Hlt.
      assert (questions_in
                [bind (question_text (fst field) (language (collecting st)))
                      (fun q => Ok (Some q))] <= 1) as Hone.
      { unfold questions_in. cbn [List.filter].
        destruct (bind _ _) as [[q|]|]; cbn; lia. }
      cbn [length] in *. lia.
Qed.

(** X12.  However often [get_next_question] is called on a session, it
    returns at most as many questions as there are attributes unset and
    not asked at the start, hence at most seven. *)
Theorem questions_are_bounded (n : nat) (st : ConversationState) :
  questions_in (fst (ask n st)) <= length (askable st)
  /\ length (askable st) <= 7.
Proof.
  split.
  - revert st. induction n as [|n IH]; intros st.
    + cbn. lia.
    + cbn [ask].
      pose proof (get_next_question_progress st) as Hstep.
      destruct (get_next_question st) as [q st1]. cbn [fst snd] in Hstep.
      specialize (IH st1). destruct (ask n st1) as [qs st2].
      cbn [fst] in *. unfold questions_in in *. cbn [List.filter] in *.
      destruct q as [[q|]|]; cbn [length] in *; lia.
  - unfold askable. rewrite length_map.
    etransitivity; [apply filter_shorter | reflexivity].
Qed.

End QuestionBudget.

Section ProfileUpdates.

Import Conversation Exn.

Ltac on_field field :=
  destruct (String.eqb_spec field "age") as [->|?];
  [|destruct (String.eqb_spec field "state") as [->|?];
    [|destruct (String.eqb_spec field "education_level") as [->|?];
      [|destruct (String.eqb_spec field "income_range") as [->|?];
        [|destruct (String.eqb_spec field "category") as [->|?];
          [|destruct (String.eqb_spec field "occupation") as [->|?];
            [|destruct (String.eqb_spec field "gender") as [->|?]]]]]]].

Lemma setattr_profile_writes (p : User.UserProfile) (field : string)
    (v : Py.value) :
  match setattr_profile p field v with
  | None => attribute p field = None
  | Some p' =>
      attribute p field <> None
      /\ (well_typed field v = true -> attribute p' field = Some v)
      /\ (forall other, other <> field -> attribute p' other = attribute p other)
  end.
Proof.
  unfold setattr_profile.
  on_field field; cbn [String.eqb Ascii.eqb Bool.eqb andb];
    try (split; [discriminate|]; split;
         [ destruct v; cbn; intros; (reflexivity || discriminate)
         | intros other Hne; unfold attribute;
           on_field other; try contradiction; reflexivity ]).
  unfold attribute.
  repeat match goal with
    | H : ?f <> ?c |- _ => apply String.eqb_neq in H; rewrite H; clear H
    end.
  reflexivity.
Qed.

(** X13.  [update_user_profile] with the name of one of the seven
    attributes of the profile writes that attribute and no other: the
    other six attributes, the stage, the asked list and the history are
    as they were, and the last-activity time is the clock, whatever the
    value given.  A value of the declared type of the attribute (an
    integer for the age, a string for the others, or [None]) is the
    value then read back. *)
Theorem update_user_profile_writes_one_attribute
    (now : Z) (field : string) (v : Py.value) (st : ConversationState) :
  In field FIELDS ->
  let st' := update_user_profile now field v st in
  (forall other, other <> field ->
     attribute (user_profile st') other = attribute (user_profile st) other)
  /\ current_stage st' = current_stage st
  /\ asked_questions st' = asked_questions st
  /\ conversation_history st' = conversation_history st
  /\ session_id st' = session_id st
  /\ last_activity st' = now
  /\ (well_typed field v = true ->
      attribute (user_profile st') field = Some v).
Proof.
  intros Hfield. cbv zeta. unfold update_user_profile.
  pose proof (setattr_profile_writes (user_profile st) field v) as H.
  destruct (setattr_profile (user_profile st) field v) as [p'|].
  - destruct H as (Hsome & Hw & Ho). cbn. repeat split; auto.
  - exfalso. cbn [FIELDS In] in Hfield.
    repeat destruct Hfield as [<-|Hfield]; try discriminate H.
    contradiction.
Qed.

End ProfileUpdates.

Lemma update_user_profile_writes_one_attribute_witness :
  Conversation.attribute
    (Conversation.user_profile
       (Conversation.update_user_profile 42 "state" (Py.VStr "Karnataka")
          Samples.midway)) "state"
  = Some (Py.VStr "Karnataka")
  /\ Conversation.last_activity
       (Conversation.update_user_profile 42 "state" (Py.VStr "Karnataka")
          Samples.midway)
     = 42%Z.
Proof.
  pose proof (update_user_profile_writes_one_attribute 42 "state"
                (Py.VStr "Karnataka") Samples.midway) as Hs.
  cbv zeta in Hs.
  destruct Hs as (_ & _ & _ & _ & _ & Ht & Hv); [cbn; auto|].
  split; [apply Hv; reflexivity | exact Ht].
Defined.

Section Completion.

Import Conversation Exn.

(** X14.  Information is complete exactly when age and state have
    values.  Recording an age and then a state, on any session, makes it
    complete; [transition_to_eligibility] then moves the session to the
    eligibility stage, where [get_next_question] asks nothing more.  On
    a session that is not complete the transition changes nothing. *)
Theorem age_and_state_open_eligibility
    (t1 t2 t3 : Z) (a : Z) (region : string) (st : ConversationState) :
  let st2 :=
    update_user_profile t2 "state" (Py.VStr region)
      (update_user_profile t1 "age" (Py.VInt a) st) in
  let st3 := transition_to_eligibility t3 st2 in
  is_information_complete st2 = true
  /\ current_stage st3 = "eligibility"%string
  /\ get_next_question st3 = (Ok None, st3)
  /\ (is_information_complete st = true
      <-> User.age (user_profile st) <> None
          /\ User.state (user_profile st) <> None)
  /\ (is_information_complete st = false ->
      transition_to_eligibility t3 st = st).
Proof.
  cbv zeta. split; [reflexivity|]. split; [reflexivity|].
  split; [reflexivity|]. split.
  - unfold is_information_complete.
    destruct (User.age (user_profile st)), (User.state (user_profile st));
      cbn; split; intros H; try discriminate; try reflexivity.
    + split; discriminate.
    + destruct H as [_ H]. contradiction.
    + destruct H as [H _]. contradiction.
    + destruct H as [H _]. contradiction.
  - intros H. unfold transition_to_eligibility. rewrite H. reflexivity.
Qed.

Lemma missing_information_cases (p : User.UserProfile) (st : ConversationState) :
  user_profile st = p ->
  Permutation (get_missing_information st) (User.get_missing_fields p)
  /\ is_information_complete st = User.is_complete_for_eligibility p.
Proof.
  intros Hp. unfold get_missing_information, is_information_complete.
  rewrite Hp. unfold User.get_missing_fields, User.is_complete_for_eligibility,
    question_order.
  destruct p as [age state education income category occupation gender].
  cbn [User.age User.state User.education_level User.income_range
       User.category User.occupation User.gender].
  destruct age, state, education, income, category, occupation, gender;
    cbn [fold_left is_none fst snd app orb]; (split; [|reflexivity]);
    repeat first [ apply Permutation_refl | apply perm_skip | apply perm_swap ].
Qed.

Lemma missing_names_listed (order : list (string * bool))
    (seen : list string) (name : string) :
  In name (fold_left (fun (missing : list string) (field : string * bool) =>
                        if snd field then missing ++ [fst field] else missing)
                     order seen)
  <-> In name seen \/ In (name, true) order.
Proof.
  revert seen. induction order as [|[n u] order IH]; intros seen;
    cbn [fold_left In fst snd].
  - tauto.
  - rewrite IH. destruct u.
    + rewrite in_app_iff. cbn [In]. split.
      * intros [[H|[<-|[]]]|H]; auto.
      * intros [H|[H|H]]; auto.
        injection H as <-. left. right. left. reflexivity.
    + split.
      * intros [H|H]; auto.
      * intros [H|[H|H]]; auto. discriminate.
Qed.

Lemma missing_names_are_unset (st : ConversationState) (name : string) :
  In name (get_missing_information st)
  <-> In (name, true) (question_order (user_profile st)).
Proof.
  unfold get_missing_information. rewrite missing_names_listed.
  cbn [In]. tauto.
Qed.

(** X15.  The two listings of the unset attributes, the one of the
    engine and the one of the profile record, hold the same names (the
    record lists the occupation before the gender, the engine after),
    both name exactly the attributes without a value, and the two
    completeness tests agree. *)
Theorem missing_information_matches_profile (st : ConversationState) :
  Permutation (get_missing_information st)
              (User.get_missing_fields (user_profile st))
  /\ (forall name,
        In name (get_missing_information st)
        <-> attribute (user_profile st) name = Some Py.VNone)
  /\ is_information_complete st
     = User.is_complete_for_eligibility (user_profile st).
Proof.
  destruct (missing_information_cases (user_profile st) st eq_refl) as [Hperm Hc].
  split; [exact Hperm|]. split; [|exact Hc].
  intros name. rewrite missing_names_are_unset.
  unfold question_order, attribute. cbn [In]. split.
  - intros H.
    repeat (destruct H as [H|H];
            [ injection H as <- Hnone;
              cbn [String.eqb Ascii.eqb Bool.eqb andb];
              match type of Hnone with
              | is_none ?o = true => destruct o; [discriminate|reflexivity]
              end |]).
    contradiction.
  -
    destruct (String.eqb_spec name "age") as [->|?];
      [destruct (User.age (user_profile st)); intros H;
       [discriminate | cbn; auto 10]|].
    destruct (String.eqb_spec name "state") as [->|?];
      [destruct (User.state (user_profile st)); intros H;
       [discriminate | cbn; auto 10]|].
    destruct (String.eqb_spec name "education_level") as [->|?];
      [destruct (User.education_level (user_profile st)); intros H;
       [discriminate | cbn; auto 10]|].
    destruct (String.eqb_spec name "income_range") as [->|?];
      [destruct (User.income_range (user_profile st)); intros H;
       [discriminate | cbn; auto 10]|].
    destruct (String.eqb_spec name "category") as [->|?];
      [destruct (User.category (user_profile st)); intros H;
       [discriminate | cbn; auto 10]|].
    destruct (String.eqb_spec name "occupation") as [->|?];
      [destruct (User.occupation (user_profile st)); intros H;
       [discriminate | cbn; auto 10]|].
    destruct (String.eqb_spec name "gender") as [->|?];
      [destruct (User.gender (user_profile st)); intros H;
       [discriminate | cbn; auto 10]|].
    discriminate.
Qed.

End Completion.

Lemma NoDup_snoc {A : Type} (l : list A) (x : A) :
  List.NoDup l -> ~ In x l -> List.NoDup (l ++ [x]).
Proof.
  induction 1 as [|y l Hy Hl IH]; cbn [app]; intros Hx.
  - constructor; [intros [] | constructor].
  - constructor.
    + rewrite in_app_iff. cbn [In]. intros [H|[H|[]]].
      * apply Hy. exact H.
      * apply Hx. left. symmetry. exact H.
    + apply IH. intros H. apply Hx. right. exact H.
Qed.

Section Bookkeeping.

Import Conversation Exn.

(** X16.  [mark_question_asked] puts the name in the asked list once:
    the name is in the list afterwards, marking it again changes
    nothing, and a list without repetitions stays without. *)
Theorem mark_question_asked_once (name : string) (st : ConversationState) :
  let st' := mark_question_asked name st in
  In name (asked_questions st')
  /\ mark_question_asked name st' = st'
  /\ (In name (asked_questions st) -> st' = st)
  /\ (List.NoDup (asked_questions st) -> List.NoDup (asked_questions st')).
Proof.
  cbv zeta. unfold mark_question_asked.
  destruct (Py.str_in name (asked_questions st)) eqn:E; cbn [negb].
  - pose proof (proj1 (str_in_In _ _) E) as Hin. rewrite E. cbn [negb]. auto.
  - cbn [asked_questions set_asked].
    assert (Py.str_in name (asked_questions st ++ [name]) = true) as E'.
    { apply (proj2 (str_in_In _ _)), in_or_app. right. left. reflexivity. }
    rewrite E'. cbn [negb]. repeat split.
    + apply in_or_app. right. left. reflexivity.
    + intros Hin. apply (proj2 (str_in_In _ _)) in Hin. congruence.
    + intros Hnd. apply NoDup_snoc; [exact Hnd|].
      intros Hin. apply (proj2 (str_in_In _ _)) in Hin. congruence.
Qed.



End Bookkeeping.

(* ===================================================================== *)
(** * Further properties of the retrieval index *)
(* ===================================================================== *)

Section Indexing.

Import KnowledgeBase Exn.

Lemma encode_texts_length (encoder : string -> outcome vector)
    (texts : list string) (embeddings : list vector) :
  encode_texts encoder texts = Ok embeddings ->
  length embeddings = length texts.
Proof.
  revert embeddings. induction texts as [|text rest IH]; intros embeddings.
  - cbn. intros H. injection H as <-. reflexivity.
  - cbn [encode_texts]. destruct (encoder text) as [v|]; [|discriminate].
    cbn [bind]. destruct (encode_texts encoder rest) as [vs|]; [|discriminate].
    cbn [bind]. intros H. injection H as <-. cbn [length].
    rewrite (IH vs eq_refl). reflexivity.
Qed.

(** X18.  A call of [index_schemes] that returns normally leaves the
    index in step with the scheme list: it has stored the list it was
    given with the embedding of each scheme, and nothing of what was
    indexed before remains.  A call on the empty list raises and changes
    nothing.  A call in which the encoder raises has already stored the
    new scheme list and leaves the old index beside it.  With an encoder
    that raises on no text, every call on a list that is not empty
    returns normally.  A new knowledge base is in step. *)
Theorem index_schemes_keeps_in_step
    (encoder : string -> outcome vector)
    (new_schemes : list Sch.Scheme) (kb : state) :
  let texts := map _create_searchable_text new_schemes in
  let result := index_schemes_with encoder new_schemes kb in
  (fst result = Ok tt ->
   new_schemes <> []
   /\ schemes (snd result) = new_schemes
   /\ encode_texts encoder texts = Ok (index (snd result))
   /\ in_step (snd result)
   /\ forall kb',
        snd (index_schemes_with encoder new_schemes kb') = snd result)
  /\ (new_schemes = [] ->
      result = (Raise (ValueError "Cannot index empty scheme list"), kb))
  /\ (forall e,
        new_schemes <> [] ->
        encode_texts encoder texts = Raise e ->
        result = (Raise e, {| index := index kb; schemes := new_schemes |}))
  /\ (forall encode,
        new_schemes <> [] ->
        fst (index_schemes encode new_schemes kb) = Ok tt
        /\ in_step (snd (index_schemes encode new_schemes kb)))
  /\ in_step initial.
Proof.
  cbv zeta. unfold in_step, index_schemes, index_schemes_with.
  split; [|split; [|split; [|split]]].
  - destruct new_schemes as [|s ss]; [discriminate|].
    cbn [schemes index].
    destruct (encode_texts encoder _) as [embeddings|] eqn:E;
      [|discriminate].
    intros _. cbn [fst snd index schemes].
    split; [discriminate|]. split; [reflexivity|]. split; [reflexivity|].
    split.
    + rewrite (encode_texts_length _ _ _ E), length_map. reflexivity.
    + intros kb'. reflexivity.
  - intros ->. reflexivity.
  - intros e Hne He. destruct new_schemes as [|s ss]; [contradiction|].
    rewrite He. reflexivity.
  - intros encode Hne. destruct new_schemes as [|s ss]; [contradiction|].
    rewrite encode_texts_total. cbn [fst snd index schemes].
    rewrite !length_map. split; reflexivity.
  - reflexivity.
Qed.

End Indexing.

(** X18 on the sample catalog: indexing it leaves a knowledge base in
    step, and a later call in which the encoder fails on a list of one
    scheme leaves that list beside the four embeddings of the catalog. *)
Lemma index_schemes_keeps_in_step_witness :
  KnowledgeBase.in_step Samples.kb
  /\ ~ KnowledgeBase.in_step
         (snd (KnowledgeBase.index_schemes_with Samples.out_of_memory
                 [Samples.entry "youth" Samples.youth] Samples.kb)).
Proof.
  split.
  - apply (proj1 (proj2 (proj2 (proj2
             (index_schemes_keeps_in_step Samples.out_of_memory
                Samples.regional KnowledgeBase.initial))))
             Samples.by_length).
    discriminate.
  - rewrite (proj1 (proj2 (proj2
               (index_schemes_keeps_in_step Samples.out_of_memory
                  [Samples.entry "youth" Samples.youth] Samples.kb)))
               (Exn.RuntimeError "out of memory"));
      [discriminate | discriminate | reflexivity].
Defined.

Section Soundness.

Import KnowledgeBase Exn.

Variable all : list Sch.Scheme.
Variable top_k : Z.
Variable filters : option (list (string * Py.value)).

Lemma collect_sound (hits : list (Z * Q)) :
  (forall h, In h hits -> (0 <= snd h)%Q) ->
  forall results res,
    Forall (sound all filters) results ->
    collect all top_k filters hits results = Ok res ->
    Forall (sound all filters) res
    /\ length res <= length results + length hits
    /\ ((Z.of_nat (length results) < top_k)%Z ->
        (Z.of_nat (length res) <= top_k)%Z).
Proof.
  induction hits as [|[idx d] rest IH]; intros Hpos results res Hres Hrun.
  - cbn in Hrun. injection Hrun as <-. cbn [length]. repeat split; auto; lia.
  - cbn [collect] in Hrun.
    assert (Hrest : forall h, In h rest -> (0 <= snd h)%Q)
      by (intros h Hh; apply Hpos; right; exact Hh).
    assert (Hskip : forall res',
               collect all top_k filters rest results = Ok res' ->
               Forall (sound all filters) res'
               /\ length res' <= length results + length ((idx, d) :: rest)
               /\ ((Z.of_nat (length results) < top_k)%Z ->
                   (Z.of_nat (length res') <= top_k)%Z)).
    { intros res' Hrun'. destruct (IH Hrest _ _ Hres Hrun') as (H1 & H2 & H3).
      cbn [length]. split; [exact H1|]. split; [lia | exact H3]. }
    destruct (idx <? Z.of_nat (length all))%Z; [|apply Hskip, Hrun].
    destruct (Py.getitem all idx) as [s|] eqn:E; [|discriminate].
    destruct (passes filters s) as [[|]|] eqn:Hp; cbn [bind] in Hrun;
      [|apply Hskip, Hrun|discriminate].
    assert (Hnew : Forall (sound all filters)
                     (results ++ [(s, similarity d)])).
    { apply Forall_app. split; [exact Hres|]. constructor; [|constructor].
      destruct (similarity_range d (Hpos (idx, d) (or_introl eq_refl)))
        as [Hlo Hhi].
      repeat split; cbn [fst snd]; try assumption.
      eapply getitem_In, E. }
    destruct (top_k <=? Z.of_nat (length (results ++ [(s, similarity d)])))%Z
      eqn:Ek.
    + injection Hrun as <-. rewrite length_app in *. cbn [length] in *.
      split; [exact Hnew|]. split; lia.
    + destruct (IH Hrest _ _ Hnew Hrun) as (H1 & H2 & H3).
      rewrite length_app in *. cbn [length] in *.
      apply Z.leb_gt in Ek.
      split; [exact H1|]. split; [lia|]. intros _. apply H3. lia.
Qed.

End Soundness.

(** X19.  On a knowledge base whose index is in step with its scheme
    list, whatever the filters and [top_k], a list returned by
    [retrieve_schemes] holds only schemes of the indexed list that the
    filters accept, each with a score in (0, 1]; it has no more than
    [top_k] pairs and no more than there are indexed schemes. *)
Theorem retrieve_schemes_returns_accepted_indexed_schemes
    (encode : string -> KnowledgeBase.vector)
    (query : string) (top_k : Z)
    (filters : option (list (string * Py.value)))
    (kb : KnowledgeBase.state) (res : list (Sch.Scheme * Q)) :
  KnowledgeBase.in_step kb ->
  (0 < top_k)%Z ->
  KnowledgeBase.retrieve_schemes encode query top_k filters kb = Exn.Ok res ->
  Forall (KnowledgeBase.sound (KnowledgeBase.schemes kb) filters) res
  /\ (Z.of_nat (length res) <= top_k)%Z
  /\ length res <= length (KnowledgeBase.schemes kb).
Proof.
  intros _ Hk Hrun.
  destruct (KnowledgeBase.schemes kb) as [|s ss] eqn:Es.
  - unfold KnowledgeBase.retrieve_schemes in Hrun. rewrite Es in Hrun.
    injection Hrun as <-. cbn [length]. repeat split; [constructor | lia | lia].
  - rewrite retrieve_schemes_indexed in Hrun
      by ((rewrite Es; discriminate) || exact Hk).
    rewrite Es in Hrun.
    set (hits := KnowledgeBase.search _ _ _) in Hrun.
    assert (Hlen : length hits
                   <= Z.to_nat (Z.min (top_k * 2) (Z.of_nat (length (s :: ss))))).
    { subst hits. rewrite search_length. lia. }
    destruct (collect_sound (s :: ss) top_k filters hits
                (fun h Hh => search_nonneg _ _ _ h Hh) [] res
                (List.Forall_nil _) Hrun) as (H1 & H2 & H3).
    cbn [length] in H2, H3. split; [exact H1|]. split.
    + apply H3. exact Hk.
    + cbn [length] in *. lia.
Qed.

Lemma retrieve_schemes_returns_accepted_indexed_schemes_witness :
  exists res,
    KnowledgeBase.retrieve_schemes Samples.by_length "women" 2
      (Some Samples.filters) Samples.kb = Exn.Ok res
    /\ Forall (KnowledgeBase.sound (KnowledgeBase.schemes Samples.kb)
                 (Some Samples.filters)) res.
Proof.
  destruct (KnowledgeBase.retrieve_schemes Samples.by_length "women" 2
              (Some Samples.filters) Samples.kb) as [res|] eqn:E.
  - exists res. split; [reflexivity|].
    apply (retrieve_schemes_returns_accepted_indexed_schemes
             Samples.by_length "women" 2 (Some Samples.filters) Samples.kb res
             (eq_refl : KnowledgeBase.in_step Samples.kb) ltac:(lia) E).
  - vm_compute in E. discriminate.
Defined.

Section Unfiltered.

Import KnowledgeBase Exn.

(** X20.  Without filters, on a knowledge base whose index is in step
    with its scheme list, [retrieve_schemes] with a positive [top_k]
    returns exactly [top_k] pairs, or all the indexed schemes when there
    are fewer. *)
Theorem unfiltered_retrieval_is_full
    (encode : string -> vector) (query : string) (top_k : Z) (kb : state) :
  (0 < top_k)%Z ->
  in_step kb ->
  exists res,
    retrieve_schemes encode query top_k None kb = Ok res
    /\ length res = Nat.min (Z.to_nat top_k) (length (schemes kb)).
Proof.
  intros Hk Hstep. unfold in_step in Hstep.
  destruct (schemes kb) as [|s ss] eqn:Es.
  - exists []. unfold retrieve_schemes. rewrite Es. split; [reflexivity|].
    cbn [length]. lia.
  - rewrite retrieve_schemes_indexed by ((rewrite Es; discriminate) || exact Hk).
    rewrite Es.
    assert (Hlabels : forall h,
               In h (search (index kb) (encode query)
                       (Z.to_nat (Z.min (top_k * 2)
                                    (Z.of_nat (length (s :: ss)))))) ->
               (- Z.of_nat (length (s :: ss)) <= fst h
                < Z.of_nat (length (s :: ss)))%Z).
    { intros h Hh. apply search_labels in Hh. rewrite Hstep in Hh.
      cbn [length] in *. lia. }
    rewrite (collect_closed_form (s :: ss) top_k None)
      by (try (intros; exists true; reflexivity);
          try (intros h Hh; apply Hlabels, Hh); cbn; lia).
    eexists. split; [reflexivity|].
    cbn [app]. rewrite length_map, length_firstn.
    rewrite (List.filter_ext (keeps None) (fun _ => true)) by reflexivity.
    assert (Hall : forall l : list (Sch.Scheme * Q),
               List.filter (fun _ => true) l = l).
    { induction l as [|x l IH]; cbn; [reflexivity | rewrite IH; reflexivity]. }
    rewrite Hall.
    rewrite neighbours_in_range by exact Hlabels.
    rewrite search_length. cbn [length]. lia.
Qed.

End Unfiltered.

Lemma unfiltered_retrieval_is_full_witness :
  exists res,
    KnowledgeBase.retrieve_schemes Samples.by_length "women" 9 None Samples.kb
    = Exn.Ok res
    /\ length res = 4.
Proof.
  apply (unfiltered_retrieval_is_full Samples.by_length "women" 9 Samples.kb);
    [lia | reflexivity].
Defined.

Section Lookup.

Import KnowledgeBase Exn.

Variable kb : state.

Lemma find_unique_id (all : list Sch.Scheme) (s : Sch.Scheme) :
  List.NoDup (map Sch.id all) -> In s all ->
  List.find (fun scheme => String.eqb (Sch.id scheme) (Sch.id s)) all = Some s.
Proof.
  induction all as [|x all IH]; cbn [map List.find In]; [tauto|].
  intros Hnd [->|Hin].
  - rewrite String.eqb_refl. reflexivity.
  - inversion Hnd as [|? ? Hx Hrest]; subst.
    destruct (String.eqb_spec (Sch.id x) (Sch.id s)) as [E|_].
    + exfalso. apply Hx. rewrite E. apply in_map. exact Hin.
    + apply IH; assumption.
Qed.

(** X21.  [get_scheme_by_id] returns a scheme of the indexed list with
    the identifier asked for, and [None] exactly when no indexed scheme
    has it.  When the identifiers of the indexed schemes are distinct,
    looking up the identifier of an indexed scheme returns that
    scheme. *)
Theorem get_scheme_by_id_finds_indexed_schemes (scheme_id : string) :
  (forall s, get_scheme_by_id scheme_id kb = Some s ->
             In s (schemes kb) /\ Sch.id s = scheme_id)
  /\ (get_scheme_by_id scheme_id kb = None
      <-> ~ In scheme_id (map Sch.id (schemes kb)))
  /\ (List.NoDup (map Sch.id (schemes kb)) ->
      forall s, In s (schemes kb) -> get_scheme_by_id (Sch.id s) kb = Some s).
Proof.
  unfold get_scheme_by_id. split; [|split].
  - intros s Hs. apply List.find_some in Hs. destruct Hs as [Hin E].
    apply String.eqb_eq in E. split; assumption.
  - split.
    + intros Hnone Hin. apply in_map_iff in Hin. destruct Hin as (s & <- & Hin).
      pose proof (List.find_none _ _ Hnone s Hin) as E. cbn in E.
      rewrite String.eqb_refl in E. discriminate.
    + intros Hno.
      destruct (List.find _ (schemes kb)) as [s|] eqn:E; [|reflexivity].
      apply List.find_some in E. destruct E as [Hin E].
      apply String.eqb_eq in E. exfalso. apply Hno. rewrite <- E.
      apply in_map. exact Hin.
  - intros Hnd s Hin. apply find_unique_id; assumption.
Qed.

End Lookup.

Lemma get_scheme_by_id_finds_indexed_schemes_witness :
  KnowledgeBase.get_scheme_by_id "youth" Samples.kb
  = Some (Samples.entry "youth" Samples.youth).
Proof.
  apply (proj2 (proj2 (get_scheme_by_id_finds_indexed_schemes Samples.kb "youth"))
           ltac:(vm_compute; repeat constructor; cbn;
                 intros H; repeat destruct H as [H|H]; discriminate || contradiction)
           (Samples.entry "youth" Samples.youth)).
  vm_compute. auto.
Defined.

Section Persistence.

Import KnowledgeBase Exn.

Variable index_path : string.

Lemma artifact_paths_differ :
  String.append index_path ".faiss" <> String.append index_path ".pkl".
Proof.
  induction index_path as [|c p IH]; cbn [String.append].
  - discriminate.
  - intros H. injection H as H. exact (IH H).
Qed.

(** X22.  Saving a knowledge base and loading the two artifacts into any
    knowledge base gives back the saved index and scheme list, whatever
    that knowledge base held and whatever else the file system holds;
    every query is then answered as by the saved one. *)
Theorem save_then_load_restores
    (kb other : state) (files : gmap string file) :
  let loaded := load_index index_path other (save_index index_path kb files) in
  fst loaded = true
  /\ index (snd loaded) = index kb
  /\ schemes (snd loaded) = schemes kb
  /\ (forall encode query top_k filters,
        retrieve_schemes encode query top_k filters (snd loaded)
        = retrieve_schemes encode query top_k filters kb).
Proof.
  cbv zeta. unfold load_index, save_index.
  rewrite lookup_insert_ne by (apply not_eq_sym, artifact_paths_differ).
  rewrite !lookup_insert_eq. cbn [fst snd index schemes].
  repeat split.
Qed.

(** X23.  A failed [load_index] is not always without effect.  When the
    index artifact is absent, or is no index, it reports [False] and
    changes nothing.  When the index artifact is there and the scheme
    artifact is absent, it reports [False] after it has replaced the
    index: the knowledge base is left with the loaded index beside its
    old scheme list. *)
Theorem failed_load_may_replace_the_index
    (kb : state) (files : gmap string file) :
  (files !! String.append index_path ".faiss" = None ->
   load_index index_path kb files = (false, kb))
  /\ (forall pickled,
        files !! String.append index_path ".faiss" = Some (PickleFile pickled) ->
        load_index index_path kb files = (false, kb))
  /\ (forall vectors,
        files !! String.append index_path ".faiss" = Some (FaissFile vectors) ->
        files !! String.append index_path ".pkl" = None ->
        fst (load_index index_path kb files) = false
        /\ index (snd (load_index index_path kb files)) = vectors
        /\ schemes (snd (load_index index_path kb files)) = schemes kb)
  /\ (forall saved,
        let files' :=
          delete (String.append index_path ".pkl")
                 (save_index index_path saved files) in
        fst (load_index index_path kb files') = false
        /\ index (snd (load_index index_path kb files')) = index saved
        /\ schemes (snd (load_index index_path kb files')) = schemes kb).
Proof.
  unfold load_index. split; [|split; [|split]].
  - intros ->. reflexivity.
  - intros pickled ->. reflexivity.
  - intros vectors -> ->. repeat split.
  - intros saved. cbv zeta. unfold save_index.
    rewrite lookup_delete_ne by (apply not_eq_sym, artifact_paths_differ).
    rewrite lookup_insert_ne by (apply not_eq_sym, artifact_paths_differ).
    rewrite lookup_insert_eq, lookup_delete_eq. repeat split.
Qed.

End Persistence.

Lemma failed_load_may_replace_the_index_witness :
  fst (KnowledgeBase.load_index "data/faiss_index" KnowledgeBase.initial
         (delete "data/faiss_index.pkl"%string Samples.disk)) = false
  /\ KnowledgeBase.index
       (snd (KnowledgeBase.load_index "data/faiss_index" KnowledgeBase.initial
               (delete "data/faiss_index.pkl"%string Samples.disk)))
     = KnowledgeBase.index Samples.kb.
Proof.
  destruct (proj2 (proj2 (proj2
              (failed_load_may_replace_the_index "data/faiss_index"
                 KnowledgeBase.initial empty))) Samples.kb)
    as (H1 & H2 & _).
  split; [exact H1 | exact H2].
Defined.

(* ===================================================================== *)
(** * The age filters and the age check *)
(* ===================================================================== *)

(** X24.  For a person of age [a >= 0] and a scheme whose maximum age is
    not 0, the two age filters of [_matches_filters], both given [a],
    accept the scheme exactly when the age check of the eligibility
    engine passes for that age.  A maximum age of 0 is the exception:
    the filter takes it for no bound and accepts the scheme for every
    age, while the age check fails for every positive age. *)
Theorem age_filters_agree_with_age_check
    (p : User.UserProfile) (s : Sch.Scheme) (a : Z) :
  User.age p = Some a ->
  (0 <= a)%Z ->
  let e := Sch.eligibility s in
  let filters := [ ("min_age"%string, Py.VInt a); ("max_age"%string, Py.VInt a) ] in
  (Sch.max_age e <> Some 0%Z ->
   (KnowledgeBase._matches_filters s filters = Exn.Ok true
    <-> Eligibility.eligible (Eligibility.check_age p e Eligibility.start)
        = true))
  /\ (Sch.max_age e = Some 0%Z -> Sch.min_age e = None -> (0 < a)%Z ->
      KnowledgeBase._matches_filters s filters = Exn.Ok true
      /\ Eligibility.eligible (Eligibility.check_age p e Eligibility.start)
         = false).
Proof.
  intros Hp Ha. cbv zeta.
  unfold KnowledgeBase._matches_filters, Eligibility.check_age.
  cbn [String.eqb Ascii.eqb Bool.eqb andb KnowledgeBase.int_of Exn.bind].
  rewrite Hp. unfold Py.truthy_int.
  destruct (Sch.min_age (Sch.eligibility s)) as [lo|],
           (Sch.max_age (Sch.eligibility s)) as [hi|];
    cbn [Eligibility.is_some orb Exn.bind]; (split; [intros Hmax | intros Hz Hmin Hpos]);
    try discriminate Hmin;
    try (injection Hz as ->);
    repeat match goal with
      | |- context [(?x =? 0)%Z] => destruct (Z.eqb_spec x 0)
      | |- context [(?x <? ?y)%Z] => destruct (Z.ltb_spec x y)
      end;
    cbn [Exn.bind Eligibility.eligible Eligibility.failed Eligibility.satisfied
         Eligibility.start negb andb];
    try (split; intros; congruence || lia);
    try (exfalso; lia);
    try congruence.
Qed.

Lemma age_filters_agree_with_age_check_witness :
  KnowledgeBase._matches_filters (Samples.entry "newborn" Samples.newborn)
    [ ("min_age"%string, Py.VInt 25); ("max_age"%string, Py.VInt 25) ]
  = Exn.Ok true
  /\ Eligibility.eligible
       (Eligibility.check_age Samples.aged_25 Samples.newborn Eligibility.start)
     = false.
Proof.
  apply (proj2 (age_filters_agree_with_age_check Samples.aged_25
                  (Samples.entry "newborn" Samples.newborn) 25 eq_refl
                  ltac:(lia)));
    [reflexivity | reflexivity | lia].
Defined.

(* ===================================================================== *)
(** * Properties of the scheme routes *)
(* ===================================================================== *)

Section Routes.

Import KnowledgeBase Exn SchemesApi.

(** X25.  The state filter of the listing route and the state filter of
    [_matches_filters] agree on every scheme but those whose list of
    states is empty: the listing route drops such a scheme for every
    state, [_matches_filters] keeps it for every state. *)
Theorem state_filters_differ_on_empty_list (s : Sch.Scheme) (region : string) :
  _matches_filters s [("state"%string, Py.VStr region)]
  = Ok (match Sch.states (Sch.eligibility s) with
        | Some [] => true
        | _ => available_in region s
        end)
  /\ (Sch.states (Sch.eligibility s) = Some [] -> available_in region s = false).
Proof.
  unfold available_in. cbn [_matches_filters String.eqb Ascii.eqb Bool.eqb andb].
  destruct (Sch.states (Sch.eligibility s)) as [[|x xs]|].
  - split; reflexivity.
  - split; [|discriminate]. unfold not_in.
    destruct (Py.str_in region (x :: xs)); reflexivity.
  - split; [reflexivity | discriminate].
Qed.

(** The filters the search route builds hold only strings under [state]
    and [category] and only integers under [min_age] and [max_age]:
    [_matches_filters] raises on none of them. *)
Lemma built_filters_never_raise (request : SearchSchemesRequest)
    (s : Sch.Scheme) :
  exists b, passes (or_none (build_filters request)) s = Ok b.
Proof.
  unfold build_filters.
  destruct (Py.truthy_str (state request)), (Py.truthy_str (category request)),
           (Py.truthy_int (min_age request)), (Py.truthy_int (max_age request));
    cbn [app or_none passes _matches_filters String.eqb Ascii.eqb Bool.eqb andb
         int_of bind];
    repeat match goal with
      | |- context [match ?x with _ => _ end] => destruct x
      end;
    cbn [bind]; eexists; reflexivity.
Qed.

Lemma slice_to_length {A : Type} (k : Z) (l : list A) :
  (0 <= k)%Z -> (Z.of_nat (length (Py.slice_to k l)) <= k)%Z.
Proof.
  intros Hk. unfold Py.slice_to.
  destruct (Z.ltb_spec k 0); [lia|]. rewrite length_firstn. lia.
Qed.

Lemma slice_to_In {A : Type} (k : Z) (l : list A) (x : A) :
  In x (Py.slice_to k l) -> In x l.
Proof.
  unfold Py.slice_to. destruct (k <? 0)%Z; apply firstn_In.
Qed.

(** X26.  With a positive [top_k] and a knowledge base whose index is
    in step with its scheme list, the search route finds its schemes
    without an error, whatever the request: the filters it builds never
    make [retrieve_schemes] raise.  It finds at most [top_k] of them. *)
Theorem search_schemes_never_raises
    (encode : string -> vector) (request : SearchSchemesRequest)
    (kb : KnowledgeBase.state) (schemes_data : list Sch.Scheme) :
  (0 < top_k request)%Z ->
  in_step kb ->
  exists found,
    search_schemes encode request kb schemes_data = Ok found
    /\ (Z.of_nat (length found) <= top_k request)%Z.
Proof.
  intros Hk _. unfold search_schemes.
  destruct (Py.truthy_str (query request)) as [q|].
  - destruct (index kb) as [|v vs] eqn:Ei.
    + eexists. split; [reflexivity|].
      rewrite length_map. apply slice_to_length. lia.
    + destruct (schemes kb) as [|s ss] eqn:Es.
      * exists []. unfold retrieve_schemes. rewrite Es.
        split; [reflexivity | cbn; lia].
      * assert (Hne : schemes kb <> []) by (rewrite Es; discriminate).
        rewrite retrieve_schemes_indexed by assumption.
        rewrite (collect_closed_form (schemes kb) (top_k request)
                   (or_none (build_filters request))).
        -- eexists. split; [reflexivity|].
           cbn [app length]. rewrite length_map, length_firstn. lia.
        -- intros candidate _. apply built_filters_never_raise.
        -- intros h Hh. eapply search_subscripts; eassumption.
        -- cbn [length]. lia.
  - eexists. split; [reflexivity|].
    rewrite length_map. apply slice_to_length. lia.
Qed.

Lemma passes_or_none (filters : list (string * Py.value)) (s : Sch.Scheme) :
  passes (or_none filters) s = passes (Some (without_category filters)) s.
Proof.
  destruct filters as [|f fs]; [reflexivity|].
  cbn [or_none]. apply passes_without_category.
Qed.

Lemma built_filters_without_category (r r' : SearchSchemesRequest) :
  state r = state r' -> min_age r = min_age r' -> max_age r = max_age r' ->
  without_category (build_filters r) = without_category (build_filters r').
Proof.
  intros Hs Hlo Hhi. unfold build_filters. rewrite Hs, Hlo, Hhi.
  destruct (Py.truthy_str (state r')), (Py.truthy_str (category r)),
           (Py.truthy_str (category r')),
           (Py.truthy_int (min_age r')), (Py.truthy_int (max_age r'));
    reflexivity.
Qed.

(** X27.  When the search route takes the semantic path (a query is
    given and something is indexed, with the index in step with the
    scheme list), the category of the request has no effect on what it
    finds: two requests that differ only in their
    category find the same schemes with the same scores. *)
Theorem semantic_search_ignores_category
    (encode : string -> vector) (r r' : SearchSchemesRequest)
    (kb : KnowledgeBase.state) (schemes_data : list Sch.Scheme) :
  Py.truthy_str (query r) <> None ->
  index kb <> [] ->
  in_step kb ->
  query r = query r' -> state r = state r' ->
  min_age r = min_age r' -> max_age r = max_age r' -> top_k r = top_k r' ->
  search_schemes encode r kb schemes_data
  = search_schemes encode r' kb schemes_data.
Proof.
  intros Hq Hi _ Eq Es Elo Ehi Ek. unfold search_schemes.
  rewrite <- Eq, <- Ek.
  destruct (Py.truthy_str (query r)) as [q|]; [|contradiction].
  destruct (index kb) as [|v vs] eqn:Ei; [contradiction|].
  unfold retrieve_schemes. destruct (schemes kb); [reflexivity|].
  destruct (0 <? _)%Z; [|reflexivity].
  apply collect_same_filters. intros candidate.
  rewrite !passes_or_none.
  rewrite (built_filters_without_category r r' Es Elo Ehi). reflexivity.
Qed.

End Routes.

Lemma search_schemes_never_raises_witness :
  exists found,
    SchemesApi.search_schemes Samples.by_length Samples.request Samples.kb
      Samples.regional = Exn.Ok found
    /\ (Z.of_nat (length found) <= 2)%Z.
Proof.
  apply (search_schemes_never_raises Samples.by_length Samples.request
           Samples.kb Samples.regional).
  - cbn. lia.
  - reflexivity.
Defined.

Lemma semantic_search_ignores_category_witness :
  SchemesApi.search_schemes Samples.by_length Samples.request Samples.kb
    Samples.regional
  = SchemesApi.search_schemes Samples.by_length
      {| SchemesApi.query := Some "women"%string;
         SchemesApi.state := Some "Maharashtra"%string;
         SchemesApi.category := Some "housing"%string;
         SchemesApi.min_age := Some 20%Z;
         SchemesApi.max_age := None;
         SchemesApi.top_k := 2%Z |}
      Samples.kb Samples.regional.
Proof.
  apply semantic_search_ignores_category; try reflexivity.
  - vm_compute. discriminate.
  - vm_compute. discriminate.
Defined.

Section Listing.

Import KnowledgeBase Exn SchemesApi.

Lemma scheme_category_is_a_label (s : Sch.Scheme) :
  In (_get_scheme_category s) CATEGORIES
  /\ Py.lower (_get_scheme_category s) = _get_scheme_category s.
Proof.
  unfold _get_scheme_category.
  repeat match goal with
    | |- context [if ?c then _ else _] => destruct c
    end;
    (split; [cbn; auto 10 | reflexivity]).
Qed.

Lemma filter_sublist {A : Type} (f : A -> bool) (l : list A) :
  sublist (List.filter f l) l.
Proof.
  induction l as [|x l IH]; cbn [List.filter]; [constructor|].
  destruct (f x); [apply sublist_skip | apply sublist_cons]; exact IH.
Qed.

Lemma filter_none {A : Type} (f : A -> bool) (l : list A) :
  (forall x, f x = false) -> List.filter f l = [].
Proof.
  intros Hf. induction l as [|x l IH]; cbn [List.filter]; [reflexivity|].
  rewrite Hf. exact IH.
Qed.

(** X28.  The listing route returns schemes of the catalog, in catalog
    order, each in the requested category and available in the requested
    state when these are given, and at most [limit] of them.  The
    category derived for a scheme is always one of seven labels, so a
    requested category that is none of them, whatever its case, lists
    nothing. *)
Theorem list_schemes_returns_matching_schemes
    (category state : option string) (limit : Z)
    (schemes_data : list Sch.Scheme) :
  let listed := list_schemes category state limit schemes_data in
  Forall (fun s =>
            In s schemes_data
            /\ (forall c, Py.truthy_str category = Some c ->
                          in_category c s = true)
            /\ (forall region, Py.truthy_str state = Some region ->
                               available_in region s = true))
         listed
  /\ sublist listed schemes_data
  /\ ((0 <= limit)%Z -> (Z.of_nat (length listed) <= limit)%Z)
  /\ (forall s, In (_get_scheme_category s) CATEGORIES)
  /\ (forall c, Py.truthy_str category = Some c ->
                ~ In (Py.lower c) CATEGORIES -> listed = []).
Proof.
  cbv zeta. unfold list_schemes.
  set (by_category := match Py.truthy_str category with
                      | Some c => List.filter (in_category c) schemes_data
                      | None => schemes_data
                      end).
  set (by_state := match Py.truthy_str state with
                   | Some st => List.filter (available_in st) by_category
                   | None => by_category
                   end).
  assert (Hcat : forall s, In s by_category ->
                   In s schemes_data
                   /\ forall c, Py.truthy_str category = Some c ->
                                in_category c s = true).
  { subst by_category. intros s Hs.
    destruct (Py.truthy_str category) as [c|].
    - apply List.filter_In in Hs. destruct Hs as [Hin Hc].
      split; [exact Hin|]. intros c' E. injection E as <-. exact Hc.
    - split; [exact Hs | discriminate]. }
  assert (Hstate : forall s, In s by_state ->
                     In s by_category
                     /\ forall region, Py.truthy_str state = Some region ->
                                       available_in region s = true).
  { subst by_state. intros s Hs.
    destruct (Py.truthy_str state) as [st|].
    - apply List.filter_In in Hs. destruct Hs as [Hin Hc].
      split; [exact Hin|]. intros c' E. injection E as <-. exact Hc.
    - split; [exact Hs | discriminate]. }
  assert (Hsub1 : sublist by_category schemes_data).
  { subst by_category. destruct (Py.truthy_str category);
      [apply filter_sublist | reflexivity]. }
  assert (Hsub2 : sublist by_state by_category).
  { subst by_state. destruct (Py.truthy_str state);
      [apply filter_sublist | reflexivity]. }
  assert (Hsub3 : sublist (Py.slice_to limit by_state) by_state).
  { unfold Py.slice_to. destruct (limit <? 0)%Z; apply sublist_take. }
  split; [|split; [|split; [|split]]].
  - apply List.Forall_forall. intros s Hs. apply slice_to_In in Hs.
    destruct (Hstate s Hs) as [Hs' Hst]. destruct (Hcat s Hs') as [Hin Hc].
    auto.
  - etransitivity; [exact Hsub3|]. etransitivity; [exact Hsub2 | exact Hsub1].
  - apply slice_to_length.
  - intros s. apply scheme_category_is_a_label.
  - intros c Hc Hno.
    assert (by_category = []) as Hempty.
    { subst by_category. rewrite Hc. apply filter_none. intros s.
      unfold in_category.
      destruct (scheme_category_is_a_label s) as [Hl Hlow]. rewrite Hlow.
      destruct (String.eqb_spec (_get_scheme_category s) (Py.lower c)) as [E|_];
        [|reflexivity].
      exfalso. apply Hno. rewrite <- E. exact Hl. }
    subst by_state. rewrite Hempty.
    destruct (Py.truthy_str state); cbn [List.filter];
      unfold Py.slice_to; destruct (limit <? 0)%Z; cbn; apply firstn_nil.
Qed.

End Listing.

(* ===================================================================== *)
(** * Properties of the catalog statistics *)
(* ===================================================================== *)

Section Statistics.

Import DataLoader.

Lemma tally_counts (schemes : list Sch.Scheme) (stats : statistics) :
  let final := fold_left tally schemes stats in
  total_schemes final = total_schemes stats
  /\ schemes_with_translations final
     = schemes_with_translations stats
       + length (List.filter
                   (fun s => (nonempty (Sch.name_translations s)
                              || nonempty (Sch.description_translations s))%bool)
                   schemes)
  /\ schemes_with_deadlines final
     = schemes_with_deadlines stats
       + length (List.filter (fun s => is_some (Sch.deadline s)) schemes)
  /\ schemes_with_age_restrictions final
     = schemes_with_age_restrictions stats
       + length (List.filter
                   (fun s =>
                      (is_some (Py.truthy_int (Sch.min_age (Sch.eligibility s)))
                       || is_some (Py.truthy_int (Sch.max_age (Sch.eligibility s))))%bool)
                   schemes)
  /\ schemes_with_income_restrictions final
     = schemes_with_income_restrictions stats
       + length (List.filter
                   (fun s => is_some (Py.truthy_int (Sch.income_max (Sch.eligibility s))))
                   schemes)
  /\ schemes_with_category_restrictions final
     = schemes_with_category_restrictions stats
       + length (List.filter
                   (fun s => is_some (Py.truthy_list (Sch.categories (Sch.eligibility s))))
                   schemes)
  /\ schemes_with_state_restrictions final
     = schemes_with_state_restrictions stats
       + length (List.filter
                   (fun s => is_some (Py.truthy_list (Sch.states (Sch.eligibility s))))
                   schemes).
Proof.
  cbv zeta. revert stats.
  induction schemes as [|s l IH]; intros stats; cbn [fold_left List.filter length].
  - repeat split; lia.
  - destruct (IH (tally stats s)) as (H0 & H1 & H2 & H3 & H4 & H5 & H6).
    rewrite H0, H1, H2, H3, H4, H5, H6.
    cbn [tally total_schemes schemes_with_translations schemes_with_deadlines
         schemes_with_age_restrictions schemes_with_income_restrictions
         schemes_with_category_restrictions schemes_with_state_restrictions].
    unfold bump.
    repeat split;
      match goal with
      | |- context [if ?c then S _ else _] => destruct c
      | |- _ => idtac
      end; cbn [length]; lia.
Qed.

Lemma collect_elem (values : option (list string)) (seen : gset string)
    (x : string) :
  x ∈ collect values seen
  <-> x ∈ seen \/ exists l, values = Some l /\ In x l.
Proof.
  unfold collect, Py.truthy_list.
  destruct values as [[|y l]|].
  - split; [auto|]. intros [H|(l & E & Hin)]; [exact H|].
    injection E as <-. contradiction.
  - rewrite elem_of_union, elem_of_list_to_set, list_elem_of_In. split.
    + intros [H|H]; [left; exact H | right; eexists; split; [reflexivity | exact H]].
    + intros [H|(l' & E & Hin)]; [left; exact H|].
      injection E as <-. right. exact Hin.
  - split; [auto|]. intros [H|(l & E & _)]; [exact H | discriminate].
Qed.

Lemma collected_step (f : Sch.Scheme -> option (list string))
    (seen : gset string) (s : Sch.Scheme) (rest : list Sch.Scheme) (x : string) :
  ((x ∈ seen \/ exists l, f s = Some l /\ In x l)
   \/ exists s' l, In s' rest /\ f s' = Some l /\ In x l)
  <-> (x ∈ seen
       \/ exists s' l, (s = s' \/ In s' rest) /\ f s' = Some l /\ In x l).
Proof.
  split.
  - intros [[H|(l & E & Hin)]|(s' & l & Hs & E & Hin)].
    + left. exact H.
    + right. exists s, l. auto.
    + right. exists s', l. auto.
  - intros [H|(s' & l & [<-|Hs] & E & Hin)].
    + left. left. exact H.
    + left. right. exists l. auto.
    + right. exists s', l. auto.
Qed.

Lemma tally_sets (schemes : list Sch.Scheme) (stats : statistics) (x : string) :
  let final := fold_left tally schemes stats in
  (x ∈ unique_states final
   <-> x ∈ unique_states stats
       \/ exists s l, In s schemes
                      /\ Sch.states (Sch.eligibility s) = Some l /\ In x l)
  /\ (x ∈ unique_categories final
      <-> x ∈ unique_categories stats
          \/ exists s l, In s schemes
                         /\ Sch.categories (Sch.eligibility s) = Some l /\ In x l)
  /\ (x ∈ unique_occupations final
      <-> x ∈ unique_occupations stats
          \/ exists s l, In s schemes
                         /\ Sch.occupations (Sch.eligibility s) = Some l /\ In x l).
Proof.
  cbv zeta. revert stats.
  induction schemes as [|s rest IH]; intros stats; cbn [fold_left In].
  - repeat split; try (intros H; left; exact H);
      intros [H|(s & l & [] & _)]; exact H.
  - destruct (IH (tally stats s)) as (H1 & H2 & H3).
    rewrite H1, H2, H3.
    cbn [tally unique_states unique_categories unique_occupations].
    rewrite !collect_elem.
    split; [|split].
    + apply (collected_step (fun s => Sch.states (Sch.eligibility s))).
    + apply (collected_step (fun s => Sch.categories (Sch.eligibility s))).
    + apply (collected_step (fun s => Sch.occupations (Sch.eligibility s))).
Qed.

(** X29.  The statistics of [validate_schemes]: the total is the number
    of schemes; each of the six counters is exactly the number of schemes
    meeting its condition (a bound or limit of 0 and an empty list do not
    count as a restriction), hence at most the total; and a name is among
    the states, categories or occupations collected exactly when some
    scheme lists it. *)
Theorem validate_schemes_counts_and_collects (schemes : list Sch.Scheme) :
  let stats := validate_schemes schemes in
  total_schemes stats = length schemes
  /\ schemes_with_state_restrictions stats
     = length (List.filter
                 (fun s => is_some (Py.truthy_list (Sch.states (Sch.eligibility s))))
                 schemes)
  /\ schemes_with_age_restrictions stats
     = length (List.filter
                 (fun s =>
                    (is_some (Py.truthy_int (Sch.min_age (Sch.eligibility s)))
                     || is_some (Py.truthy_int (Sch.max_age (Sch.eligibility s))))%bool)
                 schemes)
  /\ schemes_with_translations stats
     = length (List.filter
                 (fun s => (nonempty (Sch.name_translations s)
                            || nonempty (Sch.description_translations s))%bool)
                 schemes)
  /\ schemes_with_deadlines stats
     = length (List.filter (fun s => is_some (Sch.deadline s)) schemes)
  /\ schemes_with_income_restrictions stats
     = length (List.filter
                 (fun s => is_some (Py.truthy_int (Sch.income_max (Sch.eligibility s))))
                 schemes)
  /\ schemes_with_category_restrictions stats
     = length (List.filter
                 (fun s => is_some (Py.truthy_list (Sch.categories (Sch.eligibility s))))
                 schemes)
  /\ (schemes_with_translations stats <= length schemes
      /\ schemes_with_deadlines stats <= length schemes
      /\ schemes_with_age_restrictions stats <= length schemes
      /\ schemes_with_income_restrictions stats <= length schemes
      /\ schemes_with_category_restrictions stats <= length schemes
      /\ schemes_with_state_restrictions stats <= length schemes)
  /\ (forall x,
        (x ∈ unique_states stats
         <-> exists s l, In s schemes
                         /\ Sch.states (Sch.eligibility s) = Some l /\ In x l)
        /\ (x ∈ unique_categories stats
            <-> exists s l, In s schemes
                            /\ Sch.categories (Sch.eligibility s) = Some l
                            /\ In x l)
        /\ (x ∈ unique_occupations stats
            <-> exists s l, In s schemes
                            /\ Sch.occupations (Sch.eligibility s) = Some l
                            /\ In x l)).
Proof.
  cbv zeta. unfold validate_schemes.
  match goal with
  | |- context [fold_left tally schemes ?init] =>
      pose proof (tally_counts schemes init) as Hc;
      pose proof (fun x => tally_sets schemes init x) as Hs
  end.
  cbv zeta in Hc, Hs.
  cbn [total_schemes schemes_with_translations schemes_with_deadlines
       schemes_with_age_restrictions schemes_with_income_restrictions
       schemes_with_category_restrictions schemes_with_state_restrictions
       unique_states unique_categories unique_occupations] in Hc, Hs.
  destruct Hc as (H0 & H1 & H2 & H3 & H4 & H5 & H6).
  cbn [Nat.add] in H1, H2, H3, H4, H5, H6.
  split; [exact H0|]. split; [exact H6|]. split; [exact H3|].
  split; [exact H1|]. split; [exact H2|]. split; [exact H4|].
  split; [exact H5|]. split.
  - rewrite H1, H2, H3, H4, H5, H6.
    repeat split; apply filter_shorter.
  - intros x. destruct (Hs x) as (S1 & S2 & S3).
    rewrite S1, S2, S3. repeat split;
      try (intros [H|H]; [apply not_elem_of_empty in H; contradiction | exact H]);
      intros H; right; exact H.
Qed.

End Statistics.
